(** * slamdunk: conversion counting (dunks/tcounter.py)

    A shallow embedding of [collapse] and [computeTconversions] from
    [slamdunk/dunks/tcounter.py], with the properties of the per-interval
    aggregator, the bedgraph accumulator and the gene roll-up.

    Conventions of the embedding
    - Python integers are [Z]; Python floats are rationals [Q] (an exact
      idealisation: rounding is not modelled);
    - a raised exception ends the computation: fallible code lives in the
      [result] monad, and what was already written to an output file is
      kept next to the exception;
    - dictionaries are [gmap]s, lists used as arrays are [list Z] updated by
      index. *)

From Stdlib Require Import ZArith QArith String Ascii List Lia.
From Stdlib Require Import DecimalString DecimalPos DecimalZ.
From stdpp Require Import base option list strings gmap sorting.

Local Open Scope Z_scope.
Local Open Scope string_scope.

(** ** Python exceptions and the error monad *)

Inductive exn : Type :=
  | RuntimeError (msg : string)
  | TypeError
  | ValueError
  | IndexError
  | ZeroDivisionError
  | UnboundLocalError.

Inductive result (A : Type) : Type :=
  | Ok (a : A)
  | Raise (e : exn).
Arguments Ok {A} a.
Arguments Raise {A} e.

#[global] Instance result_ret : MRet result := fun A a => Ok a.
#[global] Instance result_bind : MBind result := fun A B f m =>
  match m with
  | Ok a => f a
  | Raise e => Raise e
  end.

Definition is_Ok {A} (r : result A) : Prop := exists a, r = Ok a.

(** A loop [for x in xs: body] whose body may raise. *)
Fixpoint for_each {A S : Type} (body : S -> A -> result S) (xs : list A) (s : S)
  : result S :=
  match xs with
  | [] => Ok s
  | x :: xs' => s' ← body s x; for_each body xs' s'
  end.

(** ** Python string primitives *)

Module Py.

(** The characters removed by [str.strip()] / [str.rstrip()] without
    argument: space, tab, newline, vertical tab, form feed, return. *)
Definition is_space (c : ascii) : bool :=
  match c with
  | " "%char | "009"%char | "010"%char | "011"%char | "012"%char | "013"%char => true
  | _ => false
  end.

Fixpoint rstrip (s : string) : string :=
  match s with
  | EmptyString => EmptyString
  | String c s' =>
      match rstrip s' with
      | EmptyString => if is_space c then EmptyString else String c EmptyString
      | r => String c r
      end
  end.

Fixpoint lstrip (s : string) : string :=
  match s with
  | EmptyString => EmptyString
  | String c s' => if is_space c then lstrip s' else s
  end.

Definition strip (s : string) : string := rstrip (lstrip s).

(** [s.split(sep)] for a one-character separator. *)
Fixpoint split (sep : ascii) (s : string) : list string :=
  match s with
  | EmptyString => [EmptyString]
  | String c s' =>
      if Ascii.eqb c sep then EmptyString :: split sep s'
      else match split sep s' with
           | f :: fs => String c f :: fs
           | [] => [String c EmptyString]
           end
  end.

Definition upper_char (c : ascii) : ascii :=
  let n := nat_of_ascii c in
  if ((97 <=? n)%nat && (n <=? 122)%nat)%bool then ascii_of_nat (n - 32) else c.

Fixpoint upper (s : string) : string :=
  match s with
  | EmptyString => EmptyString
  | String c s' => String (upper_char c) (upper s')
  end.

(** [s.count(c)] for a one-character pattern. *)
Fixpoint count (c : ascii) (s : string) : Z :=
  match s with
  | EmptyString => 0
  | String d s' => (if Ascii.eqb d c then 1 else 0) + count c s'
  end.

(** [s[i]] on a string: the character, or [IndexError] past the end. *)
Definition get_char (s : string) (i : nat) : result ascii :=
  match String.get i s with
  | Some c => Ok c
  | None => Raise IndexError
  end.

(** [str(n)] for an integer. *)
Definition str (z : Z) : string := NilZero.string_of_int (Z.to_int z).

(** [int(s)] for a string: surrounding whitespace is ignored, an optional
    sign is followed by at least one decimal digit; anything else raises
    [ValueError]. *)
Definition int (s : string) : result Z :=
  let t := strip s in
  let parsed :=
    match t with
    | EmptyString => None
    | String c r =>
        if Ascii.eqb c "+" then option_map Z.of_uint (NilZero.uint_of_string r)
        else option_map Z.of_int (NilZero.int_of_string t)
    end in
  match parsed with
  | Some z => Ok z
  | None => Raise ValueError
  end.

(** [l[i]] on a list. *)
Definition index {A} (l : list A) (i : nat) : result A :=
  match l !! i with
  | Some x => Ok x
  | None => Raise IndexError
  end.

End Py.

Definition tab : ascii := "009"%char.
Definition colon : ascii := ":"%char.

(** ** The gene roll-up: [collapse] *)

Module Collapse.

(** [tcDict[gene]]: the inner dictionary always carries the same seven
    keys, so it is a record. *)
Record GeneTotals : Type := {
  length_ : Z;
  Tcontent : Z;
  coverageOnTs : Z;
  conversionsOnTs : Z;
  readCount : Z;
  tcReadCount : Z;
  multimapCount : Z
}.

(** The variables that live across the iterations of [for line in f]:
    the dictionary, the running [readNumber], and the last values bound to
    [line] and [fields] (read by the [else] clause of the [for]). *)
Record LoopState : Type := {
  tcDict : gmap string GeneTotals;
  readNumber : Z;
  lastLine : option (string * list string)
}.

Definition initial : LoopState :=
  {| tcDict := ∅; readNumber := 0; lastLine := None |}.

(** Body of [for line in f]. *)
Definition loop_body (st : LoopState) (line : string) : result LoopState :=
  let fields := Py.split tab (Py.rstrip line) in
  if decide (length fields = 14%nat) then
    let gene := fields !!! 3%nat in
    let length := fields !!! 4%nat in
    let Tcontent := fields !!! 8%nat in
    let coverageOnTs := fields !!! 9%nat in
    let conversionsOnTs := fields !!! 10%nat in
    let readCount := fields !!! 11%nat in
    let tcReadCount := fields !!! 12%nat in
    let multimapCount := fields !!! 13%nat in
    l ← Py.int length;
    t ← Py.int Tcontent;
    cov ← Py.int coverageOnTs;
    conv ← Py.int conversionsOnTs;
    rc ← Py.int readCount;
    tc ← Py.int tcReadCount;
    mm ← Py.int multimapCount;
    let entry :=
      match tcDict st !! gene with
      | Some g =>
          {| length_ := length_ g + Z.max l 0;
             Tcontent := Collapse.Tcontent g + Z.max t 0;
             coverageOnTs := Collapse.coverageOnTs g + Z.max cov 0;
             conversionsOnTs := Collapse.conversionsOnTs g + Z.max conv 0;
             readCount := Collapse.readCount g + Z.max rc 0;
             tcReadCount := Collapse.tcReadCount g + Z.max tc 0;
             multimapCount := Collapse.multimapCount g + Z.max mm 0 |}
      | None =>
          {| length_ := Z.max l 0;
             Tcontent := Z.max t 0;
             coverageOnTs := Z.max cov 0;
             conversionsOnTs := Z.max conv 0;
             readCount := Z.max rc 0;
             tcReadCount := Z.max tc 0;
             multimapCount := Z.max mm 0 |}
      end in
    Ok {| tcDict := <[gene := entry]> (tcDict st);
          readNumber := readNumber st + rc;
          lastLine := Some (line, fields) |}
  else
    Ok {| tcDict := tcDict st;
          readNumber := readNumber st;
          lastLine := Some (line, fields) |}.

(** The [else] clause belongs to the [for], not to the [if]: it runs once,
    after the last line, and reads the [fields] and [line] of that line. *)
Definition for_else (st : LoopState) : result string :=
  match lastLine st with
  | Some (line, fields) =>
      Ok ("Error in TC file format - unexpected number of fields ("
          +:+ Py.str (Z.of_nat (length fields))
          +:+ ") in the following line:" +:+ String "010"%char line)
  | None => Raise UnboundLocalError
  end.

(** One data line of the collapsed table. *)
Record GeneRow : Type := {
  gene_name : string;
  row_length : Z;
  readsCPM : Q;
  conversionRate : Q;
  row_Tcontent : Z;
  row_coverageOnTs : Z;
  row_conversionsOnTs : Z;
  row_readCount : Z;
  row_tcReadCount : Z;
  row_multimapCount : Z
}.

Definition str_le (s1 s2 : string) : Prop := String.leb s1 s2 = true.
#[global] Instance str_le_dec : RelDecision str_le.
Proof. intros s1 s2. unfold str_le. apply _. Defined.

Definition sorted_keys (d : gmap string GeneTotals) : list string :=
  merge_sort str_le (map_to_list d).*1.

(** Lines 77-89: the line of one gene, for a non-zero [readNumber]. *)
Definition gene_row (gene : string) (g : GeneTotals) (readNumber : Z) : GeneRow :=
  let conversionRate :=
    if decide (0 < coverageOnTs g)
    then (inject_Z (conversionsOnTs g) / inject_Z (coverageOnTs g))%Q
    else 0%Q in
  {| gene_name := gene;
     row_length := length_ g;
     readsCPM := (inject_Z (readCount g) / inject_Z readNumber * 1000000)%Q;
     conversionRate := conversionRate;
     row_Tcontent := Tcontent g;
     row_coverageOnTs := coverageOnTs g;
     row_conversionsOnTs := conversionsOnTs g;
     row_readCount := readCount g;
     row_tcReadCount := tcReadCount g;
     row_multimapCount := multimapCount g |}.

(** Body of [for gene in sorted(tcDict.keys())]: the division by
    [float(readNumber)] at line 79 is not guarded. *)
Definition emit_gene (d : gmap string GeneTotals) (readNumber : Z)
    (out : list GeneRow) (gene : string) : result (list GeneRow) :=
  match d !! gene with
  | None => Raise IndexError
  | Some g =>
      if decide (readNumber = 0) then Raise ZeroDivisionError
      else Ok (out ++ [gene_row gene g readNumber])%list
  end.

(** What a call leaves behind: the messages printed to [log], the data
    lines completed in [collapsedCSV] (after its header line), and the
    exception that ended the call, if any. *)
Record Outcome : Type := {
  log : list string;
  outCSV : list GeneRow;
  raised : option exn
}.

(** [collapse(expandedCSV, collapsedCSV, log)], on the lines of
    [expandedCSV] (each with its line terminator). *)
Definition collapse (lines : list string) : Outcome :=
  match for_each loop_body lines initial with
  | Raise e => {| log := []; outCSV := []; raised := Some e |}
  | Ok st =>
      match for_else st with
      | Raise e => {| log := []; outCSV := []; raised := Some e |}
      | Ok msg =>
          match for_each (emit_gene (tcDict st) (readNumber st))
                         (sorted_keys (tcDict st)) [] with
          | Raise e => {| log := [msg]; outCSV := []; raised := Some e |}
          | Ok rows => {| log := [msg]; outCSV := rows; raised := None |}
          end
      end
  end.

End Collapse.

(** ** Printed lines *)

(** A value handed to [print], and the line one [print(a, b, ..., file=f)]
    call writes: the [str] of each argument, joined by the separator. *)
Inductive pyval : Type :=
  | PStr (s : string)
  | PInt (z : Z)
  | PFloat (q : Q).

Record Printed : Type := {
  print_sep : string;
  print_args : list pyval
}.

(** [print(a, b, ...)] without [sep=]: the separator is one space. *)
Definition print (args : list pyval) : Printed :=
  {| print_sep := " "; print_args := args |}.

(** ** The interval aggregator: [computeTconversions] *)

Module TCounter.

(** *** The collaborators the function is handed *)

Inductive ReadDirection : Type := Forward | Reverse.

(** A mismatch of a read: its offset in the interval, and the answer of
    [isTCMismatch(isReverse)]. *)
Record Mismatch : Type := {
  referencePosition : Z;
  isTCMismatch : bool -> bool
}.

(** A read as the read iterator yields it.  ([conversionRates] and
    [tcRate] are overwritten by the strict filter but never read in this
    function; they are left out.) *)
Record Read : Type := {
  direction : ReadDirection;
  startRefPos : Z;
  endRefPos : Z;
  mismatches : list Mismatch;
  isMultimapper : bool;
  tcCount : Z;
  isTcRead : bool
}.

(** What [testFile.readInRegion(...)] returns: the reads of the region and
    the reference sequence [getRefSeq()] hands out for it. *)
Record ReadIterator : Type := {
  reads : list Read;
  getRefSeq : string
}.

Record SlamSeqBamFile : Type := {
  bamVersion : string;
  readInRegion : string -> Z -> Z -> string -> Z -> ReadIterator
}.

(** [pysam.FastaFile]: the names of its sequences and [fetch(region=...)]. *)
Record FastaFile : Type := {
  references : list string;
  fetch : string -> string
}.

(** One entry of the BED file. *)
Record BedEntry : Type := {
  chromosome : string;
  start : Z;
  stop : Z;
  strand : string;
  name : string
}.

(** Modelled from the spec: [BedEntry.hasStrand] is not part of this file;
    the strand of an interval is [+] or [-], and anything else is a missing
    strand. *)
Definition hasStrand (utr : BedEntry) : bool :=
  bool_decide (strand utr = "+") || bool_decide (strand utr = "-").

(** Modelled from the spec: [BedEntry.getLength] is not part of this file;
    length = stop - start. *)
Definition getLength (utr : BedEntry) : Z := stop utr - start utr.

(** The row of the count table.  The class [SlamSeqInterval] is not part of
    this file; its fields are the constructor's arguments, in the order in
    which line 255 passes them. *)
Record SlamSeqInterval : Type := {
  iv_chromosome : string;
  iv_start : Z;
  iv_stop : Z;
  iv_strand : string;
  iv_name : string;
  Tcontent : Z;
  readsCPM : Q;
  coverageOnTs : Z;
  conversionsOnTs : Z;
  conversionRate : Q;
  readCount : Z;
  tcReadCount : Z;
  multiMapCount : Z
}.

(** *** The scan of the reads of one interval *)

Record Scan : Type := {
  tcCountUtr : list Z;
  coverageUtr : list Z;
  countFwd : Z;
  tcCountFwd : Z;
  countRev : Z;
  tCountRev : Z;
  multiMapFwd : Z;
  multiMapRev : Z
}.

(** [[0] * n]: the empty list when [n] is negative. *)
Definition zeros (n : Z) : list Z := replicate (Z.to_nat n) 0.

Definition scan_init (utr : BedEntry) : Scan :=
  {| tcCountUtr := zeros (getLength utr);
     coverageUtr := zeros (getLength utr);
     countFwd := 0; tcCountFwd := 0; countRev := 0; tCountRev := 0;
     multiMapFwd := 0; multiMapRev := 0 |}.

(** Lines 165-169: a read that is not a TC read loses its conversions when
    [strictTCs] is set. *)
Definition strict_filter (strictTCs : bool) (read : Read) : Read :=
  if negb (isTcRead read) && strictTCs then
    {| direction := direction read;
       startRefPos := startRefPos read;
       endRefPos := endRefPos read;
       mismatches := [];
       isMultimapper := isMultimapper read;
       tcCount := 0;
       isTcRead := isTcRead read |}
  else read.

Definition is_reverse (read : Read) : bool :=
  match direction read with Reverse => true | Forward => false end.

(** [arr[i] += 1]. *)
Definition incr (arr : list Z) (i : Z) : list Z :=
  alter (fun x => x + 1) (Z.to_nat i) arr.

(** Lines 184-186, one mismatch. *)
Definition count_mismatch (utr : BedEntry) (rev : bool) (arr : list Z) (m : Mismatch)
  : list Z :=
  if isTCMismatch m rev
     && bool_decide (0 <= referencePosition m)
     && bool_decide (referencePosition m < getLength utr)
  then incr arr (referencePosition m) else arr.

(** Lines 188-190, one offset of the read's span. *)
Definition cover (utr : BedEntry) (arr : list Z) (i : Z) : list Z :=
  if bool_decide (0 <= i) && bool_decide (i < getLength utr)
  then incr arr i else arr.

Definition b2z (b : bool) : Z := if b then 1 else 0.

(** Body of [for read in readIterator] (lines 162-190). *)
Definition count_read (utr : BedEntry) (strictTCs : bool) (s : Scan) (read0 : Read)
  : Scan :=
  let read := strict_filter strictTCs read0 in
  let rev := is_reverse read in
  {| tcCountUtr := foldl (count_mismatch utr rev) (tcCountUtr s) (mismatches read);
     coverageUtr :=
       foldl (cover utr) (coverageUtr s)
             (seqZ (startRefPos read) (endRefPos read - startRefPos read));
     countFwd := if rev then countFwd s else countFwd s + 1;
     tcCountFwd :=
       if rev then tcCountFwd s
       else tcCountFwd s + b2z (bool_decide (0 < tcCount read));
     countRev := if rev then countRev s + 1 else countRev s;
     tCountRev :=
       if rev then tCountRev s + b2z (bool_decide (0 < tcCount read))
       else tCountRev s;
     multiMapFwd :=
       if rev then multiMapFwd s else multiMapFwd s + b2z (isMultimapper read);
     multiMapRev :=
       if rev then multiMapRev s + b2z (isMultimapper read) else multiMapRev s |}.

Definition scan_reads (utr : BedEntry) (strictTCs : bool) (rs : list Read) : Scan :=
  foldl (count_read utr strictTCs) (scan_init utr) rs.

(** *** The positions of one interval (lines 194-242) *)

#[global] Instance Q_inhabited : Inhabited Q := populate 0%Q.

(** Line 194. *)
Definition rate (x y : Z) : Q :=
  if decide (0 < y) then (inject_Z x * 100 / inject_Z y)%Q else 0%Q.

Definition tcRates (s : Scan) : list Q :=
  zip_with rate (tcCountUtr s) (coverageUtr s).

(** Line 235: the key of the bedgraph dictionary. *)
Definition bedgraph_key (chrom : string) (pos : Z) (strand : string) : string :=
  chrom +:+ ":" +:+ Py.str pos +:+ ":" +:+ strand.

Record PosAcc : Type := {
  coveredTcount : Z;
  avgConversationRate : Q;
  coveredPositions : Z;
  accCoverageOnTs : Z;
  accConversionsOnTs : Z;
  conversionBedGraph : gmap string Q
}.

(** The condition of line 226, with Python's evaluation order: [refSeq] is
    indexed only once the tests before it have passed. *)
Definition on_convertible (utr : BedEntry) (refSeq : string) (cov : Z) (position : nat)
  : result bool :=
  if decide (0 < cov) then
    if decide (strand utr = "+") then
      c ← Py.get_char refSeq position;
      Ok (Ascii.eqb c "T")
    else if decide (strand utr = "-") then
      c ← Py.get_char refSeq position;
      Ok (Ascii.eqb c "A")
    else Ok false
  else Ok false.

(** Body of [for position in xrange(0, len(coverageUtr))]. *)
Definition position_body (utr : BedEntry) (refSeq : string) (s : Scan)
    (acc : PosAcc) (position : nat) : result PosAcc :=
  let cov := coverageUtr s !!! position in
  hit ← on_convertible utr refSeq cov position;
  let acc1 :=
    if hit : bool then
      {| coveredTcount := coveredTcount acc + 1;
         avgConversationRate := (avgConversationRate acc + tcRates s !!! position)%Q;
         coveredPositions := coveredPositions acc;
         accCoverageOnTs := accCoverageOnTs acc + cov;
         accConversionsOnTs := accConversionsOnTs acc + tcCountUtr s !!! position;
         conversionBedGraph :=
           <[bedgraph_key (chromosome utr) (start utr + Z.of_nat position) (strand utr)
             := tcRates s !!! position]> (conversionBedGraph acc) |}
    else acc in
  Ok (if decide (0 < cov) then
        {| coveredTcount := coveredTcount acc1;
           avgConversationRate := avgConversationRate acc1;
           coveredPositions := coveredPositions acc1 + 1;
           accCoverageOnTs := accCoverageOnTs acc1;
           accConversionsOnTs := accConversionsOnTs acc1;
           conversionBedGraph := conversionBedGraph acc1 |}
      else acc1).

Definition pos_init (bg : gmap string Q) : PosAcc :=
  {| coveredTcount := 0; avgConversationRate := 0%Q; coveredPositions := 0;
     accCoverageOnTs := 0; accConversionsOnTs := 0; conversionBedGraph := bg |}.

Definition scan_positions (utr : BedEntry) (refSeq : string) (s : Scan)
    (bg : gmap string Q) : result PosAcc :=
  for_each (position_body utr refSeq s) (seq 0 (length (coverageUtr s))) (pos_init bg).

(** *** One interval (lines 129-258) *)

(** Line 130: the row built before anything is known about the interval.
    [Tcontent] is [0] at this point (line 129), and the eighth argument,
    the one line 255 calls [coverageOnTs], is [-1]. *)
Definition default_row (utr : BedEntry) : SlamSeqInterval :=
  let Tcontent := 0 in
  {| iv_chromosome := chromosome utr; iv_start := start utr; iv_stop := stop utr;
     iv_strand := strand utr; iv_name := name utr;
     Tcontent := Tcontent; readsCPM := 0%Q; coverageOnTs := -1;
     conversionsOnTs := 0; conversionRate := 0%Q;
     readCount := 0; tcReadCount := 0; multiMapCount := 0 |}.

(** Line 137. *)
Definition region (utr : BedEntry) : string :=
  chromosome utr +:+ ":" +:+ Py.str (start utr + 1) +:+ "-" +:+ Py.str (stop utr).

(** Lines 139-147: the value of the variable [Tcontent] after them. *)
Definition compute_Tcontent (referenceFile : FastaFile) (utr : BedEntry) : Z :=
  if decide (chromosome utr ∈ references referenceFile) then
    let refSeq := Py.upper (fetch referenceFile (region utr)) in
    if decide (strand utr = "-") then Py.count "A" refSeq
    else Py.count "T" refSeq
  else 0.

(** Line 193. *)
Definition strand_has_reads (utr : BedEntry) (s : Scan) : bool :=
  (bool_decide (strand utr = "+") && bool_decide (0 < countFwd s))
  || (bool_decide (strand utr = "-") && bool_decide (0 < countRev s)).

(** Line 205. *)
Definition opposite_strand_dominates (utr : BedEntry) (s : Scan) : bool :=
  (bool_decide (strand utr = "-") && bool_decide (countRev s < countFwd s))
  || (bool_decide (strand utr = "+") && bool_decide (countFwd s < countRev s)).

(** Lines 196-203 and 244-255: the row built from the counters of the
    annotated strand and the sums over the positions. *)
Definition counted_row (utr : BedEntry) (Tcontent readNumber : Z) (s : Scan)
    (acc : PosAcc) : SlamSeqInterval :=
  let readCount := if decide (strand utr = "-") then countRev s else countFwd s in
  let tcReadCount := if decide (strand utr = "-") then tCountRev s else tcCountFwd s in
  let multiMapCount :=
    if decide (strand utr = "-") then multiMapRev s else multiMapFwd s in
  let readsCPM :=
    if decide (0 < readNumber)
    then (inject_Z readCount * 1000000 / inject_Z readNumber)%Q else 0%Q in
  let coverageOnTs := accCoverageOnTs acc in
  let conversionsOnTs := accConversionsOnTs acc in
  let conversionRate :=
    if decide (0 < coverageOnTs)
    then (inject_Z conversionsOnTs / inject_Z coverageOnTs)%Q else 0%Q in
  {| iv_chromosome := chromosome utr; iv_start := start utr;
     iv_stop := stop utr; iv_strand := strand utr; iv_name := name utr;
     Tcontent := Tcontent; readsCPM := readsCPM;
     coverageOnTs := coverageOnTs; conversionsOnTs := conversionsOnTs;
     conversionRate := conversionRate;
     readCount := readCount; tcReadCount := tcReadCount;
     multiMapCount := multiMapCount |}.

(** Lines 193-255: the row and the bedgraph after the scan.  Line 206
    builds its message with [str + int] ([countFwd] and [countRev] are
    integers), which raises [TypeError] before anything is printed. *)
Definition summarise (utr : BedEntry) (Tcontent readNumber : Z) (refSeq : string)
    (s : Scan) (bg : gmap string Q) : result (SlamSeqInterval * gmap string Q) :=
  if strand_has_reads utr s then
    if opposite_strand_dominates utr s then Raise TypeError
    else
      acc ← scan_positions utr refSeq s bg;
      Ok (counted_row utr Tcontent readNumber s acc, conversionBedGraph acc)
  else Ok (default_row utr, bg).

(** Body of [for utr in BedIterator(bed)]: the row printed at line 258 and
    the bedgraph dictionary after it.  Line 135 concatenates a string and
    the BED entry itself ([... + utr], an object of a plain class and not a
    string), which raises [TypeError] while the message of the
    [RuntimeError] is being built. *)
Definition process_utr (referenceFile : FastaFile) (testFile : SlamSeqBamFile)
    (readNumber maxReadLength : Z) (strictTCs : bool)
    (bg : gmap string Q) (utr : BedEntry)
  : result (SlamSeqInterval * gmap string Q) :=
  if negb (hasStrand utr) then
    Raise (RuntimeError "Input BED file does not contain stranded intervals.")
  else if decide (start utr < 0) then Raise TypeError
  else
    let Tcontent := compute_Tcontent referenceFile utr in
    let readIterator :=
      readInRegion testFile (chromosome utr) (start utr) (stop utr) (strand utr)
                   maxReadLength in
    let s := scan_reads utr strictTCs (reads readIterator) in
    summarise utr Tcontent readNumber (getRefSeq readIterator) s bg.

(** *** The bedgraph files (lines 267-278) *)

Definition Bedgraphs : Type := (list Printed * list Printed)%type.

(** Body of [for position in conversionBedGraph]. *)
Definition write_position (files : Bedgraphs) (entry : string * Q) : result Bedgraphs :=
  let '(position, value) := entry in
  let positionData := Py.split colon position in
  s ← Py.index positionData 2;
  c ← Py.index positionData 0;
  p ← Py.index positionData 1;
  n ← Py.int p;
  let line := print [PStr c; PStr p; PInt (n + 1); PFloat value] in
  if decide (s = "+") then Ok ((files.1 ++ [line])%list, files.2)
  else Ok (files.1, (files.2 ++ [line])%list).

Definition write_bedgraphs (bg : gmap string Q) : result Bedgraphs :=
  for_each write_position (map_to_list bg) ([], []).

(** *** The whole run *)

(** What a run leaves behind: the data rows written to [outputCSV] (after
    its two header lines), and either the exception that ended the run or
    the lines of the plus and the minus bedgraph file. *)
Record Run : Type := {
  fileCSV : list SlamSeqInterval;
  ending : result Bedgraphs
}.

Fixpoint utr_loop (referenceFile : FastaFile) (testFile : SlamSeqBamFile)
    (readNumber maxReadLength : Z) (strictTCs : bool)
    (bed : list BedEntry) (rows : list SlamSeqInterval) (bg : gmap string Q) : Run :=
  match bed with
  | [] => {| fileCSV := rows; ending := write_bedgraphs bg |}
  | utr :: bed' =>
      match process_utr referenceFile testFile readNumber maxReadLength strictTCs
                        bg utr with
      | Raise e => {| fileCSV := rows; ending := Raise e |}
      | Ok (row, bg') =>
          utr_loop referenceFile testFile readNumber maxReadLength strictTCs
                   bed' (rows ++ [row])%list bg'
      end
  end.

(** [computeTconversions]; [bam_version] is [__bam_version__] of
    [slamdunk.version], [readNumber] is [getReadCount(bam).MappedReads]. *)
Definition computeTconversions (bam_version : string) (referenceFile : FastaFile)
    (bed : list BedEntry) (testFile : SlamSeqBamFile)
    (readNumber maxReadLength : Z) (strictTCs : bool) : Run :=
  if decide (bamVersion testFile = bam_version) then
    utr_loop referenceFile testFile readNumber maxReadLength strictTCs bed [] ∅
  else
    {| fileCSV := [];
       ending := Raise (RuntimeError
         ("Wrong filtered BAM file version detected (" +:+ bamVersion testFile
          +:+ "). Expected version " +:+ bam_version
          +:+ ". Please rerun slamdunk filter.")) |}.

End TCounter.

(** ** Sample inputs *)

Module Samples.

Definition tabbed (fields : list string) : string :=
  String.concat (String tab EmptyString) fields +:+ String "010"%char EmptyString.

(** A row of the count table: 14 fields, gene name at index 3,
    [coverageOnTs], [conversionsOnTs] and [readCount] at 9, 10 and 11. *)
Definition count_row (gene coverageOnTs conversionsOnTs readCount : string) : string :=
  tabbed ["chr1"; "100"; "110"; gene; "10"; "+"; "0.1"; "5.0"; "10";
          coverageOnTs; conversionsOnTs; readCount; "1"; "0"].

(** The same row with its last field missing: 13 fields. *)
Definition short_row (gene : string) : string :=
  tabbed ["chr1"; "100"; "110"; gene; "10"; "+"; "0.1"; "5.0"; "10";
          "20"; "2"; "7"; "1"].

Import TCounter.

(** [chr1:100-110] on the plus strand, over ten [T]s. *)
Definition utr_plus : BedEntry :=
  {| chromosome := "chr1"; start := 100; stop := 110; strand := "+"; name := "utr1" |}.

Definition fasta : FastaFile :=
  {| references := ["chr1"]; fetch := fun _ => "TTTTTTTTTT" |}.

Definition conversion_at (p : Z) : Mismatch :=
  {| referencePosition := p; isTCMismatch := fun _ => true |}.

Definition read (d : ReadDirection) (s e : Z) (ms : list Mismatch) : Read :=
  {| direction := d; startRefPos := s; endRefPos := e; mismatches := ms;
     isMultimapper := false; tcCount := Z.of_nat (length ms);
     isTcRead := bool_decide (ms <> []) |}.

Definition bam (rs : list Read) : SlamSeqBamFile :=
  {| bamVersion := "3";
     readInRegion := fun _ _ _ _ _ => {| reads := rs; getRefSeq := "TTTTTTTTTT" |} |}.

Definition run (rs : list Read) : Run :=
  computeTconversions "3" fasta [utr_plus] (bam rs) 1000000 100 false.

(** A one-base interval, [chr1:100-101]. *)
Definition utr_single : BedEntry :=
  {| chromosome := "chr1"; start := 100; stop := 101; strand := "+"; name := "utr0" |}.


(** A second interval, [chr1:200-204], and an alignment file that hands
    out the reads of each interval by its start coordinate. *)
Definition utr_second : BedEntry :=
  {| chromosome := "chr1"; start := 200; stop := 204; strand := "+"; name := "utr2" |}.

Definition bam_by_start (rs : Z -> list Read) : SlamSeqBamFile :=
  {| bamVersion := "3";
     readInRegion := fun _ start _ _ _ =>
       {| reads := rs start; getRefSeq := "TTTTTTTTTT" |} |}.

End Samples.

(** ** Vocabulary of the statements *)

(** The fields [collapse] sees in a line. *)
Definition fields_of (line : string) : list string :=
  Py.split tab (Py.rstrip line).

(** The gene name and the seven numbers of a well-formed row, as written
    (not clamped); [None] for a row that is skipped or does not parse. *)
Definition row_values (line : string) : option (string * Collapse.GeneTotals) :=
  let fields := fields_of line in
  if decide (length fields = 14%nat) then
    match Py.int (fields !!! 4%nat), Py.int (fields !!! 8%nat),
          Py.int (fields !!! 9%nat), Py.int (fields !!! 10%nat),
          Py.int (fields !!! 11%nat), Py.int (fields !!! 12%nat),
          Py.int (fields !!! 13%nat) with
    | Ok l, Ok t, Ok cov, Ok conv, Ok rc, Ok tc, Ok mm =>
        Some (fields !!! 3%nat,
              {| Collapse.length_ := l; Collapse.Tcontent := t;
                 Collapse.coverageOnTs := cov; Collapse.conversionsOnTs := conv;
                 Collapse.readCount := rc; Collapse.tcReadCount := tc;
                 Collapse.multimapCount := mm |})
    | _, _, _, _, _, _, _ => None
    end
  else None.

(** The totals of a gene so far: all zero for a gene not seen yet. *)
Definition totals_of (st : Collapse.LoopState) (gene : string) : Collapse.GeneTotals :=
  default {| Collapse.length_ := 0; Collapse.Tcontent := 0;
             Collapse.coverageOnTs := 0; Collapse.conversionsOnTs := 0;
             Collapse.readCount := 0; Collapse.tcReadCount := 0;
             Collapse.multimapCount := 0 |}
          (Collapse.tcDict st !! gene).

(** The number of occurrences of a character in a string. *)
Definition occurrences (c : ascii) (s : string) : Z :=
  Z.of_nat (length (filter (fun d => d = c) (list_ascii_of_string s))).

(** The cell a mismatch increments in [tcCountUtr], if any (line 185). *)
Definition mismatch_target (utr : TCounter.BedEntry) (rev : bool)
    (m : TCounter.Mismatch) : option nat :=
  if TCounter.isTCMismatch m rev
     && bool_decide (0 <= TCounter.referencePosition m)
     && bool_decide (TCounter.referencePosition m < TCounter.getLength utr)
  then Some (Z.to_nat (TCounter.referencePosition m)) else None.

(** The cell an offset of a read's span increments in [coverageUtr], if
    any (line 189). *)
Definition cover_target (utr : TCounter.BedEntry) (i : Z) : option nat :=
  if bool_decide (0 <= i) && bool_decide (i < TCounter.getLength utr)
  then Some (Z.to_nat i) else None.

(** [arr[i] += 1] at the cell an element aims at. *)
Definition bump {A : Type} (target : A -> option nat) (arr : list Z) (a : A) : list Z :=
  match target a with
  | Some i => alter (fun x => x + 1) i arr
  | None => arr
  end.

(** How many elements of a list aim at cell [i]. *)
Definition aimed {A : Type} (target : A -> option nat) (i : nat) (l : list A) : Z :=
  Z.of_nat (length (filter (fun a => target a = Some i) l)).

(** The conversion mismatches of a read: the positions of the mismatches
    flagged as conversions for the direction of the read. *)
Definition conversions_of (read : TCounter.Read) : list Z :=
  TCounter.referencePosition
    <$> filter (fun m => TCounter.isTCMismatch m (TCounter.is_reverse read) = true)
               (TCounter.mismatches read).

(** The conversion mismatches of a read lie within its reference span. *)
Definition within_span (read : TCounter.Read) : Prop :=
  Forall (fun p => TCounter.startRefPos read <= p < TCounter.endRefPos read)
         (conversions_of read).

(** The largest number of conversion mismatches on one read. *)
Definition max_conversions (rs : list TCounter.Read) : Z :=
  foldr Z.max 0 ((fun r => Z.of_nat (length (conversions_of r))) <$> rs).

(** A read is well-formed when its conversion mismatches sit at pairwise
    distinct positions of its reference span. *)
Definition well_formed (read : TCounter.Read) : Prop :=
  within_span read /\ NoDup (conversions_of read).

(** A roll-up input row is consistent when it does not report more
    conversions than coverage (both as [collapse] adds them, clamped). *)
Definition consistent_row (line : string) : Prop :=
  forall gene v,
    row_values line = Some (gene, v) ->
    Z.max (Collapse.conversionsOnTs v) 0 <= Z.max (Collapse.coverageOnTs v) 0.

(** Every character of a string passes a test. *)
Fixpoint all_chars (P : ascii -> bool) (s : string) : bool :=
  match s with
  | EmptyString => true
  | String c s' => P c && all_chars P s'
  end.

(** A chromosome name without a colon. *)
Definition colon_free (s : string) : Prop :=
  all_chars (fun c => negb (Ascii.eqb c colon)) s = true.


(** The key under which an offset of an interval is entered in the
    bedgraph dictionary (line 235). *)
Definition position_key (utr : TCounter.BedEntry) (position : nat) : string :=
  TCounter.bedgraph_key (TCounter.chromosome utr)
    (TCounter.start utr + Z.of_nat position) (TCounter.strand utr).


(** The bedgraph dictionary once the loop over the intervals is over (line
    266), when no interval raised. *)
Fixpoint final_bedgraph (referenceFile : TCounter.FastaFile)
    (testFile : TCounter.SlamSeqBamFile) (readNumber maxReadLength : Z)
    (strictTCs : bool) (bed : list TCounter.BedEntry) (bg : gmap string Q)
  : option (gmap string Q) :=
  match bed with
  | [] => Some bg
  | utr :: bed' =>
      match TCounter.process_utr referenceFile testFile readNumber maxReadLength
                                 strictTCs bg utr with
      | Raise _ => None
      | Ok (_, bg') =>
          final_bedgraph referenceFile testFile readNumber maxReadLength strictTCs
                         bed' bg'
      end
  end.



(** ** Vocabulary of the roll-up as a whole *)

(** A row that [collapse] takes for a data row (14 fields) and that holds
    a numeric field [int] rejects. *)
Definition unparsable (line : string) : Prop :=
  length (fields_of line) = 14%nat /\ row_values line = None.

(** The sum of one of the seven numbers, clamped at zero, over the
    well-formed rows of a gene. *)
Definition gene_sum (field : Collapse.GeneTotals -> Z) (gene : string)
    (lines : list string) : Z :=
  foldr (fun line acc =>
           match row_values line with
           | Some (g, v) => if decide (g = gene) then Z.max (field v) 0 + acc else acc
           | None => acc
           end) 0 lines.

(** The sum of the read counts of the well-formed rows, as written. *)
Definition raw_total (lines : list string) : Z :=
  foldr (fun line acc =>
           match row_values line with
           | Some (_, v) => Collapse.readCount v + acc
           | None => acc
           end) 0 lines.

(** The integers [collapse] hands to [float] (lines 79 and 82): the sum of
    the read counts as written and, gene by gene, the summed read count,
    conversions and coverage.  Python's [float] raises [OverflowError] on
    an integer beyond the range of a double; numbers below [2 ^ 1023] in
    absolute value are well within it. *)
Definition within_double (n : Z) : Prop := Z.abs n < 2 ^ 1023.

Definition floats_within_double (lines : list string) : Prop :=
  within_double (raw_total lines)
  /\ forall line gene v,
       line ∈ lines -> row_values line = Some (gene, v) ->
       within_double (gene_sum Collapse.readCount gene lines)
       /\ within_double (gene_sum Collapse.conversionsOnTs gene lines)
       /\ within_double (gene_sum Collapse.coverageOnTs gene lines).

(** The sum of a list of rationals. *)
Definition Qsum (l : list Q) : Q := foldr Qplus 0%Q l.

(** ** Vocabulary of the interval rows *)

(** A read in the direction of an interval's strand: a reverse read for
    the minus strand, a forward read otherwise. *)
Definition on_strand (utr : TCounter.BedEntry) (read : TCounter.Read) : Prop :=
  TCounter.is_reverse read = bool_decide (TCounter.strand utr = "-").

#[global] Instance on_strand_dec utr read : Decision (on_strand utr read).
Proof. unfold on_strand. apply _. Defined.

(** A read that counts as a conversion read in the scan: its [tcCount],
    after the strict filter, is positive. *)
Definition counts_as_tc (strictTCs : bool) (read : TCounter.Read) : Prop :=
  0 < TCounter.tcCount (TCounter.strict_filter strictTCs read).

#[global] Instance counts_as_tc_dec strictTCs read : Decision (counts_as_tc strictTCs read).
Proof. unfold counts_as_tc. apply _. Defined.

(** The reference span of a read holds an offset of the interval. *)
Definition spans (i : nat) (read : TCounter.Read) : Prop :=
  TCounter.startRefPos read <= Z.of_nat i < TCounter.endRefPos read.

#[global] Instance spans_dec i read : Decision (spans i read).
Proof. unfold spans. apply _. Defined.

(** The mismatches the scan goes through, each with its read: those the
    strict filter leaves. *)
Definition scanned_mismatches (strictTCs : bool) (rs : list TCounter.Read)
  : list (TCounter.Read * TCounter.Mismatch) :=
  rs ≫= fun r => (fun m => (r, m)) <$> TCounter.mismatches (TCounter.strict_filter strictTCs r).

(** A mismatch that is a conversion for the direction of its read, at an
    offset of the interval. *)
Definition converts_at (i : nat) (rm : TCounter.Read * TCounter.Mismatch) : Prop :=
  TCounter.isTCMismatch rm.2 (TCounter.is_reverse rm.1) = true
  /\ TCounter.referencePosition rm.2 = Z.of_nat i.

#[global] Instance converts_at_dec i rm : Decision (converts_at i rm).
Proof. unfold converts_at. apply _. Defined.

(** The scan of the reads of an interval, and the conditions under which
    the interval gets its row. *)
Definition scan_of (testFile : TCounter.SlamSeqBamFile) (maxReadLength : Z)
    (strictTCs : bool) (utr : TCounter.BedEntry) : TCounter.Scan :=
  TCounter.scan_reads utr strictTCs
    (TCounter.reads
       (TCounter.readInRegion testFile (TCounter.chromosome utr) (TCounter.start utr)
          (TCounter.stop utr) (TCounter.strand utr) maxReadLength)).

Definition refSeq_of (testFile : TCounter.SlamSeqBamFile) (maxReadLength : Z)
    (utr : TCounter.BedEntry) : string :=
  TCounter.getRefSeq
    (TCounter.readInRegion testFile (TCounter.chromosome utr) (TCounter.start utr)
       (TCounter.stop utr) (TCounter.strand utr) maxReadLength).

(** Every covered offset of the interval is an index of the reference
    sequence the read iterator hands out. *)
Definition reference_covers (refSeq : string) (s : TCounter.Scan) : Prop :=
  forall (p : nat) (v : Z),
    TCounter.coverageUtr s !! p = Some v -> 0 < v -> (p < String.length refSeq)%nat.

Definition interval_passes (testFile : TCounter.SlamSeqBamFile) (maxReadLength : Z)
    (strictTCs : bool) (utr : TCounter.BedEntry) : Prop :=
  TCounter.hasStrand utr = true
  /\ 0 <= TCounter.start utr
  /\ (TCounter.strand_has_reads utr (scan_of testFile maxReadLength strictTCs utr) = true ->
      TCounter.opposite_strand_dominates utr
        (scan_of testFile maxReadLength strictTCs utr) = false
      /\ reference_covers (refSeq_of testFile maxReadLength utr)
           (scan_of testFile maxReadLength strictTCs utr)).

(** ** More Python primitives *)

Module PySeq.

(** [l[i]] for an integer index: a negative index counts from the end,
    an index out of range raises [IndexError]. *)
Definition position {A} (l : list A) (i : Z) : option nat :=
  let n := Z.of_nat (length l) in
  let j := if decide (i < 0) then i + n else i in
  if decide (0 <= j < n) then Some (Z.to_nat j) else None.

Definition getitem {A} (l : list A) (i : Z) : result A :=
  match position l i with
  | Some j => Py.index l j
  | None => Raise IndexError
  end.

(** [l[i] += 1]. *)
Definition increment (l : list Z) (i : Z) : result (list Z) :=
  match position l i with
  | Some j => Ok (alter (fun x => x + 1) j l)
  | None => Raise IndexError
  end.

(** [s.endswith(suffix)]. *)
Definition endswith (s suffix : string) : bool :=
  let n := String.length s in
  let m := String.length suffix in
  (m <=? n)%nat && String.eqb (String.substring (n - m) m s) suffix.

End PySeq.

#[global] Instance Qlt_dec (x y : Q) : Decision (x < y)%Q.
Proof. destruct (Qlt_le_dec x y) as [H|H]; [left; exact H|right]. apply Qle_not_lt, H. Defined.

(** ** The mean of a list: [getMean] *)

Module Mean.

(** Body of [for value in values]; the state is [(count, totalSum)]. *)
Definition step (skipZeros : bool) (st : Q * Q) (value : Q) : Q * Q :=
  let '(count, totalSum) := st in
  if negb skipZeros || bool_decide (0 < value)%Q
  then ((count + 1)%Q, (totalSum + value)%Q)
  else (count, totalSum).

(** [getMean(values, skipZeros)]. *)
Definition getMean (values : list Q) (skipZeros : bool) : Q :=
  let '(count, totalSum) := foldl (step skipZeros) (0%Q, 0%Q) values in
  if decide (0 < count)%Q then (totalSum / count)%Q else 0%Q.

End Mean.

(** ** The command line driver: [slamdunk.py] *)

Module Slamdunk.

Definition comma : ascii := ","%char.

(** Body of [for line in ins] in [readSampleFile]; the state is
    [(samples, infos)]. *)
Definition sample_line (fileName : string) (st : list string * list string)
    (line0 : string) : result (list string * list string) :=
  let '(samples, infos) := st in
  let line := Py.strip line0 in
  if decide (1 < String.length line)%nat then
    cols ← (if PySeq.endswith fileName ".tsv" then Ok (Py.split tab line)
            else if PySeq.endswith fileName ".csv" then Ok (Py.split comma line)
            else Raise (RuntimeError ("Unknown file extension found: " +:+ fileName)));
    if decide (length cols < 4)%nat then
      Raise (RuntimeError ("Invalid sample file found: " +:+ fileName))
    else
      Ok ((samples ++ [cols !!! 0%nat])%list,
          (infos ++ [cols !!! 1%nat +:+ ":" +:+ cols !!! 2%nat +:+ ":"
                     +:+ cols !!! 3%nat])%list)
  else Ok (samples, infos).

(** [readSampleFile(fileName)], on the lines of the file. *)
Definition readSampleFile (fileName : string) (ins : list string)
  : result (list string * list string) :=
  for_each (sample_line fileName) ins ([], []).

(** What [getSamples] hands back, with the lines it has printed with
    [message]. *)
Record Selection : Type := {
  messages : list string;
  samples : list string;
  samplesInfos : list string
}.

(** [getSamples(bams, runOnly)]; [open_] gives the lines of a file. *)
Definition getSamples (open_ : string -> list string) (bams : list string)
    (runOnly : Z) : result Selection :=
  '(samples, samplesInfos) ←
    match bams with
    | [b] =>
        if PySeq.endswith b ".tsv" || PySeq.endswith b ".csv"
        then readSampleFile b (open_ b)
        else Ok (bams, replicate (length bams) EmptyString)
    | _ => Ok (bams, replicate (length bams) EmptyString)
    end;
  if decide (0 < runOnly) then
    if decide (Z.of_nat (length samples) < runOnly) then
      Raise (RuntimeError ("Sample index out of range. " +:+ Py.str runOnly +:+ " > "
                           +:+ Py.str (Z.of_nat (length samples))
                           +:+ ". Check -i/--sample-index"))
    else
      sample ← PySeq.getitem samples (runOnly - 1);
      info ← PySeq.getitem samplesInfos (runOnly - 1);
      Ok {| messages := ["Running only job " +:+ Py.str runOnly];
            samples := [sample]; samplesInfos := [info] |}
  else if decide (runOnly = 0) then
    Raise (RuntimeError ("Sample index (" +:+ Py.str runOnly
                         +:+ ") out of range. Starts with 1. Check -i/--sample-index"))
  else Ok {| messages := []; samples := samples; samplesInfos := samplesInfos |}.

(** The dictionary [typeDict] of [runMap]. *)
Definition typeDict : gmap string string :=
  list_to_map [("p", "pulse"); ("c", "chase"); ("pulse", "pulse"); ("chase", "chase");
               (EmptyString, "NA")].

(** Lines 144-158 of [runMap]: the sample name, type and time it hands to
    the mapper, from the sample index and the sample description. *)
Definition runMap_sample (tid : Z) (sampleDescription : string)
  : string * string * string :=
  let sampleName := "sample_" +:+ Py.str tid in
  let sampleType := "NA" in
  let sampleTime := "-1" in
  if decide (sampleDescription <> EmptyString) then
    let sampleDescriptions := Py.split colon sampleDescription in
    let sampleName :=
      if decide (1 <= length sampleDescriptions)%nat
      then sampleDescriptions !!! 0%nat else sampleName in
    let sampleType :=
      if decide (2 <= length sampleDescriptions)%nat then
        match typeDict !! (sampleDescriptions !!! 1%nat) with
        | Some t => t
        | None => sampleDescriptions !!! 1%nat
        end
      else sampleType in
    let sampleTime :=
      if decide (3 <= length sampleDescriptions)%nat
      then sampleDescriptions !!! 2%nat else sampleTime in
    (sampleName, sampleType, sampleTime)
  else (sampleName, sampleType, sampleTime).

End Slamdunk.

(** ** Vocabulary of the mean and of the sample sheet *)

(** The values [getMean] counts: all of them, or the positive ones. *)
Definition counted_values (skipZeros : bool) (values : list Q) : list Q :=
  if skipZeros then filter (fun v => (0 < v)%Q) values else values.

(** The lines of a sample sheet that [readSampleFile] reads: those longer
    than one character once stripped; and their columns. *)
Definition sheet_lines (ins : list string) : list string :=
  filter (fun line => (1 < String.length line)%nat) (Py.strip <$> ins).

Definition sheet_rows (sep : ascii) (ins : list string) : list (list string) :=
  Py.split sep <$> sheet_lines ins.

(** The sample description [readSampleFile] builds from a row. *)
Definition sheet_info (cols : list string) : string :=
  cols !!! 1%nat +:+ ":" +:+ cols !!! 2%nat +:+ ":" +:+ cols !!! 3%nat.

(** The separator of a sample sheet, by its extension. *)
Definition sheet_separator (fileName : string) : option ascii :=
  if PySeq.endswith fileName ".tsv" then Some tab
  else if PySeq.endswith fileName ".csv" then Some Slamdunk.comma
  else None.

(** The sample type [runMap] derives from the third column of a sheet. *)
Definition sample_type (t : string) : string :=
  default t (Slamdunk.typeDict !! t).

(** ** The older count table: [count] *)

Module Count.
Import TCounter.

(** The two queries of the SNP dictionary [count] uses: chromosome, start,
    stop and minimum count. *)
Record SNPDictionary : Type := {
  getAGSNPsInUTR : string -> Z -> Z -> Z -> Z;
  getTCSNPsInUTR : string -> Z -> Z -> Z -> Z
}.

(** The variables of the loop over the reads of one interval. *)
Record Tally : Type := {
  tcCount : list Z;
  readCount : Z;
  countFwd : Z;
  countRev : Z;
  avgConversionRate : Q
}.

Definition tally_init (maxReadLength : Z) : Tally :=
  {| tcCount := zeros maxReadLength; readCount := 0; countFwd := 0; countRev := 0;
     avgConversionRate := 0%Q |}.

(** Body of [for read in readIterator] (lines 305-314); [tcRate] is the
    field of that name of a read. *)
Definition tally_read (tcRate : Read -> Q) (t : Tally) (read : Read) : result Tally :=
  let rev := is_reverse read in
  tc ← PySeq.increment (tcCount t) (TCounter.tcCount read);
  Ok {| tcCount := tc;
        readCount := readCount t + 1;
        countFwd := if rev then countFwd t else countFwd t + 1;
        countRev := if rev then countRev t + 1 else countRev t;
        avgConversionRate := (avgConversionRate t + tcRate read)%Q |}.

(** One line of the table, with the column names of its header. *)
Record Row : Type := {
  chr : string;
  start_ : Z;
  end_ : Z;
  gene_name : string;
  non_tc_read_count : Z;
  non_tc_norm_read_count : Q;
  tc_read_count : Z;
  tc_norm_read_count : Q;
  tc_read_perc : Q;
  avg_conversion_rate : Q;
  fwd_reads : Z;
  rev_reads : Z;
  snp_In_UTR : Z
}.

(** Body of [for utr in BedIterator(bed)] (lines 297-330): the line
    printed for the interval.  The arguments of [print] are evaluated from
    left to right: [tcCount[0]] before the first division by
    [readNumber]. *)
Definition count_utr (snps : SNPDictionary) (testFile : SlamSeqBamFile)
    (tcRate : Read -> Q) (readNumber maxReadLength : Z) (utr : BedEntry)
  : result Row :=
  let readIterator :=
    readInRegion testFile (chromosome utr) (start utr) (stop utr) (strand utr)
                 maxReadLength in
  t ← for_each (tally_read tcRate) (reads readIterator) (tally_init maxReadLength);
  let snpInUTR :=
    if decide (countFwd t < countRev t)
    then getAGSNPsInUTR snps (chromosome utr) (start utr) (stop utr) 2
    else getTCSNPsInUTR snps (chromosome utr) (start utr) (stop utr) 1 in
  percTC ← (if decide (0 < readCount t) then
              zero ← PySeq.getitem (tcCount t) 0;
              Ok (inject_Z (readCount t - zero) * 1 / inject_Z (readCount t))%Q
            else Ok 0%Q);
  let avgConversionRate :=
    if decide (0 < readCount t)
    then (avgConversionRate t * 1 / inject_Z (readCount t))%Q else 0%Q in
  zero ← PySeq.getitem (tcCount t) 0;
  if decide (readNumber = 0) then Raise ZeroDivisionError
  else
    Ok {| chr := chromosome utr; start_ := start utr; end_ := stop utr;
          gene_name := name utr;
          non_tc_read_count := zero;
          non_tc_norm_read_count := (inject_Z zero * 1000000 / inject_Z readNumber)%Q;
          tc_read_count := readCount t - zero;
          tc_norm_read_count :=
            (inject_Z (readCount t - zero) * 1000000 / inject_Z readNumber)%Q;
          tc_read_perc := percTC;
          avg_conversion_rate := avgConversionRate;
          fwd_reads := countFwd t;
          rev_reads := countRev t;
          snp_In_UTR := snpInUTR |}.

(** What a call leaves behind: the lines written after the header, and
    the exception that ended it, if any. *)
Record Table : Type := {
  fileCSV : list Row;
  raised : option exn
}.

Fixpoint utr_loop (snps : SNPDictionary) (testFile : SlamSeqBamFile)
    (tcRate : Read -> Q) (readNumber maxReadLength : Z)
    (bed : list BedEntry) (rows : list Row) : Table :=
  match bed with
  | [] => {| fileCSV := rows; raised := None |}
  | utr :: bed' =>
      match count_utr snps testFile tcRate readNumber maxReadLength utr with
      | Raise e => {| fileCSV := rows; raised := Some e |}
      | Ok row =>
          utr_loop snps testFile tcRate readNumber maxReadLength bed'
                   (rows ++ [row])%list
      end
  end.

(** [count]; [readNumber] is [getReadCount(bam).MappedReads]. *)
Definition count (snps : SNPDictionary) (testFile : SlamSeqBamFile)
    (tcRate : Read -> Q) (readNumber maxReadLength : Z) (bed : list BedEntry) : Table :=
  utr_loop snps testFile tcRate readNumber maxReadLength bed [].

End Count.

(** ** The table over the samples: [summary] *)

Module Summary.

(** [itertools.izip_longest] over the iterables, with [fillvalue=fill]: as
    many tuples as the longest iterable has items. *)
Definition izip_longest {A} (fill : A) (iterables : list (list A)) : list (list A) :=
  let n := foldr Nat.max 0%nat (length <$> iterables) in
  (fun i => (fun it => default fill (it !! i)) <$> iterables) <$> seq 0 n.

(** Body of [for row in rows]; the state is [(combined_row, firstRow)]. *)
Definition combine (colNumber : Z) (st : list string * bool) (row : list string)
  : result (list string * bool) :=
  let '(combined_row, firstRow) := st in
  if firstRow then
    cell ← PySeq.getitem row colNumber;
    Ok ((combined_row ++ take 4 row ++ [cell])%list, false)
  else
    cell ← PySeq.getitem row colNumber;
    Ok ((combined_row ++ [cell])%list, firstRow).

(** What a call leaves behind: the rows handed to [writer.writerow], and
    the exception that ended it, if any. *)
Record Written : Type := {
  rows : list (list string);
  raised : option exn
}.

(** The loop over the tuples of [izip_longest]; the state is the rows
    written and the flag [header]. *)
Fixpoint write_rows (colNumber : Z) (tuples : list (list (list string)))
    (out : list (list string)) (header : bool) : Written :=
  match tuples with
  | [] => {| rows := out; raised := None |}
  | rows :: rest =>
      if negb header then
        match for_each (combine colNumber) rows ([], true) with
        | Ok (combined_row, _) =>
            write_rows colNumber rest (out ++ [combined_row])%list header
        | Raise e => {| rows := out; raised := Some e |}
        end
      else write_rows colNumber rest out false
  end.

(** [summary(bams, samples, outputFile, colNumber)]: [reader] gives the
    rows the tab-separated reader of a file yields, [sampleName] is
    [getSampleName(basename(f), samples)]. *)
Definition summary (reader : string -> list (list string))
    (sampleName : string -> string) (bams : list string) (colNumber : Z) : Written :=
  let readers := reader <$> bams in
  let names := (["chr"; "start"; "end"; "gene"] ++ (sampleName <$> bams))%list in
  write_rows colNumber (izip_longest [EmptyString; EmptyString] readers) [names] true.

End Summary.

(** ** Vocabulary of the older count table and of the summary *)

(** The conversion counts [count] accepts for a read length: the indexes
    of a list of that length, from either end. *)
Definition tc_in_range (maxReadLength : Z) (read : TCounter.Read) : Prop :=
  - maxReadLength <= TCounter.tcCount read < maxReadLength.

#[global] Instance tc_in_range_dec m read : Decision (tc_in_range m read).
Proof. unfold tc_in_range. apply _. Defined.

(** The reads [count] takes for reads without conversion: those it
    counts in the first cell of [tcCount]. *)
Definition counted_without_tc (maxReadLength : Z) (read : TCounter.Read) : Prop :=
  TCounter.tcCount read = 0 \/ TCounter.tcCount read = - maxReadLength.

#[global] Instance counted_without_tc_dec m read : Decision (counted_without_tc m read).
Proof. unfold counted_without_tc. apply _. Defined.

(** The reads of the region of an interval. *)
Definition reads_of (testFile : TCounter.SlamSeqBamFile) (maxReadLength : Z)
    (utr : TCounter.BedEntry) : list TCounter.Read :=
  TCounter.reads
    (TCounter.readInRegion testFile (TCounter.chromosome utr) (TCounter.start utr)
       (TCounter.stop utr) (TCounter.strand utr) maxReadLength).

(** The number of rows of the longest table. *)
Definition longest (tables : list (list (list string))) : nat :=
  foldr Nat.max 0%nat (length <$> tables).

(** A row with a cell at the index [colNumber], counted from either end;
    the cell; and the row [summary] writes for a tuple of rows, one per
    table. *)
Definition has_column (colNumber : Z) (row : list string) : Prop :=
  - Z.of_nat (length row) <= colNumber < Z.of_nat (length row).

#[global] Instance has_column_dec colNumber row : Decision (has_column colNumber row).
Proof. unfold has_column. apply _. Defined.

Definition cell (colNumber : Z) (row : list string) : string :=
  match PySeq.getitem row colNumber with
  | Ok c => c
  | Raise _ => EmptyString
  end.

Definition summary_row (colNumber : Z) (tuple : list (list string)) : list string :=
  (match tuple with
   | [] => []
   | first :: _ => take 4 first
   end ++ (cell colNumber <$> tuple))%list.


(** ** Vocabulary of the sums of a row *)

(** The offsets of an interval that count for its row: covered, and with
    the convertible base of the strand ([A] for the minus strand, [T]
    otherwise) in the reference sequence of the read iterator. *)
Definition convertible (utr : TCounter.BedEntry) (refSeq : string) (p : nat) : bool :=
  match String.get p refSeq with
  | Some c =>
      Ascii.eqb c (if decide (TCounter.strand utr = "-") then "A"%char else "T"%char)
  | None => false
  end.

Definition counted_offset (utr : TCounter.BedEntry) (refSeq : string)
    (s : TCounter.Scan) (p : nat) : bool :=
  bool_decide (0 < TCounter.coverageUtr s !!! p) && convertible utr refSeq p.

(** The sum of a list of integers. *)
Definition Zsum (l : list Z) : Z := foldr Z.add 0 l.

(** The sum of an array over the counted offsets of an interval. *)
Definition sum_over_counted (utr : TCounter.BedEntry) (refSeq : string)
    (s : TCounter.Scan) (arr : list Z) : Z :=
  Zsum ((fun p => if counted_offset utr refSeq s p then arr !!! p else 0)
          <$> seq 0 (length (TCounter.coverageUtr s))).

(** ** Vocabulary of the conditions of a row *)

(** The reads of the other direction are more than those of the direction
    of the interval's strand. *)
Definition outnumbered (utr : TCounter.BedEntry) (rs : list TCounter.Read) : Prop :=
  (length (filter (on_strand utr) rs)
   < length (filter (fun r => ~ on_strand utr r) rs))%nat.

#[global] Instance outnumbered_dec utr rs : Decision (outnumbered utr rs).
Proof. unfold outnumbered. apply _. Defined.

(** Every offset of the interval that a read spans is an index of the
    reference sequence. *)
Definition covered_within (refSeq : string) (utr : TCounter.BedEntry)
    (rs : list TCounter.Read) : Prop :=
  Forall (fun p => Exists (spans p) rs -> (p < String.length refSeq)%nat)
         (seq 0 (Z.to_nat (TCounter.getLength utr))).

#[global] Instance covered_within_dec refSeq utr rs :
  Decision (covered_within refSeq utr rs).
Proof. unfold covered_within. apply _. Defined.

(** What the loop of [computeTconversions] asks of an interval before it
    prints its row (lines 131, 134, 193, 205 and 226), on the reads and the
    reference sequence the read iterator hands out for the interval: a
    strand, a start that is not negative and, when some read has the
    direction of the strand, not more reads of the other direction and no
    spanned offset past the reference sequence. *)
Definition row_conditions (testFile : TCounter.SlamSeqBamFile) (maxReadLength : Z)
    (utr : TCounter.BedEntry) : Prop :=
  TCounter.hasStrand utr = true
  /\ 0 <= TCounter.start utr
  /\ (Exists (on_strand utr) (reads_of testFile maxReadLength utr) ->
      ~ outnumbered utr (reads_of testFile maxReadLength utr)
      /\ covered_within (refSeq_of testFile maxReadLength utr) utr
           (reads_of testFile maxReadLength utr)).

#[global] Instance row_conditions_dec testFile maxReadLength utr :
  Decision (row_conditions testFile maxReadLength utr).
Proof. unfold row_conditions. apply _. Defined.

(** A read of the direction of the strand spans an offset past the
    reference sequence, and the other direction has not more reads. *)
Definition overruns_reference (testFile : TCounter.SlamSeqBamFile) (maxReadLength : Z)
    (utr : TCounter.BedEntry) : Prop :=
  TCounter.hasStrand utr = true
  /\ 0 <= TCounter.start utr
  /\ Exists (on_strand utr) (reads_of testFile maxReadLength utr)
  /\ ~ outnumbered utr (reads_of testFile maxReadLength utr)
  /\ ~ covered_within (refSeq_of testFile maxReadLength utr) utr
         (reads_of testFile maxReadLength utr).

#[global] Instance overruns_reference_dec testFile maxReadLength utr :
  Decision (overruns_reference testFile maxReadLength utr).
Proof. unfold overruns_reference. apply _. Defined.

(** * Properties *)

(** ** The embedding at work *)

(** The string primitives on the inputs the code gives them. *)
Example split_example :
  Py.split colon "chr1:105:+" = ["chr1"; "105"; "+"].
Proof. reflexivity. Qed.

Example int_example :
  Py.int " -12 " = Ok (-12) /\ Py.int "+7" = Ok 7 /\ Py.int "x" = Raise ValueError
  /\ Py.int EmptyString = Raise ValueError /\ Py.str (-40) = "-40" /\ Py.str 0 = "0".
Proof. repeat split; reflexivity. Qed.

(** One forward read over [chr1:100-110 (+)] with one conversion: ten
    covered convertible bases, one conversion, rate 1/10. *)
Example spec_scenario :
  TCounter.fileCSV
    (Samples.run [Samples.read TCounter.Forward 0 10 [Samples.conversion_at 3]])
  = [ {| TCounter.iv_chromosome := "chr1"; TCounter.iv_start := 100;
         TCounter.iv_stop := 110; TCounter.iv_strand := "+";
         TCounter.iv_name := "utr1";
         TCounter.Tcontent := 10; TCounter.readsCPM := (1000000 # 1000000)%Q;
         TCounter.coverageOnTs := 10; TCounter.conversionsOnTs := 1;
         TCounter.conversionRate := (1 # 10)%Q;
         TCounter.readCount := 1; TCounter.tcReadCount := 1;
         TCounter.multiMapCount := 0 |} ].
Proof. vm_compute. reflexivity. Qed.

(** ** Loops that may raise *)

Section ForEach.
Context {A S : Type} (body : S -> A -> result S).

Lemma for_each_app (xs ys : list A) (s : S) :
  for_each body (xs ++ ys)%list s
  = (s' ← for_each body xs s; for_each body ys s').
Proof.
  revert s. induction xs as [|x xs IH]; intros s; simpl; [reflexivity|].
  destruct (body s x) as [s1|e]; simpl; [apply IH | reflexivity].
Qed.

(** A property kept by every iteration over an element of the list
    holds after the loop, when the loop returns. *)
Lemma for_each_invariant_in (P : S -> Prop) (xs : list A) :
  (forall s x s', x ∈ xs -> P s -> body s x = Ok s' -> P s') ->
  forall s s', P s -> for_each body xs s = Ok s' -> P s'.
Proof.
  induction xs as [|x xs IH]; intros Hstep s s' HP Hrun; simpl in Hrun.
  - congruence.
  - destruct (body s x) as [s1|e] eqn:Hb; simpl in Hrun; [|discriminate].
    eapply IH; [|eapply Hstep; [left|exact HP|exact Hb]|exact Hrun].
    intros s2 y s3 Hy. apply Hstep. right. exact Hy.
Qed.

(** A property kept by every iteration that returns holds after the
    loop, when the loop returns. *)
Lemma for_each_invariant (P : S -> Prop) :
  (forall s x s', P s -> body s x = Ok s' -> P s') ->
  forall xs s s', P s -> for_each body xs s = Ok s' -> P s'.
Proof.
  intros Hstep xs. induction xs as [|x xs IH]; intros s s' HP Hrun; simpl in Hrun.
  - congruence.
  - destruct (body s x) as [s1|e] eqn:Hb; simpl in Hrun; [|discriminate].
    eapply IH; [|exact Hrun]. eapply Hstep; eauto.
Qed.

(** A loop whose iterations all return, returns. *)
Lemma for_each_total (P : S -> Prop) :
  (forall s x, P s -> exists s', body s x = Ok s' /\ P s') ->
  forall xs s, P s -> exists s', for_each body xs s = Ok s' /\ P s'.
Proof.
  intros Hstep xs. induction xs as [|x xs IH]; intros s HP; simpl.
  - eauto.
  - destruct (Hstep s x HP) as (s1 & -> & HP1). simpl. apply IH, HP1.
Qed.
End ForEach.

(** ** The gene roll-up *)

Section CollapseFacts.
Import Collapse.

(** A row whose field count is not 14 changes neither the dictionary nor
    the running total; nothing is printed for it. *)
Lemma loop_body_malformed (st : LoopState) (line : string) :
  length (fields_of line) <> 14%nat ->
  loop_body st line
  = Ok {| tcDict := tcDict st; readNumber := readNumber st;
          lastLine := Some (line, fields_of line) |}.
Proof.
  intros Hlen. unfold loop_body. fold (fields_of line).
  destruct (decide (length (fields_of line) = 14%nat)); [contradiction|reflexivity].
Qed.

(** Whatever the input, the call prints at most one message to [log]. *)
Lemma collapse_log_at_most_one (lines : list string) :
  (length (log (collapse lines)) <= 1)%nat.
Proof.
  unfold collapse.
  destruct (for_each loop_body lines initial) as [st|e]; simpl; [|lia].
  destruct (for_else st) as [msg|e]; simpl; [|lia].
  destruct (for_each _ _ _); simpl; lia.
Qed.
End CollapseFacts.

(** C3 (fails on the code): a roll-up row whose field count is not 14 is
    skipped, but it is not reported.  On the input made of a 13-field row
    followed by a 14-field row, the 13-field row contributes nothing (the
    table is the one of the 14-field row alone), yet the only message in
    the log is about the last line, the valid one, with its 14 fields; two
    malformed rows yield one message, and a file without any malformed row
    yields one as well. *)
Theorem C3_malformed_row_is_skipped_but_not_reported :
  let bad := Samples.short_row "geneB" in
  let good := Samples.count_row "geneA" "20" "2" "7" in
  length (fields_of bad) = 13%nat
  /\ length (fields_of good) = 14%nat
  /\ Collapse.raised (Collapse.collapse [bad; good]) = None
  /\ Collapse.outCSV (Collapse.collapse [bad; good])
     = Collapse.outCSV (Collapse.collapse [good])
  /\ Collapse.log (Collapse.collapse [bad; good])
     = ["Error in TC file format - unexpected number of fields (14) in the following line:"
        +:+ String "010"%char good]
  /\ length (Collapse.log (Collapse.collapse [bad; bad; good])) = 1%nat
  /\ length (Collapse.log (Collapse.collapse [good])) = 1%nat.
Proof. vm_compute. repeat split; reflexivity. Qed.

Section CollapseLoop.
Import Collapse.

(** After the loop, [line] and [fields] are those of the last line. *)
Lemma loop_lastLine (lines : list string) (st0 st : LoopState) :
  for_each loop_body lines st0 = Ok st ->
  lastLine st = match last lines with
                | Some l => Some (l, fields_of l)
                | None => lastLine st0
                end.
Proof.
  revert st0. induction lines as [|l lines IH]; intros st0 Hrun; simpl in Hrun.
  - injection Hrun as <-. reflexivity.
  - destruct (loop_body st0 l) as [s1|e] eqn:Hb; simpl in Hrun; [|discriminate].
    rewrite (IH _ Hrun).
    assert (lastLine s1 = Some (l, fields_of l)) as Hl.
    { unfold loop_body in Hb. fold (fields_of l) in Hb.
      destruct (decide _) in Hb.
      - repeat (match type of Hb with
                | (?m ≫= _) = _ => destruct m; simpl in Hb; [|discriminate]
                end).
        injection Hb as <-. reflexivity.
      - injection Hb as <-. reflexivity. }
    destruct lines as [|l' lines']; simpl; [exact Hl|].
    destruct (last (l' :: lines')) eqn:Hlast; [reflexivity|].
    apply last_None in Hlast. discriminate.
Qed.

Lemma sorted_keys_perm (d : gmap string GeneTotals) :
  sorted_keys d ≡ₚ (map_to_list d).*1.
Proof. apply merge_sort_Permutation. Qed.

Lemma sorted_keys_lookup (d : gmap string GeneTotals) (gene : string) :
  gene ∈ sorted_keys d <-> is_Some (d !! gene).
Proof.
  rewrite sorted_keys_perm. rewrite list_elem_of_fmap. split.
  - intros ([k g] & -> & Hin). apply elem_of_map_to_list in Hin. eauto.
  - intros [g Hg]. exists (gene, g). split; [reflexivity|].
    apply elem_of_map_to_list, Hg.
Qed.

(** With a zero total, the first gene printed raises. *)
Lemma emit_genes_zero_total (d : gmap string GeneTotals) (out : list GeneRow) :
  d <> ∅ ->
  for_each (emit_gene d 0) (sorted_keys d) out = Raise ZeroDivisionError.
Proof.
  intros Hne.
  destruct (sorted_keys d) as [|gene keys] eqn:Hk.
  - exfalso. apply Hne. apply map_to_list_empty_iff.
    pose proof (sorted_keys_perm d) as Hp. rewrite Hk in Hp.
    symmetry in Hp. apply Permutation_nil_r in Hp.
    apply fmap_nil_inv in Hp. exact Hp.
  - assert (is_Some (d !! gene)) as [g Hg].
    { apply sorted_keys_lookup. rewrite Hk. left. }
    simpl. unfold emit_gene. rewrite Hg. reflexivity.
Qed.

(** Whenever the rows read sum to a total of zero and at least one gene
    was seen, [collapse] ends in [ZeroDivisionError] with no gene row
    written. *)
Lemma collapse_zero_total (lines : list string) (st : LoopState) :
  for_each loop_body lines initial = Ok st ->
  readNumber st = 0 ->
  tcDict st <> ∅ ->
  raised (collapse lines) = Some ZeroDivisionError
  /\ outCSV (collapse lines) = [].
Proof.
  intros Hrun Hzero Hne. unfold collapse. rewrite Hrun.
  pose proof (loop_lastLine _ _ _ Hrun) as Hlast.
  destruct lines as [|l lines].
  { simpl in Hrun. injection Hrun as <-. simpl in Hne. contradiction. }
  destruct (last (l :: lines)) as [l'|] eqn:Hl.
  2:{ apply last_None in Hl. discriminate. }
  unfold for_else. rewrite Hlast. rewrite Hzero.
  rewrite (emit_genes_zero_total _ _ Hne). simpl. split; reflexivity.
Qed.
End CollapseLoop.

(** C4 (fails on the code): the roll-up's reads-per-million is not guarded.
    On a single valid row whose read count is 0, the global total is 0 and
    [collapse] ends in [ZeroDivisionError] at the first gene, with no gene
    row written; [computeTconversions], on a sample with zero mapped reads,
    takes its guard and writes [readsCPM = 0]. *)
Theorem C4_rollup_cpm_divides_by_zero :
  let row := Samples.count_row "geneA" "20" "2" "0" in
  length (fields_of row) = 14%nat
  /\ Collapse.raised (Collapse.collapse [row]) = Some ZeroDivisionError
  /\ Collapse.outCSV (Collapse.collapse [row]) = []
  /\ TCounter.readsCPM
       <$> TCounter.fileCSV
             (TCounter.computeTconversions "3" Samples.fasta [Samples.utr_plus]
                (Samples.bam [Samples.read TCounter.Forward 0 10 []]) 0 100 false)
     = [0%Q].
Proof. vm_compute. repeat split; reflexivity. Qed.

Section CollapseRow.
Import Collapse.

(** What one well-formed row does to the loop state. *)
Lemma loop_body_row (st : LoopState) (line gene : string) (v : GeneTotals) :
  row_values line = Some (gene, v) ->
  loop_body st line
  = Ok {| tcDict :=
            <[gene := {| length_ := length_ (totals_of st gene) + Z.max (length_ v) 0;
                         Tcontent := Tcontent (totals_of st gene) + Z.max (Tcontent v) 0;
                         coverageOnTs :=
                           coverageOnTs (totals_of st gene)
                           + Z.max (coverageOnTs v) 0;
                         conversionsOnTs :=
                           conversionsOnTs (totals_of st gene)
                           + Z.max (conversionsOnTs v) 0;
                         readCount :=
                           readCount (totals_of st gene) + Z.max (readCount v) 0;
                         tcReadCount :=
                           tcReadCount (totals_of st gene)
                           + Z.max (tcReadCount v) 0;
                         multimapCount :=
                           multimapCount (totals_of st gene)
                           + Z.max (multimapCount v) 0 |}]> (tcDict st);
          readNumber := readNumber st + readCount v;
          lastLine := Some (line, fields_of line) |}.
Proof.
  unfold row_values, loop_body. fold (fields_of line).
  destruct (decide (length (fields_of line) = 14%nat)); [|discriminate].
  repeat (match goal with
          | |- context [Py.int ?x] => destruct (Py.int x); try discriminate
          end).
  intros [= <- <-]. simpl. unfold totals_of.
  destruct (tcDict st !! _); simpl; reflexivity.
Qed.
End CollapseRow.



(** ** One interval: control flow *)

Section IntervalFlow.
Import TCounter.
Variables (referenceFile : FastaFile) (testFile : SlamSeqBamFile).
Variables (readNumber maxReadLength : Z) (strictTCs : bool).

Let iterator (utr : BedEntry) : ReadIterator :=
  readInRegion testFile (chromosome utr) (start utr) (stop utr) (strand utr)
               maxReadLength.

(** Past the two checks, an interval is scanned and summarised. *)
Lemma process_utr_checked (bg : gmap string Q) (utr : BedEntry) :
  hasStrand utr = true -> 0 <= start utr ->
  process_utr referenceFile testFile readNumber maxReadLength strictTCs bg utr
  = summarise utr (compute_Tcontent referenceFile utr) readNumber
      (getRefSeq (iterator utr))
      (scan_reads utr strictTCs (reads (iterator utr))) bg.
Proof.
  intros Hs Hstart. unfold process_utr. rewrite Hs. simpl.
  destruct (decide (start utr < 0)); [lia|reflexivity].
Qed.

Lemma process_utr_no_strand (bg : gmap string Q) (utr : BedEntry) :
  hasStrand utr = false ->
  process_utr referenceFile testFile readNumber maxReadLength strictTCs bg utr
  = Raise (RuntimeError "Input BED file does not contain stranded intervals.").
Proof. intros Hs. unfold process_utr. rewrite Hs. reflexivity. Qed.

Lemma process_utr_negative_start (bg : gmap string Q) (utr : BedEntry) :
  hasStrand utr = true -> start utr < 0 ->
  exists e,
    process_utr referenceFile testFile readNumber maxReadLength strictTCs bg utr
    = Raise e.
Proof.
  intros Hs Hneg. unfold process_utr. rewrite Hs. simpl.
  destruct (decide (start utr < 0)); [eauto|lia].
Qed.

(** An interval without reads on its annotated strand keeps the row of
    line 130 and leaves the bedgraph alone. *)
Lemma process_utr_no_reads (bg : gmap string Q) (utr : BedEntry) :
  hasStrand utr = true -> 0 <= start utr ->
  strand_has_reads utr (scan_reads utr strictTCs (reads (iterator utr))) = false ->
  process_utr referenceFile testFile readNumber maxReadLength strictTCs bg utr
  = Ok (default_row utr, bg).
Proof.
  intros Hs Hstart Hnone. rewrite process_utr_checked by assumption.
  unfold summarise. rewrite Hnone. reflexivity.
Qed.

(** An interval with reads on its annotated strand and more on the other
    one ends the run at line 206. *)
Lemma process_utr_strand_mismatch (bg : gmap string Q) (utr : BedEntry) :
  hasStrand utr = true -> 0 <= start utr ->
  strand_has_reads utr (scan_reads utr strictTCs (reads (iterator utr))) = true ->
  opposite_strand_dominates utr
    (scan_reads utr strictTCs (reads (iterator utr))) = true ->
  process_utr referenceFile testFile readNumber maxReadLength strictTCs bg utr
  = Raise TypeError.
Proof.
  intros Hs Hstart Hreads Hopp. rewrite process_utr_checked by assumption.
  unfold summarise. rewrite Hreads, Hopp. reflexivity.
Qed.

(** The ways [summarise] returns. *)
Lemma summarise_Ok (utr : BedEntry) (T : Z) (refSeq : string) (s : Scan)
    (bg bg' : gmap string Q) (row : SlamSeqInterval) :
  summarise utr T readNumber refSeq s bg = Ok (row, bg') ->
  (strand_has_reads utr s = false /\ row = default_row utr /\ bg' = bg)
  \/ (strand_has_reads utr s = true
      /\ exists acc, scan_positions utr refSeq s bg = Ok acc
                     /\ row = counted_row utr T readNumber s acc
                     /\ bg' = conversionBedGraph acc).
Proof.
  unfold summarise. destruct (strand_has_reads utr s).
  - destruct (opposite_strand_dominates utr s); [discriminate|].
    destruct (scan_positions utr refSeq s bg) as [acc|e]; simpl; [|discriminate].
    intros [= <- <-]. right. eauto.
  - intros [= <- <-]. left. auto.
Qed.

(** The loop over the intervals: an exception keeps the rows written so
    far and nothing else; a run that reaches the bedgraph files has
    written one row per interval. *)
Lemma utr_loop_raise (bed : list BedEntry) (rows : list SlamSeqInterval)
    (bg : gmap string Q) (utr : BedEntry) (e : exn) :
  process_utr referenceFile testFile readNumber maxReadLength strictTCs bg utr
  = Raise e ->
  utr_loop referenceFile testFile readNumber maxReadLength strictTCs
           (utr :: bed) rows bg
  = {| fileCSV := rows; ending := Raise e |}.
Proof. intros H. simpl. rewrite H. reflexivity. Qed.

Lemma utr_loop_rows (bed : list BedEntry) :
  forall (rows : list SlamSeqInterval) (bg : gmap string Q),
  let run := utr_loop referenceFile testFile readNumber maxReadLength strictTCs
                      bed rows bg in
  (length rows <= length (fileCSV run) <= length rows + length bed)%nat
  /\ forall (i : nat) (row : SlamSeqInterval), rows !! i = Some row -> fileCSV run !! i = Some row.
Proof.
  induction bed as [|utr bed IH]; intros rows bg; simpl.
  - split; [lia|auto].
  - destruct (process_utr _ _ _ _ _ bg utr) as [[row bg']|e]; simpl.
    + specialize (IH (rows ++ [row])%list bg'). simpl in IH.
      rewrite length_app in IH. simpl in IH. destruct IH as [IH1 IH2].
      split; [lia|]. intros i r Hi. apply IH2.
      apply lookup_app_l_Some, Hi.
    + split; [lia|auto].
Qed.
End IntervalFlow.

(** C1 (fails on the code): the interval [chr1:100-110 (+)] over ten [T]s,
    with no read at all, yields exactly one row, and that row has
    [readsPerMillion], [conversionsOnTs], [conversionRate] and the three
    read counters at zero; but its [coverageOnTs] is [-1], not 0, and its
    [Tcontent] is 0 although the count computed for the interval is 10:
    the row is the one built at line 130, before [Tcontent] is computed. *)
Theorem C1_zero_read_row_is_the_line_130_default :
  TCounter.compute_Tcontent Samples.fasta Samples.utr_plus = 10
  /\ Samples.run []
     = {| TCounter.fileCSV :=
            [ {| TCounter.iv_chromosome := "chr1"; TCounter.iv_start := 100;
                 TCounter.iv_stop := 110; TCounter.iv_strand := "+";
                 TCounter.iv_name := "utr1";
                 TCounter.Tcontent := 0; TCounter.readsCPM := 0%Q;
                 TCounter.coverageOnTs := -1; TCounter.conversionsOnTs := 0;
                 TCounter.conversionRate := 0%Q;
                 TCounter.readCount := 0; TCounter.tcReadCount := 0;
                 TCounter.multiMapCount := 0 |} ];
          TCounter.ending := Ok ([], []) |}.
Proof. vm_compute. split; reflexivity. Qed.

(** C2 (fails on the code): on the plus-strand interval [chr1:100-110] with
    one forward and two reverse reads, the opposite strand has more reads
    than the annotated one, which has one.  Building the warning of line
    206 raises [TypeError]: the run ends there, no row is written for the
    interval and no bedgraph file is produced. *)
Theorem C2_strand_mismatch_warning_aborts :
  let rs := [Samples.read TCounter.Forward 0 10 [];
             Samples.read TCounter.Reverse 0 10 [];
             Samples.read TCounter.Reverse 0 10 []] in
  let s := TCounter.scan_reads Samples.utr_plus false rs in
  TCounter.countFwd s = 1 /\ TCounter.countRev s = 2
  /\ Samples.run rs = {| TCounter.fileCSV := []; TCounter.ending := Raise TypeError |}.
Proof. vm_compute. repeat split; reflexivity. Qed.

(** C9 (fails on the code): a run can end in an exception without any
    fatal input error.  Both intervals below are stranded with a
    non-negative start and the alignment file has the expected version;
    the first interval gets its row, the second has one forward and two
    reverse reads, and the run ends in the [TypeError] of line 206 with
    only the first row written. *)
Theorem C9_abort_without_fatal_input_error :
  let bed := [Samples.utr_plus; Samples.utr_second] in
  let file :=
    Samples.bam_by_start (fun start =>
      if decide (start = 100) then [Samples.read TCounter.Forward 0 10 []]
      else [Samples.read TCounter.Forward 0 4 [];
            Samples.read TCounter.Reverse 0 4 [];
            Samples.read TCounter.Reverse 0 4 []]) in
  let run := TCounter.computeTconversions "3" Samples.fasta bed file 1000000 100 false in
  Forall (fun utr => TCounter.hasStrand utr = true /\ 0 <= TCounter.start utr) bed
  /\ TCounter.bamVersion file = "3"
  /\ TCounter.ending run = Raise TypeError
  /\ TCounter.iv_name <$> TCounter.fileCSV run = ["utr1"].
Proof.
  repeat split.
  - repeat constructor; vm_compute; congruence.
Qed.

Section FatalErrors.
Import TCounter.

(** The three fatal input errors do end the run. *)
Lemma version_mismatch_aborts (bam_version : string) (referenceFile : FastaFile)
    (bed : list BedEntry) (testFile : SlamSeqBamFile)
    (readNumber maxReadLength : Z) (strictTCs : bool) :
  bamVersion testFile <> bam_version ->
  exists msg,
    computeTconversions bam_version referenceFile bed testFile readNumber
                        maxReadLength strictTCs
    = {| fileCSV := []; ending := Raise (RuntimeError msg) |}.
Proof.
  intros Hne. unfold computeTconversions.
  destruct (decide (bamVersion testFile = bam_version)); [contradiction|eauto].
Qed.

Lemma bad_interval_aborts (referenceFile : FastaFile) (testFile : SlamSeqBamFile)
    (readNumber maxReadLength : Z) (strictTCs : bool)
    (bed : list BedEntry) (rows : list SlamSeqInterval) (bg : gmap string Q)
    (utr : BedEntry) :
  hasStrand utr = false \/ start utr < 0 ->
  exists e,
    utr_loop referenceFile testFile readNumber maxReadLength strictTCs
             (utr :: bed) rows bg
    = {| fileCSV := rows; ending := Raise e |}.
Proof.
  intros Hbad.
  assert (exists e, process_utr referenceFile testFile readNumber maxReadLength
                      strictTCs bg utr = Raise e) as [e He].
  { destruct (hasStrand utr) eqn:Hs.
    - destruct Hbad as [|Hneg]; [discriminate|].
      eapply process_utr_negative_start; eauto.
    - eexists. apply process_utr_no_strand, Hs. }
  exists e. apply utr_loop_raise, He.
Qed.
End FatalErrors.

(** ** The convertible bases of the reference *)

Lemma count_occurrences (c : ascii) (s : string) : Py.count c s = occurrences c s.
Proof.
  unfold occurrences. induction s as [|d s IH]; simpl; [reflexivity|].
  rewrite IH. rewrite filter_cons.
  destruct (Ascii.eqb_spec d c) as [->|Hne].
  - rewrite decide_True by reflexivity. simpl length. lia.
  - rewrite decide_False by exact Hne. lia.
Qed.

(** The count computed at lines 139-147, and the row that carries it: the
    row built from the counters of an interval with reads on its strand. *)
Lemma counted_row_Tcontent
    (referenceFile : TCounter.FastaFile) (testFile : TCounter.SlamSeqBamFile)
    (readNumber maxReadLength : Z) (strictTCs : bool) (bg : gmap string Q)
    (utr : TCounter.BedEntry) :
  let refSeq := Py.upper (TCounter.fetch referenceFile (TCounter.region utr)) in
  let iterator :=
    TCounter.readInRegion testFile (TCounter.chromosome utr) (TCounter.start utr)
      (TCounter.stop utr) (TCounter.strand utr) maxReadLength in
  let s := TCounter.scan_reads utr strictTCs (TCounter.reads iterator) in
  (TCounter.chromosome utr ∈ TCounter.references referenceFile ->
     (TCounter.strand utr = "+" ->
        TCounter.compute_Tcontent referenceFile utr = occurrences "T" refSeq)
     /\ (TCounter.strand utr = "-" ->
        TCounter.compute_Tcontent referenceFile utr = occurrences "A" refSeq))
  /\ (TCounter.chromosome utr ∉ TCounter.references referenceFile ->
        TCounter.compute_Tcontent referenceFile utr = 0)
  /\ (forall row bg',
        TCounter.process_utr referenceFile testFile readNumber maxReadLength
                             strictTCs bg utr = Ok (row, bg') ->
        (TCounter.strand_has_reads utr s = true ->
           TCounter.Tcontent row = TCounter.compute_Tcontent referenceFile utr)
        /\ (TCounter.strand_has_reads utr s = false -> TCounter.Tcontent row = 0)).
Proof.
  intros refSeq iterator s. repeat split.
  - intros Hplus. unfold TCounter.compute_Tcontent.
    rewrite decide_True by assumption.
    rewrite decide_False by (rewrite Hplus; discriminate).
    apply count_occurrences.
  - intros Hminus. unfold TCounter.compute_Tcontent.
    rewrite decide_True by assumption. rewrite decide_True by assumption.
    apply count_occurrences.
  - intros Hout. unfold TCounter.compute_Tcontent.
    rewrite decide_False by assumption. reflexivity.
  - intros Hreads.
    assert (TCounter.hasStrand utr = true /\ 0 <= TCounter.start utr) as [Hs Hstart].
    { unfold TCounter.process_utr in H.
      destruct (TCounter.hasStrand utr); [|discriminate]. simpl in H.
      destruct (decide (TCounter.start utr < 0)); [discriminate|]. split; [reflexivity|lia]. }
    rewrite process_utr_checked in H by assumption.
    apply summarise_Ok in H as [(Hnone & _)|(_ & acc & _ & -> & _)].
    + fold iterator in Hnone. fold s in Hnone. congruence.
    + reflexivity.
  - intros Hnone.
    assert (TCounter.hasStrand utr = true /\ 0 <= TCounter.start utr) as [Hs Hstart].
    { unfold TCounter.process_utr in H.
      destruct (TCounter.hasStrand utr); [|discriminate]. simpl in H.
      destruct (decide (TCounter.start utr < 0)); [discriminate|]. split; [reflexivity|lia]. }
    rewrite process_utr_checked in H by assumption.
    apply summarise_Ok in H as [(_ & -> & _)|(Hreads & _)].
    + reflexivity.
    + fold iterator in Hreads. fold s in Hreads. congruence.
Qed.

(** C8 (fails on the code): [chr1] is in the reference and the upper-cased
    sequence fetched for the plus-strand interval [chr1:100-110] holds ten
    [T]s, so the count computed at lines 139-147 is 10; yet with no read on
    the strand of the interval the row written for it reports 0, the value
    of line 129 with which the row of line 130 was built.  With one forward
    read the row is rebuilt at line 255 and reports 10.  On a chromosome
    that is not in the reference the count is 0, nothing is raised and the
    read is still counted for coverage and conversions. *)
Theorem C8_zero_read_row_reports_no_convertible_base :
  let refSeq :=
    Py.upper (TCounter.fetch Samples.fasta (TCounter.region Samples.utr_plus)) in
  let elsewhere :=
    {| TCounter.chromosome := "chrUn"; TCounter.start := 100; TCounter.stop := 110;
       TCounter.strand := "+"; TCounter.name := "utr3" |} in
  let covered := [Samples.read TCounter.Forward 0 10 [Samples.conversion_at 3]] in
  bool_decide (TCounter.chromosome Samples.utr_plus
               ∈ TCounter.references Samples.fasta) = true
  /\ TCounter.strand Samples.utr_plus = "+"
  /\ occurrences "T" refSeq = 10
  /\ TCounter.compute_Tcontent Samples.fasta Samples.utr_plus = 10
  /\ TCounter.Tcontent <$> TCounter.fileCSV (Samples.run []) = [0]
  /\ TCounter.Tcontent <$> TCounter.fileCSV (Samples.run covered) = [10]
  /\ bool_decide (TCounter.chromosome elsewhere
                  ∈ TCounter.references Samples.fasta) = false
  /\ (λ row : TCounter.SlamSeqInterval,
        (TCounter.Tcontent row, TCounter.coverageOnTs row,
         TCounter.conversionsOnTs row))
     <$> TCounter.fileCSV
           (TCounter.computeTconversions "3" Samples.fasta [elsewhere]
              (Samples.bam covered) 1000000 100 false)
     = [(0, 10, 1)].
Proof. vm_compute. repeat split; reflexivity. Qed.

(** ** The position arrays *)

Section Arrays.
Context {A : Type} (target : A -> option nat).

Lemma bump_lookup (arr : list Z) (a : A) (i : nat) :
  bump target arr a !! i
  = (fun x => x + (if decide (target a = Some i) then 1 else 0)) <$> arr !! i.
Proof.
  unfold bump. destruct (target a) as [j|] eqn:Ht.
  - destruct (decide (j = i)) as [->|Hne].
    + rewrite decide_True by reflexivity. apply list_lookup_alter_eq.
    + rewrite decide_False by congruence.
      rewrite list_lookup_alter_ne by exact Hne.
      destruct (arr !! i); simpl; f_equal; lia.
  - rewrite decide_False by discriminate.
    destruct (arr !! i); simpl; f_equal; lia.
Qed.

(** After a loop of increments, a cell holds its old value plus the
    number of elements that aimed at it. *)
Lemma foldl_bump_lookup (l : list A) (arr : list Z) (i : nat) :
  foldl (bump target) arr l !! i = (fun x => x + aimed target i l) <$> arr !! i.
Proof.
  unfold aimed. revert arr. induction l as [|a l IH]; intros arr; simpl.
  - destruct (arr !! i); simpl; f_equal; lia.
  - rewrite IH, bump_lookup, filter_cons.
    destruct (arr !! i) as [x|]; simpl; [|reflexivity]. f_equal.
    destruct (decide (target a = Some i)); simpl length; lia.
Qed.

Lemma foldl_bump_length (l : list A) (arr : list Z) :
  length (foldl (bump target) arr l) = length arr.
Proof.
  revert arr. induction l as [|a l IH]; intros arr; simpl; [reflexivity|].
  rewrite IH. unfold bump. destruct (target a); [apply length_alter|reflexivity].
Qed.

Lemma aimed_nonneg (i : nat) (l : list A) : 0 <= aimed target i l.
Proof. unfold aimed. lia. Qed.

Lemma aimed_pos (i : nat) (l : list A) :
  0 < aimed target i l <-> exists a, a ∈ l /\ target a = Some i.
Proof.
  unfold aimed. split.
  - intros Hpos. destruct (filter _ l) as [|a f] eqn:Hf; [simpl in Hpos; lia|].
    exists a.
    assert (a ∈ filter (fun a => target a = Some i) l) as Hin
      by (rewrite Hf; left).
    apply list_elem_of_filter in Hin. tauto.
  - intros (a & Hin & Ha).
    assert (a ∈ filter (fun a => target a = Some i) l) as Hf
      by (apply list_elem_of_filter; auto).
    destruct (filter _ l); [inversion Hf|simpl; lia].
Qed.
End Arrays.

Section ArrayLoops.
Import TCounter.
Variable utr : BedEntry.

Lemma count_mismatch_bump (rev : bool) (arr : list Z) (m : Mismatch) :
  count_mismatch utr rev arr m = bump (mismatch_target utr rev) arr m.
Proof.
  unfold count_mismatch, bump, mismatch_target, incr.
  destruct (_ && _ && _); reflexivity.
Qed.

Lemma cover_bump (arr : list Z) (i : Z) :
  cover utr arr i = bump (cover_target utr) arr i.
Proof.
  unfold cover, bump, cover_target, incr. destruct (_ && _); reflexivity.
Qed.

Lemma foldl_ext_eq {X Y : Type} (f g : X -> Y -> X) (l : list Y) (x : X) :
  (forall x y, f x y = g x y) -> foldl f x l = foldl g x l.
Proof.
  intros H. revert x. induction l as [|y l IH]; intros x; simpl; [reflexivity|].
  rewrite H. apply IH.
Qed.

(** The two arrays after one read. *)
Lemma count_read_tc (strictTCs : bool) (s : Scan) (read : Read) (i : nat) :
  tcCountUtr (count_read utr strictTCs s read) !! i
  = (fun x => x + aimed (mismatch_target utr (is_reverse read)) i
                    (mismatches (strict_filter strictTCs read)))
    <$> tcCountUtr s !! i.
Proof.
  unfold count_read. simpl.
  assert (is_reverse (strict_filter strictTCs read) = is_reverse read) as ->.
  { unfold strict_filter. destruct (_ && _); reflexivity. }
  rewrite (foldl_ext_eq _ (bump (mismatch_target utr (is_reverse read))))
    by (intros; apply count_mismatch_bump).
  apply foldl_bump_lookup.
Qed.

Lemma count_read_cov (strictTCs : bool) (s : Scan) (read : Read) (i : nat) :
  coverageUtr (count_read utr strictTCs s read) !! i
  = (fun x => x + aimed (cover_target utr) i
                    (seqZ (startRefPos read) (endRefPos read - startRefPos read)))
    <$> coverageUtr s !! i.
Proof.
  unfold count_read. simpl.
  assert (startRefPos (strict_filter strictTCs read) = startRefPos read
          /\ endRefPos (strict_filter strictTCs read) = endRefPos read) as [-> ->].
  { unfold strict_filter. destruct (_ && _); split; reflexivity. }
  rewrite (foldl_ext_eq _ (bump (cover_target utr)))
    by (intros; apply cover_bump).
  apply foldl_bump_lookup.
Qed.

Lemma count_read_lengths (strictTCs : bool) (s : Scan) (read : Read) :
  length (tcCountUtr (count_read utr strictTCs s read)) = length (tcCountUtr s)
  /\ length (coverageUtr (count_read utr strictTCs s read)) = length (coverageUtr s).
Proof.
  unfold count_read. simpl. split.
  - rewrite (foldl_ext_eq _ (bump (mismatch_target utr
              (is_reverse (strict_filter strictTCs read)))))
      by (intros; apply count_mismatch_bump).
    apply foldl_bump_length.
  - rewrite (foldl_ext_eq _ (bump (cover_target utr)))
      by (intros; apply cover_bump).
    apply foldl_bump_length.
Qed.
End ArrayLoops.

Section ScanInvariant.
Import TCounter.
Variables (utr : BedEntry) (strictTCs : bool).

Lemma scan_reads_snoc (rs : list Read) (read : Read) :
  scan_reads utr strictTCs (rs ++ [read])
  = count_read utr strictTCs (scan_reads utr strictTCs rs) read.
Proof. unfold scan_reads. apply foldl_snoc. Qed.

Lemma scan_lengths (rs : list Read) :
  length (tcCountUtr (scan_reads utr strictTCs rs)) = Z.to_nat (getLength utr)
  /\ length (coverageUtr (scan_reads utr strictTCs rs)) = Z.to_nat (getLength utr).
Proof.
  induction rs as [|read rs IH] using rev_ind.
  - simpl. unfold zeros. rewrite length_replicate. auto.
  - rewrite scan_reads_snoc.
    destruct (count_read_lengths utr strictTCs (scan_reads utr strictTCs rs) read)
      as [-> ->]. exact IH.
Qed.

Lemma filter_length_mono {X : Type} (P Q : X -> Prop)
    `{forall x, Decision (P x)} `{forall x, Decision (Q x)} (l : list X) :
  (forall x, P x -> Q x) -> (length (filter P l) <= length (filter Q l))%nat.
Proof.
  intros HPQ. induction l as [|x l IH]; [reflexivity|].
  rewrite !filter_cons. destruct (decide (P x)) as [HP|HnP].
  - rewrite decide_True by auto. simpl. lia.
  - destruct (decide (Q x)); simpl; lia.
Qed.

Lemma strict_filter_mismatches (read : Read) (m : Mismatch) :
  m ∈ mismatches (strict_filter strictTCs read) -> m ∈ mismatches read.
Proof.
  unfold strict_filter. destruct (_ && _); simpl; [|auto].
  intros H. inversion H.
Qed.

Lemma mismatch_target_Some (rev : bool) (m : Mismatch) (i : nat) :
  mismatch_target utr rev m = Some i ->
  isTCMismatch m rev = true
  /\ 0 <= referencePosition m < getLength utr
  /\ referencePosition m = Z.of_nat i.
Proof.
  unfold mismatch_target.
  destruct (isTCMismatch m rev); simpl; [|discriminate].
  do 2 (case_bool_decide; simpl; [|discriminate]).
  intros [= <-]. repeat split; try lia.
Qed.

(** A read adds to a cell of [tcCountUtr] at most its number of
    conversion mismatches. *)
Lemma conversions_added_le (read : Read) (i : nat) :
  aimed (mismatch_target utr (is_reverse read)) i
        (mismatches (strict_filter strictTCs read))
  <= Z.of_nat (length (conversions_of read)).
Proof.
  unfold aimed, conversions_of. rewrite length_fmap. apply inj_le.
  etransitivity.
  2:{ apply (filter_length_mono
               (fun m => mismatch_target utr (is_reverse read) m = Some i)).
      intros m Hm. apply mismatch_target_Some in Hm. tauto. }
  unfold strict_filter. destruct (_ && _); simpl; [lia|reflexivity].
Qed.

(** A read whose conversion mismatches lie within its span covers every
    cell it adds a conversion to. *)
Lemma conversion_is_covered (read : Read) (i : nat) :
  within_span read ->
  0 < aimed (mismatch_target utr (is_reverse read)) i
            (mismatches (strict_filter strictTCs read)) ->
  0 < aimed (cover_target utr) i
            (seqZ (startRefPos read) (endRefPos read - startRefPos read)).
Proof.
  intros Hspan Hpos. apply aimed_pos in Hpos as (m & Hin & Hm).
  apply strict_filter_mismatches in Hin.
  apply mismatch_target_Some in Hm as (Htc & Hrange & Hp).
  assert (referencePosition m ∈ conversions_of read) as Hconv.
  { unfold conversions_of. apply list_elem_of_fmap. exists m. split; [reflexivity|].
    apply list_elem_of_filter. auto. }
  unfold within_span in Hspan. rewrite Forall_forall in Hspan.
  specialize (Hspan _ Hconv).
  apply aimed_pos. exists (referencePosition m). split.
  - apply elem_of_seqZ. lia.
  - unfold cover_target. rewrite !bool_decide_eq_true_2 by lia. simpl.
    f_equal. lia.
Qed.

Lemma max_conversions_snoc (rs : list Read) (read : Read) :
  max_conversions (rs ++ [read])
  = Z.max (max_conversions rs) (Z.of_nat (length (conversions_of read))).
Proof.
  unfold max_conversions. rewrite fmap_app, foldr_app. simpl.
  induction (_ <$> rs) as [|x l IH]; simpl; lia.
Qed.

Lemma max_conversions_nonneg (rs : list Read) : 0 <= max_conversions rs.
Proof. unfold max_conversions. induction rs; simpl; lia. Qed.

(** Entries never decrease, and never go below zero. *)
Lemma scan_monotone (rs : list Read) (read : Read) (i : nat) (c v : Z) :
  tcCountUtr (scan_reads utr strictTCs rs) !! i = Some c ->
  coverageUtr (scan_reads utr strictTCs rs) !! i = Some v ->
  exists c' v',
    tcCountUtr (scan_reads utr strictTCs (rs ++ [read])) !! i = Some c'
    /\ coverageUtr (scan_reads utr strictTCs (rs ++ [read])) !! i = Some v'
    /\ c <= c' /\ v <= v'.
Proof.
  intros Hc Hv. rewrite scan_reads_snoc, count_read_tc, count_read_cov, Hc, Hv.
  simpl. eexists _, _. split; [reflexivity|]. split; [reflexivity|].
  pose proof (aimed_nonneg (mismatch_target utr (is_reverse read)) i
                (mismatches (strict_filter strictTCs read))).
  pose proof (aimed_nonneg (cover_target utr) i
                (seqZ (startRefPos read) (endRefPos read - startRefPos read))).
  lia.
Qed.

Lemma scan_nonneg (rs : list Read) (i : nat) (x : Z) :
  tcCountUtr (scan_reads utr strictTCs rs) !! i = Some x
  \/ coverageUtr (scan_reads utr strictTCs rs) !! i = Some x ->
  0 <= x.
Proof.
  revert x. induction rs as [|read rs IH] using rev_ind; intros x.
  - simpl. unfold zeros. intros [H|H]; apply lookup_replicate in H; lia.
  - rewrite scan_reads_snoc, count_read_tc, count_read_cov.
    intros [H|H].
    + destruct (tcCountUtr (scan_reads utr strictTCs rs) !! i) as [c|] eqn:Hc;
        simpl in H; [|discriminate]. injection H as <-.
      pose proof (IH c (or_introl eq_refl)).
      pose proof (aimed_nonneg (mismatch_target utr (is_reverse read)) i
                    (mismatches (strict_filter strictTCs read))). lia.
    + destruct (coverageUtr (scan_reads utr strictTCs rs) !! i) as [v|] eqn:Hv;
        simpl in H; [|discriminate]. injection H as <-.
      pose proof (IH v (or_intror eq_refl)).
      pose proof (aimed_nonneg (cover_target utr) i
                    (seqZ (startRefPos read) (endRefPos read - startRefPos read))).
      lia.
Qed.

(** The bound of conversions by coverage. *)
Lemma scan_conversions_bounded (rs : list Read) :
  Forall within_span rs ->
  forall (i : nat) (c v : Z),
    tcCountUtr (scan_reads utr strictTCs rs) !! i = Some c ->
    coverageUtr (scan_reads utr strictTCs rs) !! i = Some v ->
    c <= v * max_conversions rs.
Proof.
  induction rs as [|read rs IH] using rev_ind; intros Hspan i c v.
  - simpl. unfold zeros. intros Hc Hv.
    apply lookup_replicate in Hc, Hv. unfold max_conversions. simpl. lia.
  - apply Forall_app in Hspan as [Hrs Hread].
    rewrite Forall_singleton in Hread.
    rewrite scan_reads_snoc, count_read_tc, count_read_cov, max_conversions_snoc.
    destruct (tcCountUtr (scan_reads utr strictTCs rs) !! i) as [c0|] eqn:Hc0;
      simpl; [|discriminate].
    destruct (coverageUtr (scan_reads utr strictTCs rs) !! i) as [v0|] eqn:Hv0;
      simpl; [|discriminate].
    intros [= <-] [= <-].
    specialize (IH Hrs i c0 v0 Hc0 Hv0).
    pose proof (scan_nonneg rs i v0 (or_intror Hv0)) as Hv0pos.
    pose proof (max_conversions_nonneg rs) as HM.
    pose proof (conversions_added_le read i) as Hle.
    pose proof (conversion_is_covered read i Hread) as Hcov.
    pose proof (aimed_nonneg (mismatch_target utr (is_reverse read)) i
                  (mismatches (strict_filter strictTCs read))) as Hh.
    pose proof (aimed_nonneg (cover_target utr) i
                  (seqZ (startRefPos read) (endRefPos read - startRefPos read)))
      as Hg.
    set (h := aimed (mismatch_target utr (is_reverse read)) i _) in *.
    set (g := aimed (cover_target utr) i _) in *.
    set (K := Z.of_nat (length (conversions_of read))) in *.
    set (M := max_conversions rs) in *.
    destruct (Z.eq_dec h 0) as [Hz|Hnz].
    + rewrite Hz. nia.
    + assert (1 <= g) by lia. nia.
Qed.
End ScanInvariant.

(** C7 as stated fails: nothing in the scan ties a mismatch to the span of
    its read.  A read covering offset 0 only, with a conversion mismatch at
    offset 3, leaves [conversions[3] = 1] over [coverage[3] = 0]. *)
Lemma C7_counterexample :
  let rs := [Samples.read TCounter.Forward 0 1 [Samples.conversion_at 3]] in
  let s := TCounter.scan_reads Samples.utr_plus false rs in
  TCounter.tcCountUtr s !! 3%nat = Some 1
  /\ TCounter.coverageUtr s !! 3%nat = Some 0
  /\ max_conversions rs = 1
  /\ ~ (forall (i : nat) (c v : Z),
          TCounter.tcCountUtr s !! i = Some c ->
          TCounter.coverageUtr s !! i = Some v ->
          c <= v * max_conversions rs).
Proof.
  intros rs s. split; [reflexivity|]. split; [reflexivity|]. split; [reflexivity|].
  intros H. specialize (H 3%nat 1 0 eq_refl eq_refl). vm_compute in H.
  apply H. reflexivity.
Qed.

(** C7, amended: during the scan of one interval the two arrays have the
    length of the interval, start at zero, hold non-negative integers, and
    no read lowers an entry; when the conversion mismatches of every read
    lie within the reference span of that read, [conversions[i]] is at most
    [coverage[i]] times the largest number of conversion mismatches on one
    read, after every read. *)
Theorem C7_position_arrays
    (utr : TCounter.BedEntry) (strictTCs : bool)
    (rs : list TCounter.Read) (read : TCounter.Read) :
  let s := TCounter.scan_reads utr strictTCs rs in
  let s' := TCounter.scan_reads utr strictTCs (rs ++ [read]) in
  let n := Z.to_nat (TCounter.getLength utr) in
  TCounter.tcCountUtr (TCounter.scan_reads utr strictTCs []) = replicate n 0
  /\ TCounter.coverageUtr (TCounter.scan_reads utr strictTCs []) = replicate n 0
  /\ length (TCounter.tcCountUtr s) = n
  /\ length (TCounter.coverageUtr s) = n
  /\ (forall (i : nat) (x : Z),
        TCounter.tcCountUtr s !! i = Some x \/ TCounter.coverageUtr s !! i = Some x ->
        0 <= x)
  /\ (forall (i : nat) (c v : Z),
        TCounter.tcCountUtr s !! i = Some c ->
        TCounter.coverageUtr s !! i = Some v ->
        exists c' v',
          TCounter.tcCountUtr s' !! i = Some c'
          /\ TCounter.coverageUtr s' !! i = Some v'
          /\ c <= c' /\ v <= v')
  /\ (Forall within_span rs ->
      forall (i : nat) (c v : Z),
        TCounter.tcCountUtr s !! i = Some c ->
        TCounter.coverageUtr s !! i = Some v ->
        c <= v * max_conversions rs).
Proof.
  intros s s' n. split; [reflexivity|]. split; [reflexivity|].
  destruct (scan_lengths utr strictTCs rs) as [Htc Hcov].
  split; [exact Htc|]. split; [exact Hcov|].
  split; [intros i x; apply scan_nonneg|].
  split; [intros i c v; apply scan_monotone|].
  apply scan_conversions_bounded.
Qed.

(** C7 at work: a forward read over the whole interval with a conversion at
    offset 3 and a reverse read over offsets 2 to 5 with conversions at 3
    and 4; at offset 3 two conversions under two reads. *)
Lemma C7_witness :
  let rs := [Samples.read TCounter.Forward 0 10 [Samples.conversion_at 3];
             Samples.read TCounter.Reverse 2 6
               [Samples.conversion_at 3; Samples.conversion_at 4]] in
  let s := TCounter.scan_reads Samples.utr_plus false rs in
  Forall within_span rs
  /\ max_conversions rs = 2
  /\ TCounter.tcCountUtr s !! 3%nat = Some 2
  /\ TCounter.coverageUtr s !! 3%nat = Some 2
  /\ 2 <= 2 * max_conversions rs.
Proof.
  intros rs s.
  assert (Forall within_span rs) as Hspan.
  { repeat constructor; vm_compute; congruence. }
  split; [exact Hspan|]. split; [reflexivity|].
  split; [reflexivity|]. split; [reflexivity|].
  destruct (C7_position_arrays Samples.utr_plus false rs
              (Samples.read TCounter.Forward 0 1 []))
    as (_ & _ & _ & _ & _ & _ & Hbound).
  apply (Hbound Hspan 3%nat 2 2); reflexivity.
Defined.

(** ** The conversion rate *)

Lemma ratio_in_unit_interval (a b : Z) :
  0 <= a <= b -> 0 < b -> (0 <= inject_Z a / inject_Z b <= 1)%Q.
Proof.
  intros [Ha Hab] Hb.
  assert (0 < inject_Z b)%Q as Hb' by (unfold Qlt; simpl; lia).
  split.
  - apply Qle_shift_div_l; [exact Hb'|]. unfold Qle; simpl; lia.
  - apply Qle_shift_div_r; [exact Hb'|]. unfold Qle; simpl; lia.
Qed.

Section IntervalRate.
Import TCounter.
Variables (utr : BedEntry) (strictTCs : bool).

(** With pairwise distinct conversion positions, a read adds at most one
    conversion to a cell. *)
Lemma filter_constant_NoDup {X : Type} (f : X -> Z) (a : Z) (P Q : X -> Prop)
    `{forall x, Decision (P x)} `{forall x, Decision (Q x)} (l : list X) :
  (forall x, P x -> Q x /\ f x = a) ->
  NoDup (f <$> filter Q l) ->
  (length (filter P l) <= 1)%nat.
Proof.
  intros HPQ. induction l as [|x l IH]; intros Hnd; [simpl; lia|].
  rewrite filter_cons. rewrite filter_cons in Hnd.
  destruct (decide (P x)) as [HP|HnP].
  - destruct (HPQ x HP) as [HQ Hfx]. rewrite decide_True in Hnd by exact HQ.
    rewrite fmap_cons in Hnd. apply NoDup_cons in Hnd as [Hnotin Hnd].
    assert (filter P l = []) as ->; [|simpl; lia].
    destruct (filter P l) as [|y ys] eqn:Hf; [reflexivity|]. exfalso.
    assert (y ∈ filter P l) as Hy by (rewrite Hf; left).
    apply list_elem_of_filter in Hy as [HPy Hyl].
    destruct (HPQ y HPy) as [HQy Hfy].
    apply Hnotin. rewrite Hfx, <- Hfy. apply list_elem_of_fmap.
    exists y. split; [reflexivity|]. apply list_elem_of_filter. auto.
  - apply IH. destruct (decide (Q x)); [|exact Hnd].
    rewrite fmap_cons in Hnd. apply NoDup_cons in Hnd. tauto.
Qed.

Lemma conversions_added_once (read : Read) (i : nat) :
  NoDup (conversions_of read) ->
  aimed (mismatch_target utr (is_reverse read)) i
        (mismatches (strict_filter strictTCs read)) <= 1.
Proof.
  intros Hnd. unfold aimed.
  assert (length (filter (fun m => mismatch_target utr (is_reverse read) m = Some i)
                         (mismatches read)) <= 1)%nat as Hraw.
  { apply (filter_constant_NoDup referencePosition (Z.of_nat i) _
             (fun m => isTCMismatch m (is_reverse read) = true)); [|exact Hnd].
    intros m Hm. apply mismatch_target_Some in Hm. tauto. }
  unfold strict_filter. destruct (_ && _); simpl; lia.
Qed.

(** Under well-formed reads no cell holds more conversions than
    coverage. *)
Lemma scan_conversions_le_coverage (rs : list Read) :
  Forall well_formed rs ->
  forall (i : nat) (c v : Z),
    tcCountUtr (scan_reads utr strictTCs rs) !! i = Some c ->
    coverageUtr (scan_reads utr strictTCs rs) !! i = Some v ->
    c <= v.
Proof.
  induction rs as [|read rs IH] using rev_ind; intros Hwf i c v.
  - simpl. unfold zeros. intros Hc Hv. apply lookup_replicate in Hc, Hv. lia.
  - apply Forall_app in Hwf as [Hrs Hread].
    rewrite Forall_singleton in Hread. destruct Hread as [Hspan Hnd].
    rewrite scan_reads_snoc, count_read_tc, count_read_cov.
    destruct (tcCountUtr (scan_reads utr strictTCs rs) !! i) as [c0|] eqn:Hc0;
      simpl; [|discriminate].
    destruct (coverageUtr (scan_reads utr strictTCs rs) !! i) as [v0|] eqn:Hv0;
      simpl; [|discriminate].
    intros [= <-] [= <-].
    specialize (IH Hrs i c0 v0 Hc0 Hv0).
    pose proof (conversions_added_once read i Hnd) as Hone.
    pose proof (conversion_is_covered utr strictTCs read i Hspan) as Hcov.
    pose proof (aimed_nonneg (mismatch_target utr (is_reverse read)) i
                  (mismatches (strict_filter strictTCs read))) as Hh.
    pose proof (aimed_nonneg (cover_target utr) i
                  (seqZ (startRefPos read) (endRefPos read - startRefPos read)))
      as Hg.
    lia.
Qed.

(** The sums over the positions: conversions never exceed coverage when
    no cell does. *)
Lemma scan_positions_sums (refSeq : string) (s : Scan) (bg : gmap string Q)
    (acc : PosAcc) :
  length (tcCountUtr s) = length (coverageUtr s) ->
  (forall (i : nat) (c v : Z),
     tcCountUtr s !! i = Some c -> coverageUtr s !! i = Some v -> 0 <= c <= v) ->
  scan_positions utr refSeq s bg = Ok acc ->
  0 <= accConversionsOnTs acc <= accCoverageOnTs acc.
Proof.
  intros Hlen Hcell Hrun. unfold scan_positions in Hrun.
  refine (for_each_invariant_in _
            (fun a => 0 <= accConversionsOnTs a <= accCoverageOnTs a)
            _ _ _ _ _ Hrun); [|simpl; lia].
  intros a position a' Hin Ha Hbody.
  apply elem_of_seq in Hin as [_ Hin]. simpl in Hin.
  destruct (lookup_lt_is_Some_2 (coverageUtr s) position Hin) as [v Hv].
  destruct (lookup_lt_is_Some_2 (tcCountUtr s) position ltac:(lia)) as [c Hc].
  specialize (Hcell position c v Hc Hv).
  unfold position_body in Hbody.
  rewrite (list_lookup_total_correct _ _ _ Hv) in Hbody.
  rewrite (list_lookup_total_correct _ _ _ Hc) in Hbody.
  destruct (on_convertible utr refSeq v position) as [hit|e]; simpl in Hbody;
    [|discriminate].
  injection Hbody as <-.
  destruct hit; destruct (decide (0 < v)); simpl; lia.
Qed.

(** The rate of a row built from the counters. *)
Lemma counted_row_rate (T readNumber : Z) (s : Scan) (acc : PosAcc) :
  let row := counted_row utr T readNumber s acc in
  (0 < coverageOnTs row ->
     conversionRate row
     = (inject_Z (conversionsOnTs row) / inject_Z (coverageOnTs row))%Q)
  /\ (coverageOnTs row <= 0 -> conversionRate row = 0%Q).
Proof.
  unfold counted_row; simpl. split; intros H.
  - rewrite decide_True by exact H. reflexivity.
  - rewrite decide_False by lia. reflexivity.
Qed.
End IntervalRate.

Section RollupRate.
Import Collapse.

Lemma loop_body_skipped (st st' : LoopState) (line : string) :
  row_values line = None -> loop_body st line = Ok st' ->
  tcDict st' = tcDict st.
Proof.
  unfold row_values, loop_body. fold (fields_of line).
  destruct (decide (length (fields_of line) = 14%nat)).
  - repeat (match goal with
            | |- context [Py.int ?x] => destruct (Py.int x); simpl; try discriminate
            end).
  - intros _ [= <-]. reflexivity.
Qed.

(** The totals of every gene are non-negative, and consistent rows keep
    the conversions of a gene below its coverage. *)
Lemma loop_totals (lines : list string) (st : LoopState) :
  for_each loop_body lines initial = Ok st ->
  forall gene g, tcDict st !! gene = Some g ->
    0 <= conversionsOnTs g /\ 0 <= coverageOnTs g
    /\ (Forall consistent_row lines -> conversionsOnTs g <= coverageOnTs g).
Proof.
  intros Hrun.
  refine (for_each_invariant_in loop_body
            (fun st => forall gene g, tcDict st !! gene = Some g ->
               0 <= conversionsOnTs g /\ 0 <= coverageOnTs g
               /\ (Forall consistent_row lines ->
                   conversionsOnTs g <= coverageOnTs g))
            lines _ initial st _ Hrun).
  - intros s line s' Hin Hs Hbody gene g.
    destruct (row_values line) as [[gene' v]|] eqn:Hrow.
    + rewrite (loop_body_row s line gene' v Hrow) in Hbody.
      injection Hbody as <-. simpl.
      destruct (decide (gene' = gene)) as [->|Hne].
      * rewrite lookup_insert_eq. intros [= <-]. simpl.
        assert (0 <= conversionsOnTs (totals_of s gene)
                /\ 0 <= coverageOnTs (totals_of s gene)
                /\ (Forall consistent_row lines ->
                    conversionsOnTs (totals_of s gene)
                    <= coverageOnTs (totals_of s gene))) as (H1 & H2 & H3).
        { unfold totals_of. destruct (tcDict s !! gene) as [g0|] eqn:Hg0; simpl.
          - apply (Hs gene g0 Hg0).
          - repeat split; lia. }
        split; [lia|]. split; [lia|]. intros Hall. specialize (H3 Hall).
        rewrite Forall_forall in Hall. specialize (Hall line Hin gene v Hrow). lia.
      * rewrite lookup_insert_ne by exact Hne. apply Hs.
    + rewrite (loop_body_skipped s s' line Hrow Hbody). apply Hs.
  - intros gene g Hg. simpl in Hg. rewrite lookup_empty in Hg. discriminate.
Qed.

Lemma emit_genes_rows (d : gmap string GeneTotals) (rn : Z) (keys : list string) :
  forall (out rows : list GeneRow),
  for_each (emit_gene d rn) keys out = Ok rows ->
  forall row, row ∈ rows ->
    row ∈ out \/ exists gene g, d !! gene = Some g /\ row = gene_row gene g rn.
Proof.
  induction keys as [|gene keys IH]; intros out rows Hrun row Hin; simpl in Hrun.
  - injection Hrun as <-. auto.
  - destruct (emit_gene d rn out gene) as [out1|e] eqn:Hb; simpl in Hrun;
      [|discriminate].
    unfold emit_gene in Hb.
    destruct (d !! gene) as [g|] eqn:Hg; [|discriminate].
    destruct (decide (rn = 0)); [discriminate|]. injection Hb as <-.
    destruct (IH _ _ Hrun row Hin) as [Hout|Hnew]; [|right; exact Hnew].
    apply elem_of_app in Hout as [Hout|Hlast]; [auto|].
    apply list_elem_of_singleton in Hlast. right. eauto.
Qed.

(** Every line of the collapsed table is the line of a gene of the
    dictionary. *)
Lemma collapse_rows (lines : list string) (row : GeneRow) :
  row ∈ outCSV (collapse lines) ->
  exists st gene g,
    for_each loop_body lines initial = Ok st
    /\ tcDict st !! gene = Some g
    /\ row = gene_row gene g (readNumber st).
Proof.
  unfold collapse.
  destruct (for_each loop_body lines initial) as [st|e] eqn:Hrun; simpl;
    [|intros H; inversion H].
  destruct (for_else st) as [msg|e]; simpl; [|intros H; inversion H].
  destruct (for_each (emit_gene _ _) _ _) as [rows|e] eqn:Hrows; simpl;
    [|intros H; inversion H].
  intros Hin. destruct (emit_genes_rows _ _ _ _ _ Hrows row Hin) as [H|H].
  - inversion H.
  - destruct H as (gene & g & Hg & ->). eauto 6.
Qed.
End RollupRate.

Lemma process_utr_Ok_checks (referenceFile : TCounter.FastaFile)
    (testFile : TCounter.SlamSeqBamFile) (readNumber maxReadLength : Z)
    (strictTCs : bool) (bg bg' : gmap string Q) (utr : TCounter.BedEntry)
    (row : TCounter.SlamSeqInterval) :
  TCounter.process_utr referenceFile testFile readNumber maxReadLength strictTCs bg utr
  = Ok (row, bg') ->
  TCounter.hasStrand utr = true /\ 0 <= TCounter.start utr.
Proof.
  unfold TCounter.process_utr.
  destruct (TCounter.hasStrand utr); simpl; [|discriminate].
  destruct (decide (TCounter.start utr < 0)); [discriminate|].
  intros _. split; [reflexivity|lia].
Qed.

(** C5 as stated fails.  A read covering the one-base interval
    [chr1:100-101] and listing two conversion mismatches at offset 0 (both
    within its span) gives the interval 2 conversions over a coverage of 1,
    a rate of 2; and a roll-up input row with coverage 1 and 2 conversions
    gives its gene a rate of 2. *)
Lemma C5_counterexample :
  let r := Samples.read TCounter.Forward 0 1
             [Samples.conversion_at 0; Samples.conversion_at 0] in
  within_span r
  /\ match TCounter.process_utr Samples.fasta (Samples.bam [r]) 1000000 100 false
             ∅ Samples.utr_single with
     | Ok (row, _) =>
         TCounter.coverageOnTs row = 1 /\ TCounter.conversionsOnTs row = 2
         /\ ~ (TCounter.conversionRate row <= 1)%Q
     | Raise _ => False
     end
  /\ match Collapse.outCSV (Collapse.collapse [Samples.count_row "geneA" "1" "2" "7"]) with
     | [row] =>
         Collapse.row_coverageOnTs row = 1 /\ Collapse.row_conversionsOnTs row = 2
         /\ ~ (Collapse.conversionRate row <= 1)%Q
     | _ => False
     end.
Proof.
  intros r. split; [|split].
  - repeat constructor; vm_compute; congruence.
  - vm_compute. repeat split; try reflexivity. intros H. apply H. reflexivity.
  - vm_compute. repeat split; try reflexivity. intros H. apply H. reflexivity.
Qed.

(** C5, amended: in every interval row and every gene row of the roll-up,
    [conversionRate] is [conversionsOnTs / coverageOnTs] when
    [coverageOnTs] is positive and 0 otherwise; it lies in [0,1] for an
    interval whose reads have their conversion mismatches at pairwise
    distinct positions of their reference span, and for a roll-up whose
    input rows report no more conversions than coverage. *)
Theorem C5_conversion_rate :
  (forall (referenceFile : TCounter.FastaFile) (testFile : TCounter.SlamSeqBamFile)
          (readNumber maxReadLength : Z) (strictTCs : bool)
          (bg bg' : gmap string Q) (utr : TCounter.BedEntry)
          (row : TCounter.SlamSeqInterval),
     TCounter.process_utr referenceFile testFile readNumber maxReadLength strictTCs
                          bg utr = Ok (row, bg') ->
     (0 < TCounter.coverageOnTs row ->
        TCounter.conversionRate row
        = (inject_Z (TCounter.conversionsOnTs row)
           / inject_Z (TCounter.coverageOnTs row))%Q)
     /\ (TCounter.coverageOnTs row <= 0 -> TCounter.conversionRate row = 0%Q)
     /\ (Forall well_formed
           (TCounter.reads
              (TCounter.readInRegion testFile (TCounter.chromosome utr)
                 (TCounter.start utr) (TCounter.stop utr) (TCounter.strand utr)
                 maxReadLength)) ->
         (0 <= TCounter.conversionRate row <= 1)%Q))
  /\ (forall (lines : list string) (row : Collapse.GeneRow),
        row ∈ Collapse.outCSV (Collapse.collapse lines) ->
        (0 < Collapse.row_coverageOnTs row ->
           Collapse.conversionRate row
           = (inject_Z (Collapse.row_conversionsOnTs row)
              / inject_Z (Collapse.row_coverageOnTs row))%Q)
        /\ (Collapse.row_coverageOnTs row = 0 -> Collapse.conversionRate row = 0%Q)
        /\ (Forall consistent_row lines ->
            (0 <= Collapse.conversionRate row <= 1)%Q)).
Proof.
  split.
  - intros referenceFile testFile readNumber maxReadLength strictTCs bg bg' utr row
           Hrun.
    destruct (process_utr_Ok_checks _ _ _ _ _ _ _ _ _ Hrun) as [Hs Hstart].
    rewrite process_utr_checked in Hrun by assumption.
    apply summarise_Ok in Hrun as [(_ & -> & _)|(_ & acc & Hacc & -> & _)].
    + simpl. repeat split; try reflexivity; try lia; discriminate.
    + match type of Hacc with
      | TCounter.scan_positions _ _ ?s _ = _ => set (sc := s) in *
      end.
      destruct (counted_row_rate utr (TCounter.compute_Tcontent referenceFile utr)
                  readNumber sc acc) as [Hpos Hzero].
      split; [exact Hpos|]. split; [exact Hzero|].
      intros Hwf.
      assert (0 <= TCounter.accConversionsOnTs acc <= TCounter.accCoverageOnTs acc)
        as Hsums.
      { eapply scan_positions_sums; [| |exact Hacc].
        - destruct (scan_lengths utr strictTCs
                      (TCounter.reads
                         (TCounter.readInRegion testFile (TCounter.chromosome utr)
                            (TCounter.start utr) (TCounter.stop utr)
                            (TCounter.strand utr) maxReadLength))) as [H1 H2].
          subst sc. rewrite H1, H2. reflexivity.
        - intros i c v Hc Hv. split.
          + eapply scan_nonneg. left. exact Hc.
          + eapply scan_conversions_le_coverage; eauto. }
      destruct (decide (0 < TCounter.accCoverageOnTs acc)) as [Hp|Hnp].
      * rewrite (Hpos Hp). apply ratio_in_unit_interval; [exact Hsums|exact Hp].
      * rewrite Hzero by (simpl in *; lia). split; discriminate.
  - intros lines row Hin.
    apply collapse_rows in Hin as (st & gene & g & Hrun & Hg & ->).
    destruct (loop_totals lines st Hrun gene g Hg) as (Hconv & Hcov & Hcons).
    unfold Collapse.gene_row; simpl. split; [|split].
    + intros Hp. rewrite decide_True by exact Hp. reflexivity.
    + intros Hz. rewrite decide_False by lia. reflexivity.
    + intros Hall. specialize (Hcons Hall).
      destruct (decide (0 < Collapse.coverageOnTs g)) as [Hp|Hnp].
      * apply ratio_in_unit_interval; [lia|exact Hp].
      * split; discriminate.
Qed.

(** C5 at work: the interval of the specification's scenario (one read over
    ten [T]s, one conversion) has rate 1/10, and the roll-up of a row with
    coverage 20 and 2 conversions has rates in the unit interval. *)
Lemma C5_witness :
  let rs := [Samples.read TCounter.Forward 0 10 [Samples.conversion_at 3]] in
  let lines := [Samples.count_row "geneA" "20" "2" "7"] in
  Forall well_formed rs
  /\ match TCounter.process_utr Samples.fasta (Samples.bam rs) 1000000 100 false
             ∅ Samples.utr_plus with
     | Ok (row, _) =>
         TCounter.conversionRate row = (inject_Z 1 / inject_Z 10)%Q
         /\ (0 <= TCounter.conversionRate row <= 1)%Q
     | Raise _ => False
     end
  /\ Forall consistent_row lines
  /\ forall row, row ∈ Collapse.outCSV (Collapse.collapse lines) ->
       (0 <= Collapse.conversionRate row <= 1)%Q.
Proof.
  intros rs lines.
  destruct C5_conversion_rate as [Hinterval Hrollup].
  assert (Forall well_formed rs) as Hwf.
  { repeat constructor; vm_compute; try congruence.
    intros H; inversion H. }
  assert (Forall consistent_row lines) as Hcons.
  { repeat constructor. intros gene v H. vm_compute in H.
    injection H as <- <-. simpl. lia. }
  assert (match TCounter.process_utr Samples.fasta (Samples.bam rs) 1000000 100
                   false ∅ Samples.utr_plus with
          | Ok (row, _) => TCounter.conversionRate row = (inject_Z 1 / inject_Z 10)%Q
          | Raise _ => False
          end) as Hrate by (vm_compute; reflexivity).
  split; [exact Hwf|]. split; [|split; [exact Hcons|]].
  - revert Hrate.
    destruct (TCounter.process_utr Samples.fasta (Samples.bam rs) 1000000 100 false
                ∅ Samples.utr_plus) as [[row bg']|e] eqn:Hrun; [|tauto].
    intros Hrate. split; [exact Hrate|].
    apply (Hinterval _ _ _ _ _ _ _ _ _ Hrun), Hwf.
  - intros row Hin. apply (Hrollup lines row Hin), Hcons.
Defined.

(** ** Keys of the bedgraph dictionary *)

Section Strings.









(** Splitting at colons. *)
Lemma split_colon_free (s : string) :
  colon_free s -> Py.split colon s = [s].
Proof.
  unfold colon_free. induction s as [|c s IH]; simpl; [reflexivity|].
  intros H. apply andb_true_iff in H as [Hc Hs].
  destruct (Ascii.eqb c colon); [discriminate|]. rewrite (IH Hs). reflexivity.
Qed.

Lemma split_colon_app (s rest : string) :
  colon_free s ->
  Py.split colon (s +:+ String colon rest) = s :: Py.split colon rest.
Proof.
  unfold colon_free. induction s as [|c s IH]; simpl.
  - intros _. reflexivity.
  - intros H. apply andb_true_iff in H as [Hc Hs].
    destruct (Ascii.eqb c colon); [discriminate|]. rewrite (IH Hs). reflexivity.
Qed.


End Strings.

(** ** The bedgraph accumulator *)

Section Accumulator.
Import TCounter.
Variables (utr : BedEntry) (refSeq : string) (s : Scan).




(** What one position does to the dictionary. *)
Lemma position_body_bedgraph (acc acc' : PosAcc) (p : nat) :
  position_body utr refSeq s acc p = Ok acc' ->
  exists hit,
    on_convertible utr refSeq (coverageUtr s !!! p) p = Ok hit
    /\ conversionBedGraph acc'
       = if hit : bool
         then <[position_key utr p := tcRates s !!! p]> (conversionBedGraph acc)
         else conversionBedGraph acc.
Proof.
  unfold position_body.
  destruct (on_convertible utr refSeq (coverageUtr s !!! p) p) as [hit|e];
    simpl; [|discriminate].
  intros [= <-]. exists hit. split; [reflexivity|].
  destruct hit; destruct (decide (0 < coverageUtr s !!! p)); reflexivity.
Qed.


End Accumulator.

(** ** The bedgraph files *)

Section Finalize.
Import TCounter.




End Finalize.

(** ** The accumulator over a run *)

Section RunAccumulator.
Import TCounter.
Variables (referenceFile : FastaFile) (testFile : SlamSeqBamFile).
Variables (readNumber maxReadLength : Z) (strictTCs : bool).

Let iterator (utr : BedEntry) : ReadIterator :=
  readInRegion testFile (chromosome utr) (start utr) (stop utr) (strand utr)
               maxReadLength.

Lemma hasStrand_cases (utr : BedEntry) :
  hasStrand utr = true -> strand utr = "+" \/ strand utr = "-".
Proof.
  unfold hasStrand. intros H. apply orb_true_iff in H as [H|H];
    apply bool_decide_eq_true in H; auto.
Qed.





(** The bedgraph files are written from the dictionary left by the last
    interval. *)
Lemma utr_loop_ending (bed : list BedEntry) :
  forall rows bg,
  match final_bedgraph referenceFile testFile readNumber maxReadLength strictTCs
                       bed bg with
  | Some bgf =>
      ending (utr_loop referenceFile testFile readNumber maxReadLength strictTCs
                       bed rows bg) = write_bedgraphs bgf
  | None =>
      exists e,
        ending (utr_loop referenceFile testFile readNumber maxReadLength strictTCs
                         bed rows bg) = Raise e
  end.
Proof.
  induction bed as [|utr bed IH]; intros rows bg; simpl; [reflexivity|].
  destruct (process_utr _ _ _ _ _ bg utr) as [[row bg']|e]; simpl; [apply IH|eauto].
Qed.
End RunAccumulator.




(** * Further properties *)

(** ** The roll-up as a whole *)

Section CollapseRuns.
Import Collapse.

Lemma int_raises (s : string) (e : exn) : Py.int s = Raise e -> e = ValueError.
Proof.
  unfold Py.int. cbv zeta.
  match goal with
  | |- match ?p with _ => _ end = _ -> _ => destruct p
  end; intros H; inversion H; reflexivity.
Qed.

(** A line either stops the loop with [ValueError] or is taken in. *)
Lemma loop_body_cases (st : LoopState) (line : string) :
  (unparsable line /\ loop_body st line = Raise ValueError)
  \/ (~ unparsable line /\ exists st', loop_body st line = Ok st').
Proof.
  destruct (decide (length (fields_of line) = 14%nat)) as [H14|H14].
  2:{ right. split; [intros [H _]; contradiction|].
      rewrite (loop_body_malformed st line H14). eauto. }
  destruct (row_values line) as [[gene v]|] eqn:Hrow.
  { right. split; [intros [_ H]; congruence|].
    rewrite (loop_body_row st line gene v Hrow). eauto. }
  left. split; [split; assumption|].
  revert Hrow. unfold row_values, loop_body. fold (fields_of line).
  repeat case_decide; try contradiction.
  repeat (match goal with
          | |- context [Py.int ?x] =>
              let H := fresh "Hint" in
              destruct (Py.int x) as [?|?e] eqn:H;
              [|intros _; simpl; f_equal; first [exact (int_raises _ _ H)]]
          end); simpl.
  all: try discriminate.
Qed.

Lemma loop_run (lines : list string) :
  forall st : LoopState,
  (Exists unparsable lines /\ for_each loop_body lines st = Raise ValueError)
  \/ (Forall (fun line => ~ unparsable line) lines
      /\ exists st', for_each loop_body lines st = Ok st').
Proof.
  induction lines as [|line lines IH]; intros st; simpl.
  - right. split; [constructor|eauto].
  - destruct (loop_body_cases st line) as [[Hbad ->]|[Hgood [st1 ->]]]; simpl.
    + left. split; [left; exact Hbad|reflexivity].
    + destruct (IH st1) as [[Hex ->]|[Hall [st' ->]]].
      * left. split; [right; exact Hex|reflexivity].
      * right. split; [constructor; assumption|eauto].
Qed.

(** The exceptions of the loop over the genes. *)
Lemma emit_genes_names (d : gmap string GeneTotals) (rn : Z) (keys : list string) :
  rn <> 0 -> (forall k, k ∈ keys -> is_Some (d !! k)) ->
  forall out : list GeneRow,
  exists rows,
    for_each (emit_gene d rn) keys out = Ok rows
    /\ gene_name <$> rows = ((gene_name <$> out) ++ keys)%list.
Proof.
  intros Hrn. induction keys as [|k keys IH]; intros Hkeys out; simpl.
  - exists out. split; [reflexivity|]. rewrite app_nil_r. reflexivity.
  - destruct (Hkeys k) as [g Hg]; [left|].
    assert (emit_gene d rn out k = Ok (out ++ [gene_row k g rn])%list) as ->.
    { unfold emit_gene. rewrite Hg. rewrite decide_False by exact Hrn. reflexivity. }
    simpl.
    destruct (IH (fun k' Hin => Hkeys k' (list_elem_of_further _ _ _ Hin))
                 (out ++ [gene_row k g rn])%list) as (rows & -> & Hnames).
    exists rows. split; [reflexivity|]. rewrite Hnames, fmap_app. simpl.
    rewrite <- app_assoc. reflexivity.
Qed.

(** The ways a call ends. *)
Lemma collapse_outcome (lines : list string) :
  (Exists unparsable lines
   /\ collapse lines = {| log := []; outCSV := []; raised := Some ValueError |})
  \/ (lines = []
      /\ collapse lines = {| log := []; outCSV := []; raised := Some UnboundLocalError |})
  \/ (Forall (fun line => ~ unparsable line) lines /\ lines <> []
      /\ exists st msg,
           for_each loop_body lines initial = Ok st
           /\ ((readNumber st = 0 /\ tcDict st <> ∅
                /\ collapse lines
                   = {| log := [msg]; outCSV := []; raised := Some ZeroDivisionError |})
               \/ ((readNumber st <> 0 \/ tcDict st = ∅)
                   /\ exists rows,
                        collapse lines
                        = {| log := [msg]; outCSV := rows; raised := None |}
                        /\ gene_name <$> rows = sorted_keys (tcDict st)))).
Proof.
  destruct (loop_run lines initial) as [[Hex Hrun]|[Hall [st Hrun]]].
  { left. split; [exact Hex|]. unfold collapse. rewrite Hrun. reflexivity. }
  right. destruct lines as [|l lines].
  { left. split; [reflexivity|]. reflexivity. }
  right. split; [exact Hall|]. split; [discriminate|].
  pose proof (loop_lastLine _ _ _ Hrun) as Hlast.
  destruct (last (l :: lines)) as [l'|] eqn:Hl.
  2:{ apply last_None in Hl. discriminate. }
  unfold collapse. rewrite Hrun. unfold for_else. rewrite Hlast.
  eexists st, _. split; [reflexivity|].
  destruct (decide (readNumber st = 0)) as [Hz|Hnz].
  - destruct (decide (tcDict st = ∅)) as [He|Hne].
    + right. split; [right; exact He|]. rewrite He.
      unfold sorted_keys. rewrite map_to_list_empty. simpl. eauto.
    + left. split; [exact Hz|]. split; [exact Hne|].
      rewrite Hz. rewrite (emit_genes_zero_total _ _ Hne). reflexivity.
  - right. split; [left; exact Hnz|].
    destruct (emit_genes_names (tcDict st) (readNumber st) (sorted_keys (tcDict st))
                Hnz (fun k Hin => proj1 (sorted_keys_lookup _ _) Hin) [])
      as (rows & -> & Hnames).
    exists rows. split; [reflexivity|exact Hnames].
Qed.
End CollapseRuns.

Section CollapseSums.
Import Collapse.

(** The loop adds the rows up: the running total takes the read counts as
    written, a gene its clamped numbers, and a gene is in the dictionary
    when a well-formed row names it. *)
Lemma loop_sums (lines : list string) :
  forall st st' : LoopState,
  for_each loop_body lines st = Ok st' ->
  readNumber st' = readNumber st + raw_total lines
  /\ (forall gene (field : GeneTotals -> Z),
        field ∈ [length_; Tcontent; coverageOnTs; conversionsOnTs;
                 readCount; tcReadCount; multimapCount] ->
        field (totals_of st' gene) = field (totals_of st gene) + gene_sum field gene lines)
  /\ (forall gene,
        is_Some (tcDict st' !! gene)
        <-> is_Some (tcDict st !! gene)
            \/ exists line v, line ∈ lines /\ row_values line = Some (gene, v)).
Proof.
  induction lines as [|line lines IH]; intros st st' Hrun; simpl in Hrun.
  - injection Hrun as <-. simpl. split; [lia|]. split; [intros; lia|].
    intros gene. split; [auto|]. intros [H|(line & v & Hin & _)]; [exact H|].
    inversion Hin.
  - destruct (loop_body st line) as [st1|e] eqn:Hbody; simpl in Hrun; [|discriminate].
    destruct (IH st1 st' Hrun) as (Hn & Hsum & Hkeys). clear IH.
    destruct (row_values line) as [[g v]|] eqn:Hrow.
    + rewrite (loop_body_row st line g v Hrow) in Hbody. injection Hbody as <-.
      split; [|split].
      * rewrite Hn. simpl. rewrite Hrow. lia.
      * intros gene field Hfield. rewrite (Hsum gene field Hfield). simpl.
        rewrite Hrow. unfold totals_of at 1. simpl.
        destruct (decide (g = gene)) as [->|Hne].
        -- rewrite lookup_insert_eq. simpl.
           repeat (apply elem_of_cons in Hfield as [->|Hfield]; [simpl; lia|]).
           inversion Hfield.
        -- rewrite lookup_insert_ne by exact Hne. fold (totals_of st gene). lia.
      * intros gene. rewrite Hkeys. simpl.
        destruct (decide (g = gene)) as [->|Hne].
        -- rewrite lookup_insert_eq. split.
           ++ intros _. right. exists line, v. split; [left|exact Hrow].
           ++ intros _. left. eauto.
        -- rewrite lookup_insert_ne by exact Hne. split.
           ++ intros [H|(l & w & Hin & Hl)]; [left; exact H|].
              right. exists l, w. split; [right; exact Hin|exact Hl].
           ++ intros [H|(l & w & Hin & Hl)]; [left; exact H|].
              apply elem_of_cons in Hin as [->|Hin]; [congruence|].
              right. exists l, w. split; assumption.
    + pose proof (loop_body_skipped st st1 line Hrow Hbody) as Hd.
      assert (readNumber st1 = readNumber st) as Hrn.
      { revert Hbody. unfold loop_body. revert Hrow. unfold row_values.
        fold (fields_of line). repeat case_decide; try contradiction.
        - repeat (match goal with
                  | |- context [Py.int ?x] => destruct (Py.int x); try discriminate
                  end).
        - intros _ [= <-]. reflexivity. }
      split; [|split].
      * rewrite Hn, Hrn. simpl. rewrite Hrow. reflexivity.
      * intros gene field Hfield. rewrite (Hsum gene field Hfield). simpl.
        rewrite Hrow. unfold totals_of. rewrite Hd. reflexivity.
      * intros gene. rewrite Hkeys, Hd. split.
        -- intros [H|(l & w & Hin & Hl)]; [left; exact H|].
           right. exists l, w. split; [right; exact Hin|exact Hl].
        -- intros [H|(l & w & Hin & Hl)]; [left; exact H|].
           apply elem_of_cons in Hin as [->|Hin]; [congruence|].
           right. exists l, w. split; assumption.
Qed.

Lemma loop_dict_empty (lines : list string) (st : LoopState) :
  for_each loop_body lines initial = Ok st ->
  tcDict st = ∅ <-> Forall (fun line => row_values line = None) lines.
Proof.
  intros Hrun. destruct (loop_sums lines initial st Hrun) as (_ & _ & Hkeys).
  split.
  - intros He. apply Forall_forall. intros line Hin.
    destruct (row_values line) as [[g v]|] eqn:Hrow; [|reflexivity].
    assert (is_Some (tcDict st !! g)) as [x Hx].
    { apply Hkeys. right. exists line, v. split; assumption. }
    rewrite He, lookup_empty in Hx. discriminate.
  - intros Hall. apply map_eq. intros gene. rewrite lookup_empty.
    destruct (tcDict st !! gene) as [x|] eqn:Hx; [|reflexivity].
    assert (is_Some (tcDict st !! gene)) as Hs by eauto.
    apply Hkeys in Hs as [[y Hy]|(line & v & Hin & Hrow)].
    + simpl in Hy. rewrite lookup_empty in Hy. discriminate.
    + rewrite Forall_forall in Hall. rewrite (Hall line Hin) in Hrow. discriminate.
Qed.
End CollapseSums.

Section CollapseRows.
Import Collapse.

(** The rows the loop over the genes writes, one per key and in the order
    of the keys. *)
Lemma emit_genes_each (d : gmap string GeneTotals) (rn : Z) (keys : list string) :
  forall out rows : list GeneRow,
  for_each (emit_gene d rn) keys out = Ok rows ->
  exists rows',
    rows = (out ++ rows')%list
    /\ Forall2 (fun k row => exists g, d !! k = Some g /\ row = gene_row k g rn)
               keys rows'.
Proof.
  induction keys as [|k keys IH]; intros out rows Hrun; simpl in Hrun.
  - injection Hrun as <-. exists []. rewrite app_nil_r. split; [reflexivity|constructor].
  - destruct (emit_gene d rn out k) as [out1|e] eqn:Hb; simpl in Hrun; [|discriminate].
    unfold emit_gene in Hb. destruct (d !! k) as [g|] eqn:Hg; [|discriminate].
    destruct (decide (rn = 0)); [discriminate|]. injection Hb as <-.
    destruct (IH _ _ Hrun) as (rows' & -> & Hall).
    exists (gene_row k g rn :: rows'). split.
    + rewrite <- app_assoc. reflexivity.
    + constructor; [eauto|exact Hall].
Qed.

(** A completed call: the state after the loop and the rows written. *)
Lemma collapse_completed (lines : list string) :
  raised (collapse lines) = None ->
  exists st,
    for_each loop_body lines initial = Ok st
    /\ lines <> []
    /\ (readNumber st <> 0 \/ tcDict st = ∅)
    /\ Forall2 (fun k row => exists g, tcDict st !! k = Some g
                                       /\ row = gene_row k g (readNumber st))
               (sorted_keys (tcDict st)) (outCSV (collapse lines)).
Proof.
  intros Hnone.
  destruct (collapse_outcome lines)
    as [[_ Hc]|[[_ Hc]|(_ & Hne & st & msg & Hrun & [(_ & _ & Hc)|(Hok & rows & Hc & _)])]];
    try (rewrite Hc in Hnone; discriminate).
  exists st. split; [exact Hrun|]. split; [exact Hne|]. split; [exact Hok|].
  clear Hc. unfold collapse. rewrite Hrun.
  destruct (for_else st) as [m|e] eqn:Hfe.
  2:{ unfold collapse in Hnone. rewrite Hrun, Hfe in Hnone. discriminate. }
  destruct (for_each (emit_gene (tcDict st) (readNumber st)) (sorted_keys (tcDict st)) [])
    as [rs|e] eqn:Hemit.
  2:{ unfold collapse in Hnone. rewrite Hrun, Hfe, Hemit in Hnone. discriminate. }
  simpl. destruct (emit_genes_each _ _ _ _ _ Hemit) as (rows' & -> & Hall).
  exact Hall.
Qed.

Lemma sorted_keys_NoDup (d : gmap string GeneTotals) : NoDup (sorted_keys d).
Proof.
  rewrite sorted_keys_perm. apply NoDup_fst_map_to_list.
Qed.

#[local] Instance str_le_total : Total str_le.
Proof. intros s1 s2. unfold str_le. apply String.leb_total. Qed.

Lemma sorted_keys_Sorted (d : gmap string GeneTotals) : Sorted str_le (sorted_keys d).
Proof. unfold sorted_keys. apply Sorted_merge_sort. apply _. Qed.

Lemma rows_names (d : gmap string GeneTotals) (rn : Z) (keys : list string)
    (rows : list GeneRow) :
  Forall2 (fun k row => exists g, d !! k = Some g /\ row = gene_row k g rn) keys rows ->
  gene_name <$> rows = keys.
Proof.
  induction 1 as [|k row keys rows (g & _ & ->) _ IH]; [reflexivity|].
  rewrite fmap_cons, IH. reflexivity.
Qed.

(** Sums over the keys. *)
Lemma sum_at_key (f : string -> Z) (a : Z) (g : string) (keys : list string) :
  NoDup keys -> g ∈ keys ->
  foldr (fun k acc => (if decide (g = k) then a + f k else f k) + acc) 0 keys
  = a + foldr (fun k acc => f k + acc) 0 keys.
Proof.
  induction keys as [|k keys IH]; intros Hnd Hin; [inversion Hin|].
  apply NoDup_cons in Hnd as [Hk Hnd]. simpl.
  destruct (decide (g = k)) as [->|Hne].
  - assert (foldr (fun k0 acc => (if decide (k = k0) then a + f k0 else f k0) + acc) 0 keys
            = foldr (fun k0 acc => f k0 + acc) 0 keys) as ->; [|lia].
    clear IH Hin Hnd. induction keys as [|k' keys IH]; simpl; [reflexivity|].
    rewrite decide_False by (intros ->; apply Hk; left).
    rewrite IH; [reflexivity|]. intros Hin. apply Hk. right. exact Hin.
  - apply elem_of_cons in Hin as [->|Hin]; [contradiction|].
    rewrite (IH Hnd Hin). lia.
Qed.

Lemma gene_sums_total (keys lines : list string) :
  NoDup keys ->
  (forall line g v, line ∈ lines -> row_values line = Some (g, v) ->
     g ∈ keys /\ 0 <= readCount v) ->
  foldr (fun k acc => gene_sum readCount k lines + acc) 0 keys = raw_total lines.
Proof.
  intros Hnd. induction lines as [|line lines IH]; intros Hrows; simpl.
  - clear Hrows Hnd. induction keys as [|k keys IHk]; simpl; [reflexivity|].
    rewrite IHk. reflexivity.
  - destruct (row_values line) as [[g v]|] eqn:Hrow.
    + destruct (Hrows line g v) as [Hin Hpos]; [left|exact Hrow|].
      rewrite (sum_at_key (fun k => gene_sum readCount k lines) _ g keys Hnd Hin).
      rewrite IH; [lia|]. intros l g' v' Hl. apply Hrows. right. exact Hl.
    + apply IH. intros l g' v' Hl. apply Hrows. right. exact Hl.
Qed.

End CollapseRows.

(** X1: [collapse] ends in [UnboundLocalError] exactly on an empty input
    file: the [else] clause of the [for] reads [fields] and [line], which
    no iteration has bound. *)
Theorem collapse_empty_input (lines : list string) :
  Collapse.raised (Collapse.collapse lines) = Some UnboundLocalError <-> lines = [].
Proof.
  destruct (collapse_outcome lines)
    as [[Hex Hc]|[[He Hc]|(_ & Hne & st & msg & _ & [(_ & _ & Hc)|(_ & rows & Hc & _)])]];
    rewrite Hc; simpl; split; try discriminate; try contradiction; auto.
  intros ->. inversion Hex.
Qed.

(** X2: [collapse] ends in [ValueError] exactly when some 14-field row
    holds a numeric field that [int] rejects (no line of the input is
    skipped as a header); nothing is then written to the log and no gene
    row is written. *)
Theorem collapse_non_numeric_field (lines : list string) :
  (Collapse.raised (Collapse.collapse lines) = Some ValueError
   <-> Exists unparsable lines)
  /\ (Exists unparsable lines ->
      Collapse.log (Collapse.collapse lines) = []
      /\ Collapse.outCSV (Collapse.collapse lines) = []).
Proof.
  destruct (collapse_outcome lines)
    as [[Hex Hc]|[[He Hc]|(Hall & _ & st & msg & _ & [(_ & _ & Hc)|(_ & rows & Hc & _)])]];
    rewrite Hc; simpl.
  - split; [tauto|auto].
  - subst lines. split; [split; [discriminate|intros H; inversion H]|].
    intros H; inversion H.
  - assert (~ Exists unparsable lines) as Hno.
    { rewrite Exists_exists. intros (l & Hin & Hbad).
      rewrite Forall_forall in Hall. exact (Hall l Hin Hbad). }
    split; [split; [discriminate|tauto]|tauto].
  - assert (~ Exists unparsable lines) as Hno.
    { rewrite Exists_exists. intros (l & Hin & Hbad).
      rewrite Forall_forall in Hall. exact (Hall l Hin Hbad). }
    split; [split; [discriminate|tauto]|tauto].
Qed.

Lemma collapse_non_numeric_field_witness :
  let lines := [Samples.count_row "geneA" "20" "2" "7";
                Samples.count_row "geneB" "n/a" "2" "7"] in
  Exists unparsable lines
  /\ Collapse.raised (Collapse.collapse lines) = Some ValueError
  /\ Collapse.log (Collapse.collapse lines) = []
  /\ Collapse.outCSV (Collapse.collapse lines) = [].
Proof.
  intros lines.
  assert (Exists unparsable lines) as Hex.
  { right. left. split; vm_compute; reflexivity. }
  destruct (collapse_non_numeric_field lines) as [Hiff Hout].
  split; [exact Hex|]. split; [apply Hiff, Hex|apply Hout, Hex].
Defined.

(** X3: when [collapse] runs to its end, the input is not empty, every
    14-field row parses, and either the read counts of the well-formed
    rows, as written, sum to a non-zero total or there is no well-formed
    row; when it ends in [ZeroDivisionError], the input is not empty, every
    14-field row parses, the total is zero and there is a well-formed row.
    For an input whose sums stay within the range of a double, so that no
    [float] of lines 79 and 82 overflows, the converses hold as well, and
    no other exception than those of X1, X2 and this one ends the call. *)
Theorem collapse_completes (lines : list string) :
  let raised := Collapse.raised (Collapse.collapse lines) in
  let read := lines <> [] /\ Forall (fun line => ~ unparsable line) lines in
  let no_row := Forall (fun line => row_values line = None) lines in
  let some_row := Exists (fun line => row_values line <> None) lines in
  (raised = None -> read /\ (raw_total lines <> 0 \/ no_row))
  /\ (raised = Some ZeroDivisionError -> read /\ raw_total lines = 0 /\ some_row)
  /\ (floats_within_double lines ->
      (read /\ (raw_total lines <> 0 \/ no_row) -> raised = None)
      /\ (read /\ raw_total lines = 0 /\ some_row -> raised = Some ZeroDivisionError)
      /\ raised ∈ [None; Some ValueError; Some UnboundLocalError;
                   Some ZeroDivisionError]).
Proof.
  intros raised read no_row some_row. subst raised read no_row some_row.
  assert (Exists unparsable lines -> ~ Forall (fun line => ~ unparsable line) lines)
    as Hex_all.
  { intros Hex Hall. rewrite Exists_exists in Hex. destruct Hex as (l & Hin & Hbad).
    rewrite Forall_forall in Hall. exact (Hall l Hin Hbad). }
  assert (Forall (fun line => row_values line = None) lines
          <-> ~ Exists (fun line => row_values line <> None) lines) as Hnone.
  { rewrite Forall_forall, Exists_exists. split.
    - intros H (l & Hin & Hl). exact (Hl (H l Hin)).
    - intros H l Hin. destruct (row_values l) eqn:Hl; [|reflexivity].
      exfalso. apply H. exists l. split; [exact Hin|congruence]. }
  destruct (collapse_outcome lines)
    as [[Hex Hc]|[[He Hc]|(Hall & Hne & st & msg & Hrun & Hcases)]].
  - rewrite Hc; simpl. specialize (Hex_all Hex).
    split; [discriminate|]. split; [discriminate|]. intros _.
    split; [tauto|]. split; [tauto|]. repeat constructor.
  - rewrite Hc; simpl.
    split; [discriminate|]. split; [discriminate|]. intros _.
    split; [tauto|]. split; [tauto|]. repeat constructor.
  - destruct (loop_sums lines Collapse.initial st Hrun) as (Hn & _ & _).
    simpl in Hn. pose proof (loop_dict_empty lines st Hrun) as Hd.
    destruct Hcases as [(Hz & Hdne & Hc)|(Hok & rows & Hc & _)]; rewrite Hc; simpl.
    + assert (Exists (fun line => row_values line <> None) lines) as Hsome.
      { destruct (decide (Exists (fun line => row_values line <> None) lines))
          as [H|H]; [exact H|].
        exfalso. apply Hdne, Hd, Hnone, H. }
      split; [discriminate|]. split.
      * intros _. split; [split; [exact Hne|exact Hall]|]. split; [lia|exact Hsome].
      * intros _. split; [|split; [reflexivity|repeat constructor]].
        intros (_ & [H|H]); [lia|]. exfalso. apply Hnone in H. exact (H Hsome).
    + assert (raw_total lines <> 0
              \/ Forall (fun line => row_values line = None) lines) as Hcase.
      { destruct Hok as [H|H]; [left; lia|right; apply Hd, H]. }
      split; [intros _; split; [split; [exact Hne|exact Hall]|exact Hcase]|].
      split; [discriminate|]. intros _.
      split; [reflexivity|]. split; [|repeat constructor].
      intros (_ & Hz & Hex). exfalso.
      destruct Hcase as [H|H]; [lia|]. apply Hnone in H. exact (H Hex).
Qed.

Lemma collapse_completes_witness :
  let cancelling := [Samples.count_row "geneA" "20" "2" "5";
                     Samples.count_row "geneB" "20" "2" "-5"] in
  let fine := [Samples.short_row "geneB"; Samples.count_row "geneA" "20" "2" "7"] in
  floats_within_double cancelling
  /\ floats_within_double fine
  /\ Collapse.raised (Collapse.collapse cancelling) = Some ZeroDivisionError
  /\ Collapse.raised (Collapse.collapse fine) = None
  /\ raw_total fine <> 0.
Proof.
  intros cancelling fine.
  assert (floats_within_double cancelling) as Hc.
  { split; [vm_compute; reflexivity|]. intros line gene v Hin Hrow.
    repeat (apply elem_of_cons in Hin as [->|Hin];
            [vm_compute in Hrow; injection Hrow as <- <-;
             repeat split; vm_compute; reflexivity|]).
    inversion Hin. }
  assert (floats_within_double fine) as Hf.
  { split; [vm_compute; reflexivity|]. intros line gene v Hin Hrow.
    repeat (apply elem_of_cons in Hin as [->|Hin];
            [vm_compute in Hrow; first [discriminate|injection Hrow as <- <-];
             repeat split; vm_compute; reflexivity|]).
    inversion Hin. }
  split; [exact Hc|]. split; [exact Hf|].
  destruct (collapse_completes cancelling) as (_ & _ & Hconv).
  destruct (Hconv Hc) as (_ & Hzero & _).
  destruct (collapse_completes fine) as (Hnec & _ & Hconv').
  destruct (Hconv' Hf) as (Hdone & _ & _).
  assert (Collapse.raised (Collapse.collapse fine) = None) as Hnone.
  { apply Hdone. split; [split; [discriminate|]|left; vm_compute; discriminate].
    repeat constructor.
    - intros [H _]. vm_compute in H. discriminate.
    - intros [_ H]. vm_compute in H. discriminate. }
  split; [|split; [exact Hnone|]].
  - apply Hzero. split; [split; [discriminate|]|].
    + repeat constructor; intros [_ H]; vm_compute in H; discriminate.
    + split; [vm_compute; reflexivity|]. left. vm_compute. discriminate.
  - destruct (Hnec Hnone) as (_ & [H|H]); [exact H|].
    exfalso. apply Forall_cons in H as [_ H]. apply Forall_cons in H as [H _].
    vm_compute in H. discriminate.
Defined.

(** X4: every gene row of the collapsed table carries, for each of the
    seven numbers, the sum over the well-formed rows of its gene of the
    number clamped at zero. *)
Theorem collapse_gene_sums (lines : list string) (row : Collapse.GeneRow) :
  row ∈ Collapse.outCSV (Collapse.collapse lines) ->
  let gene := Collapse.gene_name row in
  Collapse.row_length row = gene_sum Collapse.length_ gene lines
  /\ Collapse.row_Tcontent row = gene_sum Collapse.Tcontent gene lines
  /\ Collapse.row_coverageOnTs row = gene_sum Collapse.coverageOnTs gene lines
  /\ Collapse.row_conversionsOnTs row = gene_sum Collapse.conversionsOnTs gene lines
  /\ Collapse.row_readCount row = gene_sum Collapse.readCount gene lines
  /\ Collapse.row_tcReadCount row = gene_sum Collapse.tcReadCount gene lines
  /\ Collapse.row_multimapCount row = gene_sum Collapse.multimapCount gene lines.
Proof.
  intros Hin. apply collapse_rows in Hin as (st & gene & g & Hrun & Hg & ->).
  destruct (loop_sums lines Collapse.initial st Hrun) as (_ & Hsum & _).
  assert (totals_of st gene = g) as Ht.
  { unfold totals_of. rewrite Hg. reflexivity. }
  simpl.
  repeat split;
    match goal with
    | |- ?f g = gene_sum ?f gene lines =>
        rewrite <- Ht; rewrite (Hsum gene f) by (repeat constructor); reflexivity
    end.
Qed.

Lemma collapse_gene_sums_witness :
  let lines := [Samples.count_row "geneA" "20" "2" "7";
                Samples.count_row "geneB" "5" "1" "3";
                Samples.count_row "geneA" "-1" "0" "4"] in
  exists row,
    row ∈ Collapse.outCSV (Collapse.collapse lines)
    /\ Collapse.gene_name row = "geneA"
    /\ Collapse.row_coverageOnTs row = 20
    /\ Collapse.row_readCount row = 11.
Proof.
  intros lines.
  assert (exists row, row ∈ Collapse.outCSV (Collapse.collapse lines)
                      /\ Collapse.gene_name row = "geneA") as (row & Hin & Hname).
  { eexists. split; [vm_compute; left|reflexivity]. }
  exists row. split; [exact Hin|]. split; [exact Hname|].
  destruct (collapse_gene_sums lines row Hin) as (_ & _ & Hcov & _ & Hrc & _).
  rewrite Hcov, Hrc, Hname. split; vm_compute; reflexivity.
Defined.

(** X5: when [collapse] runs to its end, the collapsed table has one row
    per gene named by a well-formed row, each gene once, in ascending order
    of the gene names. *)
Theorem collapse_genes_sorted (lines : list string) :
  Collapse.raised (Collapse.collapse lines) = None ->
  let names := Collapse.gene_name <$> Collapse.outCSV (Collapse.collapse lines) in
  Sorted Collapse.str_le names
  /\ NoDup names
  /\ forall gene,
       gene ∈ names
       <-> exists line v, line ∈ lines /\ row_values line = Some (gene, v).
Proof.
  intros Hnone. destruct (collapse_completed lines Hnone) as (st & Hrun & _ & _ & Hrows).
  simpl. rewrite (rows_names _ _ _ _ Hrows).
  split; [apply sorted_keys_Sorted|]. split; [apply sorted_keys_NoDup|].
  intros gene. rewrite sorted_keys_lookup.
  destruct (loop_sums lines Collapse.initial st Hrun) as (_ & _ & Hkeys).
  rewrite Hkeys. simpl. rewrite lookup_empty. split.
  - intros [[x Hx]|H]; [discriminate|exact H].
  - auto.
Qed.

Lemma collapse_genes_sorted_witness :
  let lines := [Samples.count_row "geneB" "5" "1" "3";
                Samples.short_row "geneC";
                Samples.count_row "geneA" "20" "2" "7";
                Samples.count_row "geneB" "5" "0" "1"] in
  Collapse.raised (Collapse.collapse lines) = None
  /\ Collapse.gene_name <$> Collapse.outCSV (Collapse.collapse lines) = ["geneA"; "geneB"]
  /\ NoDup (Collapse.gene_name <$> Collapse.outCSV (Collapse.collapse lines)).
Proof.
  intros lines.
  assert (Collapse.raised (Collapse.collapse lines) = None) as Hnone
    by (vm_compute; reflexivity).
  split; [exact Hnone|]. split; [vm_compute; reflexivity|].
  apply (collapse_genes_sorted lines Hnone).
Defined.

(** X6: when [collapse] runs to its end, the reads-per-million of every
    gene row is computed as its read count (the clamped sum) over the sum
    of the read counts as written, which is then not zero, times
    1,000,000; when no well-formed row has a negative read count, the read
    counts of the gene rows add up to that sum, so that every gene is
    given its share of the reads the table counts. *)
Theorem collapse_reads_per_million (lines : list string) :
  Collapse.raised (Collapse.collapse lines) = None ->
  let rows := Collapse.outCSV (Collapse.collapse lines) in
  (forall row, row ∈ rows ->
     raw_total lines <> 0
     /\ Collapse.readsCPM row
        = (inject_Z (Collapse.row_readCount row) / inject_Z (raw_total lines)
           * 1000000)%Q)
  /\ ((forall line gene v,
         line ∈ lines -> row_values line = Some (gene, v) ->
         0 <= Collapse.readCount v) ->
      Zsum (Collapse.row_readCount <$> rows) = raw_total lines
      /\ forall row, row ∈ rows ->
           0 <= Collapse.row_readCount row <= raw_total lines).
Proof.
  intros Hnone.
  destruct (collapse_completed lines Hnone) as (st & Hrun & _ & Hok & Hrows).
  destruct (loop_sums lines Collapse.initial st Hrun) as (Hn & Hsum & Hkeys).
  change (Collapse.readNumber Collapse.initial) with 0 in Hn.
  rewrite Z.add_0_l in Hn. simpl.
  assert (Collapse.outCSV (Collapse.collapse lines) <> [] ->
          Collapse.readNumber st <> 0) as Hnz.
  { intros Hne. destruct Hok as [H|H]; [exact H|]. exfalso. apply Hne.
    rewrite H in Hrows. unfold Collapse.sorted_keys in Hrows.
    rewrite map_to_list_empty in Hrows. simpl in Hrows. inversion Hrows. reflexivity. }
  split.
  - intros row Hin.
    assert (Collapse.readNumber st <> 0) as Hrn.
    { apply Hnz. intros He. rewrite He in Hin. inversion Hin. }
    split; [lia|].
    apply list_elem_of_lookup in Hin as [i Hi].
    destruct (Forall2_lookup_r _ _ _ _ _ Hrows Hi) as (k & _ & g & _ & ->).
    simpl. rewrite Hn. reflexivity.
  - intros Hpos.
    assert (Zsum (Collapse.row_readCount <$> Collapse.outCSV (Collapse.collapse lines))
            = raw_total lines) as Htotal.
    { rewrite <- (gene_sums_total (Collapse.sorted_keys (Collapse.tcDict st)) lines).
      - clear Hnz. induction Hrows as [|k row keys rows (g & Hg & ->) _ IH];
          [reflexivity|].
        rewrite fmap_cons. cbn [Zsum foldr]. fold (Zsum (Collapse.row_readCount <$> rows)).
        rewrite IH. f_equal. simpl.
        pose proof (Hsum k Collapse.readCount ltac:(repeat constructor)) as Hk.
        change (Collapse.readCount (totals_of Collapse.initial k)) with 0 in Hk.
        rewrite Z.add_0_l in Hk. rewrite <- Hk.
        unfold totals_of. rewrite Hg. reflexivity.
      - apply sorted_keys_NoDup.
      - intros line g v Hin Hrow. split; [|exact (Hpos line g v Hin Hrow)].
        apply sorted_keys_lookup, Hkeys. right. exists line, v. split; assumption. }
    split; [exact Htotal|].
    assert (forall row, row ∈ Collapse.outCSV (Collapse.collapse lines) ->
                        0 <= Collapse.row_readCount row) as Hge.
    { intros row Hin. apply list_elem_of_lookup in Hin as [i Hi].
      destruct (Forall2_lookup_r _ _ _ _ _ Hrows Hi) as (k & _ & g & Hg & ->).
      simpl.
      pose proof (Hsum k Collapse.readCount ltac:(repeat constructor)) as Hk.
      change (Collapse.readCount (totals_of Collapse.initial k)) with 0 in Hk.
      rewrite Z.add_0_l in Hk. unfold totals_of in Hk. rewrite Hg in Hk. simpl in Hk.
      rewrite Hk. clear. unfold gene_sum.
      induction lines as [|line lines IH]; simpl; [lia|].
      destruct (row_values line) as [[g' v]|]; [|exact IH].
      destruct (decide (g' = k)); lia. }
    intros row Hin. split; [exact (Hge row Hin)|].
    rewrite <- Htotal. revert Hge Hin. clear.
    generalize (Collapse.outCSV (Collapse.collapse lines)) as rows.
    induction rows as [|r rows IH]; intros Hge Hin; [inversion Hin|].
    rewrite fmap_cons. cbn [Zsum foldr]. fold (Zsum (Collapse.row_readCount <$> rows)).
    assert (0 <= Zsum (Collapse.row_readCount <$> rows)) as Hrest.
    { clear IH Hin. induction rows as [|r' rows IH']; [simpl; lia|].
      rewrite fmap_cons. cbn [Zsum foldr].
      fold (Zsum (Collapse.row_readCount <$> rows)).
      assert (0 <= Collapse.row_readCount r') by (apply Hge; right; left).
      assert (0 <= Zsum (Collapse.row_readCount <$> rows)); [|lia].
      apply IH'. intros x Hx. apply Hge.
      apply elem_of_cons in Hx as [->|Hx]; [left|right; right; exact Hx]. }
    apply elem_of_cons in Hin as [->|Hin]; [lia|].
    assert (0 <= Collapse.row_readCount r) by (apply Hge; left).
    assert (Collapse.row_readCount row <= Zsum (Collapse.row_readCount <$> rows));
      [|lia].
    apply IH; [|exact Hin]. intros x Hx. apply Hge. right. exact Hx.
Qed.

Lemma collapse_reads_per_million_witness :
  let lines := [Samples.count_row "geneA" "20" "2" "7";
                Samples.count_row "geneB" "5" "1" "3"] in
  Collapse.raised (Collapse.collapse lines) = None
  /\ Collapse.readsCPM <$> Collapse.outCSV (Collapse.collapse lines)
     = [(inject_Z 7 / inject_Z 10 * 1000000)%Q; (inject_Z 3 / inject_Z 10 * 1000000)%Q]
  /\ Zsum (Collapse.row_readCount <$> Collapse.outCSV (Collapse.collapse lines))
     = raw_total lines.
Proof.
  intros lines.
  assert (Collapse.raised (Collapse.collapse lines) = None) as Hnone
    by (vm_compute; reflexivity).
  split; [exact Hnone|]. split; [vm_compute; reflexivity|].
  destruct (collapse_reads_per_million lines Hnone) as [_ Hsum].
  apply Hsum.
  intros line gene v Hin Hrow.
  repeat (apply elem_of_cons in Hin as [->|Hin];
          [vm_compute in Hrow; injection Hrow as <- <-; simpl; lia|]).
  inversion Hin.
Defined.

(** ** The rows of the count table *)

Section ScanCounters.
Import TCounter.
Variables (utr : BedEntry) (strictTCs : bool).

Lemma strict_filter_direction (read : Read) :
  is_reverse (strict_filter strictTCs read) = is_reverse read.
Proof.
  unfold strict_filter. destruct (negb (isTcRead read) && strictTCs); reflexivity.
Qed.

Lemma strict_filter_multimapper (read : Read) :
  isMultimapper (strict_filter strictTCs read) = isMultimapper read.
Proof.
  unfold strict_filter. destruct (negb (isTcRead read) && strictTCs); reflexivity.
Qed.

Lemma strict_filter_span (read : Read) :
  startRefPos (strict_filter strictTCs read) = startRefPos read
  /\ endRefPos (strict_filter strictTCs read) = endRefPos read.
Proof.
  unfold strict_filter. destruct (negb (isTcRead read) && strictTCs); split; reflexivity.
Qed.

Lemma length_filter_snoc {X : Type} (P : X -> Prop) `{forall x, Decision (P x)}
    (l : list X) (x : X) :
  Z.of_nat (length (filter P (l ++ [x])%list))
  = Z.of_nat (length (filter P l)) + (if decide (P x) then 1 else 0).
Proof.
  rewrite filter_app, length_app, filter_cons, filter_nil.
  destruct (decide (P x)); simpl; lia.
Qed.

(** The six counters of the scan count reads. *)
Lemma scan_counters (rs : list Read) :
  let s := scan_reads utr strictTCs rs in
  let n (P : Read -> Prop) `{forall r, Decision (P r)} := Z.of_nat (length (filter P rs)) in
  countFwd s = n (fun r => is_reverse r = false)
  /\ countRev s = n (fun r => is_reverse r = true)
  /\ tcCountFwd s = n (fun r => is_reverse r = false /\ counts_as_tc strictTCs r)
  /\ tCountRev s = n (fun r => is_reverse r = true /\ counts_as_tc strictTCs r)
  /\ multiMapFwd s = n (fun r => is_reverse r = false /\ isMultimapper r = true)
  /\ multiMapRev s = n (fun r => is_reverse r = true /\ isMultimapper r = true).
Proof.
  induction rs as [|read rs IH] using rev_ind; [simpl; tauto|].
  simpl in IH. destruct IH as (H1 & H2 & H3 & H4 & H5 & H6). simpl.
  rewrite scan_reads_snoc. rewrite !length_filter_snoc.
  unfold count_read; simpl. rewrite strict_filter_direction, strict_filter_multimapper.
  rewrite H1, H2, H3, H4, H5, H6. unfold counts_as_tc, b2z.
  repeat split;
    destruct (is_reverse read); destruct (isMultimapper read);
    repeat case_bool_decide; repeat case_decide; try lia;
    try (exfalso; intuition congruence).
Qed.
End ScanCounters.

Section IntervalRows.
Import TCounter.
Variables (referenceFile : FastaFile) (testFile : SlamSeqBamFile).
Variables (readNumber maxReadLength : Z) (strictTCs : bool).

(** The row of an interval names the interval. *)
Lemma process_utr_names (bg bg' : gmap string Q) (utr : BedEntry)
    (row : SlamSeqInterval) :
  process_utr referenceFile testFile readNumber maxReadLength strictTCs bg utr
  = Ok (row, bg') ->
  iv_chromosome row = chromosome utr /\ iv_start row = start utr
  /\ iv_stop row = stop utr /\ iv_strand row = strand utr /\ iv_name row = name utr.
Proof.
  intros Hrun.
  destruct (process_utr_Ok_checks _ _ _ _ _ _ _ _ _ Hrun) as [Hs Hstart].
  rewrite process_utr_checked in Hrun by assumption.
  apply summarise_Ok in Hrun as [(_ & -> & _)|(_ & acc & _ & -> & _)];
    simpl; tauto.
Qed.

(** The rows of the loop over the intervals follow the intervals. *)
Lemma utr_loop_follows (bed : list BedEntry) :
  forall (done : list BedEntry) (rows : list SlamSeqInterval) (bg : gmap string Q),
  let run := utr_loop referenceFile testFile readNumber maxReadLength strictTCs
                      bed rows bg in
  Forall2 (fun utr row =>
             iv_chromosome row = chromosome utr /\ iv_start row = start utr
             /\ iv_stop row = stop utr /\ iv_strand row = strand utr
             /\ iv_name row = name utr) done rows ->
  exists done' rest,
    (done ++ bed)%list = (done' ++ rest)%list
    /\ Forall2 (fun utr row =>
                  iv_chromosome row = chromosome utr /\ iv_start row = start utr
                  /\ iv_stop row = stop utr /\ iv_strand row = strand utr
                  /\ iv_name row = name utr) done' (fileCSV run)
    /\ (is_Ok (ending run) -> rest = [])
    /\ (forall e, ending run = Raise e ->
          rest <> []
          \/ exists bgf, write_bedgraphs bgf = Raise e).
Proof.
  induction bed as [|utr bed IH]; intros done rows bg run Hdone; subst run; simpl.
  - exists done, []. split; [reflexivity|]. split; [exact Hdone|].
    split; [reflexivity|]. intros e He. right. eauto.
  - destruct (process_utr _ _ _ _ _ bg utr) as [[row bg']|e] eqn:Hrun; simpl.
    + destruct (IH (done ++ [utr])%list (rows ++ [row])%list bg')
        as (done' & rest & Heq & Hall & Hok & Hraise).
      { apply Forall2_app; [exact Hdone|]. constructor; [|constructor].
        exact (process_utr_names _ _ _ _ Hrun). }
      exists done', rest. rewrite <- app_assoc in Heq. simpl in Heq.
      split; [exact Heq|]. split; [exact Hall|]. split; assumption.
    + exists done, (utr :: bed). split; [reflexivity|]. split; [exact Hdone|].
      split; [intros [x Hx]; discriminate|]. intros e' _. left. discriminate.
Qed.
End IntervalRows.

(** ** When an interval gets its row *)

Section ForEachOutcome.
Context {A S : Type} (body : S -> A -> result S).

Lemma for_each_is_Ok (good : A -> Prop) (xs : list A) :
  (forall s x, x ∈ xs -> is_Ok (body s x) <-> good x) ->
  forall s, is_Ok (for_each body xs s) <-> Forall good xs.
Proof.
  induction xs as [|x xs IH]; intros Hbody s; simpl.
  - split; [constructor|]. intros _. eexists; reflexivity.
  - rewrite Forall_cons. rewrite <- (Hbody s x) by left.
    destruct (body s x) as [s1|e]; simpl.
    + rewrite IH by (intros s' y Hy; apply Hbody; right; exact Hy).
      split; [intros H; split; [eexists; reflexivity|exact H]|tauto].
    + split; [intros [y Hy]; discriminate|intros [[y Hy] _]; discriminate].
Qed.

Lemma for_each_raises_only (e0 : exn) (xs : list A) :
  (forall s x e, x ∈ xs -> body s x = Raise e -> e = e0) ->
  forall s e, for_each body xs s = Raise e -> e = e0.
Proof.
  induction xs as [|x xs IH]; intros Hbody s e; simpl; [discriminate|].
  destruct (body s x) as [s1|e1] eqn:Hb; simpl.
  - apply IH. intros s' y e' Hy. apply Hbody. right. exact Hy.
  - intros [= <-]. apply (Hbody s x e1); [left|exact Hb].
Qed.
End ForEachOutcome.

Lemma get_is_Some (s : string) (n : nat) :
  is_Some (String.get n s) <-> (n < String.length s)%nat.
Proof.
  revert n. induction s as [|c s IH]; intros n; simpl.
  - split; [intros [x Hx]; discriminate|lia].
  - destruct n as [|n]; [split; [lia|eauto]|]. rewrite IH. lia.
Qed.

Section IntervalOutcome.
Import TCounter.
Variables (referenceFile : FastaFile) (testFile : SlamSeqBamFile).
Variables (readNumber maxReadLength : Z) (strictTCs : bool).

(** The loop over the positions stops only at an index past the end of
    the reference sequence. *)
Lemma position_body_outcome (utr : BedEntry) (refSeq : string) (s : Scan)
    (acc : PosAcc) (p : nat) :
  hasStrand utr = true ->
  (is_Ok (position_body utr refSeq s acc p)
   <-> (0 < coverageUtr s !!! p -> (p < String.length refSeq)%nat))
  /\ (forall e, position_body utr refSeq s acc p = Raise e -> e = IndexError).
Proof.
  intros Hs. apply hasStrand_cases in Hs.
  unfold position_body, on_convertible, Py.get_char.
  destruct (decide (0 < coverageUtr s !!! p)) as [Hcov|Hcov].
  2:{ simpl. split; [|discriminate]. split; [lia|]. intros _. eexists; reflexivity. }
  pose proof (get_is_Some refSeq p) as Hget.
  assert ((if decide (strand utr = "+")
           then c ← match String.get p refSeq with
                    | Some c => Ok c | None => Raise IndexError end;
                Ok (Ascii.eqb c "T")
           else if decide (strand utr = "-")
                then c ← match String.get p refSeq with
                         | Some c => Ok c | None => Raise IndexError end;
                     Ok (Ascii.eqb c "A")
                else Ok false)
          = match String.get p refSeq with
            | Some c => Ok (Ascii.eqb c (if decide (strand utr = "+") then "T" else "A"))
            | None => Raise IndexError
            end) as ->.
  { destruct Hs as [Hs|Hs]; rewrite Hs; simpl; destruct (String.get p refSeq);
      reflexivity. }
  destruct (String.get p refSeq) as [c|]; simpl.
  - split; [|discriminate]. split; [intros _ _; apply Hget; eauto|].
    intros _. eexists; reflexivity.
  - split; [|intros e [= <-]; reflexivity]. split.
    + intros [x Hx]. discriminate.
    + intros H. specialize (H Hcov). apply Hget in H as [x Hx]. discriminate.
Qed.

Lemma scan_positions_outcome (utr : BedEntry) (refSeq : string) (s : Scan)
    (bg : gmap string Q) :
  hasStrand utr = true ->
  (is_Ok (scan_positions utr refSeq s bg) <-> reference_covers refSeq s)
  /\ (forall e, scan_positions utr refSeq s bg = Raise e -> e = IndexError).
Proof.
  intros Hs. unfold scan_positions. split.
  - rewrite (for_each_is_Ok _
               (fun p => 0 < coverageUtr s !!! p -> (p < String.length refSeq)%nat)).
    2:{ intros acc p _. apply position_body_outcome, Hs. }
    rewrite Forall_forall. unfold reference_covers. split.
    + intros H p v Hv Hpos. apply H.
      * apply elem_of_seq. split; [lia|]. simpl. eapply lookup_lt_Some, Hv.
      * rewrite (list_lookup_total_correct _ _ _ Hv). exact Hpos.
    + intros H p Hin Hpos. apply elem_of_seq in Hin as [_ Hin]. simpl in Hin.
      destruct (lookup_lt_is_Some_2 (coverageUtr s) p Hin) as [v Hv].
      rewrite (list_lookup_total_correct _ _ _ Hv) in Hpos. exact (H p v Hv Hpos).
  - apply for_each_raises_only. intros acc p e _.
    apply position_body_outcome, Hs.
Qed.

(** An interval gets its row when it passes, whatever the bedgraph
    dictionary holds. *)
Lemma process_utr_passes (bg : gmap string Q) (utr : BedEntry) :
  is_Ok (process_utr referenceFile testFile readNumber maxReadLength strictTCs bg utr)
  <-> interval_passes testFile maxReadLength strictTCs utr.
Proof.
  unfold interval_passes. split.
  - intros [[row bg'] Hrun].
    destruct (process_utr_Ok_checks _ _ _ _ _ _ _ _ _ Hrun) as [Hs Hstart].
    split; [exact Hs|]. split; [exact Hstart|].
    rewrite process_utr_checked in Hrun by assumption.
    fold (scan_of testFile maxReadLength strictTCs utr) in Hrun.
    fold (refSeq_of testFile maxReadLength utr) in Hrun.
    intros Hreads. unfold summarise in Hrun. rewrite Hreads in Hrun.
    destruct (opposite_strand_dominates utr _); [discriminate|].
    split; [reflexivity|].
    apply (scan_positions_outcome utr _ _ bg Hs).
    destruct (scan_positions utr _ _ bg) as [acc|e]; [eexists; reflexivity|].
    discriminate.
  - intros (Hs & Hstart & Hreads).
    rewrite process_utr_checked by assumption.
    fold (scan_of testFile maxReadLength strictTCs utr).
    fold (refSeq_of testFile maxReadLength utr).
    unfold summarise.
    destruct (strand_has_reads utr _); [|eexists; reflexivity].
    destruct (Hreads eq_refl) as [-> Hcov].
    apply (scan_positions_outcome utr _ _ bg Hs) in Hcov as [acc ->].
    eexists; reflexivity.
Qed.

Lemma process_utr_raises (bg : gmap string Q) (utr : BedEntry) (e : exn) :
  process_utr referenceFile testFile readNumber maxReadLength strictTCs bg utr
  = Raise e ->
  (hasStrand utr = false
   /\ e = RuntimeError "Input BED file does not contain stranded intervals.")
  \/ (hasStrand utr = true /\ start utr < 0 /\ e = TypeError)
  \/ (hasStrand utr = true /\ 0 <= start utr
      /\ strand_has_reads utr (scan_of testFile maxReadLength strictTCs utr) = true
      /\ ((opposite_strand_dominates utr
             (scan_of testFile maxReadLength strictTCs utr) = true /\ e = TypeError)
          \/ (opposite_strand_dominates utr
                (scan_of testFile maxReadLength strictTCs utr) = false
              /\ ~ reference_covers (refSeq_of testFile maxReadLength utr)
                     (scan_of testFile maxReadLength strictTCs utr)
              /\ e = IndexError))).
Proof.
  destruct (hasStrand utr) eqn:Hs.
  2:{ rewrite process_utr_no_strand by exact Hs. intros [= <-]. left. tauto. }
  destruct (decide (start utr < 0)) as [Hneg|Hpos].
  { unfold process_utr. rewrite Hs. simpl. rewrite decide_True by exact Hneg.
    intros [= <-]. right. left. tauto. }
  rewrite process_utr_checked by (first [exact Hs|lia]).
  fold (scan_of testFile maxReadLength strictTCs utr).
  fold (refSeq_of testFile maxReadLength utr).
  unfold summarise.
  destruct (strand_has_reads utr _) eqn:Hreads; [|discriminate].
  intros Hrun. right. right. split; [reflexivity|]. split; [lia|].
  split; [reflexivity|].
  destruct (opposite_strand_dominates utr _) eqn:Hdom.
  - injection Hrun as <-. left. tauto.
  - right. split; [reflexivity|].
    destruct (scan_positions utr (refSeq_of testFile maxReadLength utr)
                (scan_of testFile maxReadLength strictTCs utr) bg) as [acc|e'] eqn:Hsp;
      [discriminate|].
    injection Hrun as <-.
    destruct (scan_positions_outcome utr (refSeq_of testFile maxReadLength utr)
                (scan_of testFile maxReadLength strictTCs utr) bg Hs) as [Hok Hexn].
    split; [|exact (Hexn _ Hsp)].
    intros Hcov. apply Hok in Hcov as [acc Hacc]. congruence.
Qed.
End IntervalOutcome.

Section RunOutcome.
Import TCounter.
Variables (referenceFile : FastaFile) (testFile : SlamSeqBamFile).
Variables (readNumber maxReadLength : Z) (strictTCs : bool).

Let passes := interval_passes testFile maxReadLength strictTCs.

Lemma utr_loop_stops (bed : list BedEntry) :
  forall (rows : list SlamSeqInterval) (bg : gmap string Q) (i : nat) (utr : BedEntry),
  bed !! i = Some utr -> ~ passes utr ->
  (length (fileCSV (utr_loop referenceFile testFile readNumber maxReadLength strictTCs
                             bed rows bg)) <= length rows + i)%nat.
Proof.
  induction bed as [|u bed IH]; intros rows bg i utr Hi Hbad; [discriminate|].
  simpl.
  destruct (process_utr _ _ _ _ _ bg u) as [[row bg']|e] eqn:Hrun; simpl; [|lia].
  destruct i as [|i]; simpl in Hi.
  - injection Hi as ->. exfalso. apply Hbad.
    apply (process_utr_passes referenceFile testFile readNumber maxReadLength
             strictTCs bg utr).
    rewrite Hrun. eexists; reflexivity.
  - specialize (IH (rows ++ [row])%list bg' i utr Hi Hbad).
    rewrite length_app in IH. simpl in IH. lia.
Qed.

Lemma utr_loop_goes_on (bed : list BedEntry) :
  forall (rows : list SlamSeqInterval) (bg : gmap string Q) (n : nat),
  (n <= length bed)%nat -> Forall passes (take n bed) ->
  (length rows + n
   <= length (fileCSV (utr_loop referenceFile testFile readNumber maxReadLength
                                strictTCs bed rows bg)))%nat.
Proof.
  induction bed as [|u bed IH]; intros rows bg n Hn Hall.
  - simpl in *. lia.
  - destruct n as [|n].
    { destruct (utr_loop_rows referenceFile testFile readNumber maxReadLength strictTCs
                  (u :: bed) rows bg) as [Hlen _]. lia. }
    simpl in Hall. apply Forall_cons in Hall as [Hu Hall]. simpl.
    apply (process_utr_passes referenceFile testFile readNumber maxReadLength
             strictTCs bg u) in Hu as [[row bg'] ->].
    specialize (IH (rows ++ [row])%list bg' n ltac:(simpl in Hn; lia) Hall).
    rewrite length_app in IH. simpl in IH. lia.
Qed.

Lemma final_bedgraph_passes (bed : list BedEntry) :
  forall bg : gmap string Q,
  is_Some (final_bedgraph referenceFile testFile readNumber maxReadLength strictTCs
                          bed bg)
  <-> Forall passes bed.
Proof.
  induction bed as [|u bed IH]; intros bg; simpl.
  - split; [constructor|eauto].
  - rewrite Forall_cons. unfold passes at 1.
    rewrite <- (process_utr_passes referenceFile testFile readNumber maxReadLength
                  strictTCs bg u).
    destruct (process_utr _ _ _ _ _ bg u) as [[row bg']|e]; simpl.
    + rewrite IH. split; [intros H; split; [eexists; reflexivity|exact H]|tauto].
    + split; [intros [x Hx]; discriminate|intros [[x Hx] _]; discriminate].
Qed.
End RunOutcome.

(** ** The numbers of a row *)

Section RowNumbers.
Import TCounter.

Lemma scan_total_nonneg (utr : BedEntry) (strictTCs : bool) (rs : list Read) (i : nat) :
  0 <= coverageUtr (scan_reads utr strictTCs rs) !!! i
  /\ 0 <= tcCountUtr (scan_reads utr strictTCs rs) !!! i.
Proof.
  rewrite !list_lookup_total_alt. split.
  - destruct (coverageUtr (scan_reads utr strictTCs rs) !! i) as [x|] eqn:Hx; simpl;
      [|vm_compute; discriminate].
    eapply scan_nonneg. right. exact Hx.
  - destruct (tcCountUtr (scan_reads utr strictTCs rs) !! i) as [x|] eqn:Hx; simpl;
      [|vm_compute; discriminate].
    eapply scan_nonneg. left. exact Hx.
Qed.

Lemma scan_positions_nonneg (utr : BedEntry) (refSeq : string) (s : Scan)
    (bg : gmap string Q) (acc : PosAcc) :
  (forall i, 0 <= coverageUtr s !!! i /\ 0 <= tcCountUtr s !!! i) ->
  scan_positions utr refSeq s bg = Ok acc ->
  0 <= accConversionsOnTs acc /\ 0 <= accCoverageOnTs acc.
Proof.
  intros Hcell Hrun. unfold scan_positions in Hrun.
  refine (for_each_invariant _
            (fun a => 0 <= accConversionsOnTs a /\ 0 <= accCoverageOnTs a)
            _ _ _ _ _ Hrun); [|simpl; lia].
  intros a position a' Ha Hbody. unfold position_body in Hbody.
  destruct (Hcell position) as [Hc Ht].
  destruct (on_convertible utr refSeq _ position) as [hit|e]; simpl in Hbody;
    [|discriminate].
  injection Hbody as <-.
  destruct hit; destruct (decide (0 < coverageUtr s !!! position)); simpl; lia.
Qed.

(** The counters of the strand of the interval. *)
Lemma strand_counters (utr : BedEntry) (strictTCs : bool) (rs : list Read) :
  hasStrand utr = true ->
  let s := scan_reads utr strictTCs rs in
  let mine := filter (on_strand utr) rs in
  (if decide (strand utr = "-") then countRev s else countFwd s)
  = Z.of_nat (length mine)
  /\ (if decide (strand utr = "-") then tCountRev s else tcCountFwd s)
     = Z.of_nat (length (filter (counts_as_tc strictTCs) mine))
  /\ (if decide (strand utr = "-") then multiMapRev s else multiMapFwd s)
     = Z.of_nat (length (filter (fun r => isMultimapper r = true) mine))
  /\ (strand_has_reads utr s = true <-> mine <> []).
Proof.
  intros Hs s mine. subst s mine.
  destruct (scan_counters utr strictTCs rs) as (H1 & H2 & H3 & H4 & H5 & H6).
  rewrite !list_filter_filter.
  assert ((0 < Z.of_nat (length (filter (on_strand utr) rs)))
          <-> filter (on_strand utr) rs <> []) as Hne.
  { destruct (filter (on_strand utr) rs); simpl; split; try lia; congruence. }
  unfold strand_has_reads.
  apply hasStrand_cases in Hs as [Hs|Hs]; rewrite Hs in *; simpl.
  - rewrite H1, H3, H5. rewrite <- Hne.
    rewrite (list_filter_iff (on_strand utr) (fun r => is_reverse r = false)).
    2:{ intros r. unfold on_strand. rewrite Hs. reflexivity. }
    rewrite (list_filter_iff (fun r => counts_as_tc strictTCs r /\ on_strand utr r)
                             (fun r => is_reverse r = false /\ counts_as_tc strictTCs r)).
    2:{ intros r. unfold on_strand. rewrite Hs. simpl. tauto. }
    rewrite (list_filter_iff (fun r => isMultimapper r = true /\ on_strand utr r)
                             (fun r => is_reverse r = false /\ isMultimapper r = true)).
    2:{ intros r. unfold on_strand. rewrite Hs. simpl. tauto. }
    repeat split; try reflexivity.
    + intros H. apply orb_true_iff in H as [H|H]; [|discriminate].
      apply bool_decide_eq_true in H. exact H.
    + intros H. apply orb_true_iff. left. apply bool_decide_eq_true. exact H.
  - rewrite H2, H4, H6. rewrite <- Hne.
    rewrite (list_filter_iff (on_strand utr) (fun r => is_reverse r = true)).
    2:{ intros r. unfold on_strand. rewrite Hs. reflexivity. }
    rewrite (list_filter_iff (fun r => counts_as_tc strictTCs r /\ on_strand utr r)
                             (fun r => is_reverse r = true /\ counts_as_tc strictTCs r)).
    2:{ intros r. unfold on_strand. rewrite Hs. simpl. tauto. }
    rewrite (list_filter_iff (fun r => isMultimapper r = true /\ on_strand utr r)
                             (fun r => is_reverse r = true /\ isMultimapper r = true)).
    2:{ intros r. unfold on_strand. rewrite Hs. simpl. tauto. }
    repeat split; try reflexivity.
    + intros H. apply bool_decide_eq_true in H. exact H.
    + intros H. apply bool_decide_eq_true. exact H.
Qed.
End RowNumbers.

(** X10: in the row of an interval, [readCount] is the number of reads of
    the region in the direction of the interval's strand (reverse reads
    for the minus strand), [tcReadCount] the number of those whose
    [tcCount] is positive after the strict filter, [multiMapCount] the
    number of those that are multimappers, and [readsCPM] is
    [readCount * 1000000 / readNumber] when [readNumber] is positive and 0
    otherwise. *)
Theorem row_read_counters
    (referenceFile : TCounter.FastaFile) (testFile : TCounter.SlamSeqBamFile)
    (readNumber maxReadLength : Z) (strictTCs : bool) (bg bg' : gmap string Q)
    (utr : TCounter.BedEntry) (row : TCounter.SlamSeqInterval) :
  TCounter.process_utr referenceFile testFile readNumber maxReadLength strictTCs
                       bg utr = Ok (row, bg') ->
  let mine :=
    filter (on_strand utr)
      (TCounter.reads
         (TCounter.readInRegion testFile (TCounter.chromosome utr) (TCounter.start utr)
            (TCounter.stop utr) (TCounter.strand utr) maxReadLength)) in
  TCounter.readCount row = Z.of_nat (length mine)
  /\ TCounter.tcReadCount row
     = Z.of_nat (length (filter (counts_as_tc strictTCs) mine))
  /\ TCounter.multiMapCount row
     = Z.of_nat (length (filter (fun r => TCounter.isMultimapper r = true) mine))
  /\ (TCounter.readsCPM row
      == if decide (0 < readNumber)%Z
         then inject_Z (TCounter.readCount row) * 1000000 / inject_Z readNumber
         else 0)%Q.
Proof.
  intros Hrun mine.
  destruct (process_utr_Ok_checks _ _ _ _ _ _ _ _ _ Hrun) as [Hs Hstart].
  rewrite process_utr_checked in Hrun by assumption.
  destruct (strand_counters utr strictTCs
              (TCounter.reads
                 (TCounter.readInRegion testFile (TCounter.chromosome utr)
                    (TCounter.start utr) (TCounter.stop utr) (TCounter.strand utr)
                    maxReadLength)) Hs) as (H1 & H2 & H3 & Hreads).
  fold mine in H1, H2, H3, Hreads.
  apply summarise_Ok in Hrun as [(Hnone & -> & _)|(_ & acc & _ & -> & _)].
  - assert (mine = []) as Hmine.
    { destruct mine; [reflexivity|]. exfalso.
      assert (TCounter.strand_has_reads utr
                (TCounter.scan_reads utr strictTCs
                   (TCounter.reads
                      (TCounter.readInRegion testFile (TCounter.chromosome utr)
                         (TCounter.start utr) (TCounter.stop utr)
                         (TCounter.strand utr) maxReadLength))) = true) as H
        by (apply Hreads; discriminate).
      congruence. }
    rewrite Hmine. simpl. repeat split; try reflexivity.
    destruct (decide (0 < readNumber)); [|reflexivity].
    unfold Qeq. simpl. lia.
  - unfold TCounter.counted_row; simpl.
    split; [exact H1|]. split; [exact H2|]. split; [exact H3|].
    destruct (decide (0 < readNumber)); reflexivity.
Qed.

Lemma row_read_counters_witness :
  let rs := [Samples.read TCounter.Forward 0 10 [Samples.conversion_at 3];
             Samples.read TCounter.Reverse 0 10 [];
             Samples.read TCounter.Forward 2 6 []] in
  match TCounter.process_utr Samples.fasta (Samples.bam rs) 4000000 100 false ∅
          Samples.utr_plus with
  | Ok (row, _) =>
      TCounter.readCount row = 2 /\ TCounter.tcReadCount row = 1
      /\ TCounter.multiMapCount row = 0
      /\ (TCounter.readsCPM row == 1 # 2)%Q
  | Raise _ => False
  end.
Proof.
  intros rs.
  assert (match TCounter.process_utr Samples.fasta (Samples.bam rs) 4000000 100 false
                  ∅ Samples.utr_plus with
          | Ok _ => True
          | Raise _ => False
          end) as Hok by (vm_compute; exact I).
  revert Hok.
  destruct (TCounter.process_utr Samples.fasta (Samples.bam rs) 4000000 100 false
              ∅ Samples.utr_plus) as [[row bg']|e] eqn:Hrun; [|tauto].
  intros _.
  destruct (row_read_counters _ _ _ _ _ _ _ _ _ Hrun) as (H1 & H2 & H3 & H4).
  rewrite H4, H1, H2, H3. repeat split; vm_compute; reflexivity.
Defined.

(** X11: the row of an interval has [coverageOnTs = -1] exactly when no
    read of the region is in the direction of its strand, that is when its
    [readCount] is 0; such a row has all its other numbers at 0
    ([Tcontent] included) and the interval adds nothing to the bedgraph
    dictionary.  In every other row [coverageOnTs] and [conversionsOnTs]
    are non-negative. *)
Theorem row_without_reads_is_marked
    (referenceFile : TCounter.FastaFile) (testFile : TCounter.SlamSeqBamFile)
    (readNumber maxReadLength : Z) (strictTCs : bool) (bg bg' : gmap string Q)
    (utr : TCounter.BedEntry) (row : TCounter.SlamSeqInterval) :
  TCounter.process_utr referenceFile testFile readNumber maxReadLength strictTCs
                       bg utr = Ok (row, bg') ->
  (TCounter.coverageOnTs row = -1 <-> TCounter.readCount row = 0)
  /\ (TCounter.readCount row = 0 -> row = TCounter.default_row utr /\ bg' = bg)
  /\ (TCounter.readCount row <> 0 ->
      0 <= TCounter.coverageOnTs row /\ 0 <= TCounter.conversionsOnTs row).
Proof.
  intros Hrun.
  destruct (process_utr_Ok_checks _ _ _ _ _ _ _ _ _ Hrun) as [Hs Hstart].
  pose proof Hrun as Hrun0.
  rewrite process_utr_checked in Hrun by assumption.
  destruct (strand_counters utr strictTCs
              (TCounter.reads
                 (TCounter.readInRegion testFile (TCounter.chromosome utr)
                    (TCounter.start utr) (TCounter.stop utr) (TCounter.strand utr)
                    maxReadLength)) Hs) as (H1 & _ & _ & Hreads).
  apply summarise_Ok in Hrun as [(Hnone & -> & ->)|(Hsome & acc & Hacc & -> & _)].
  - simpl. split; [tauto|]. split; [tauto|]. intros H. contradiction.
  - destruct (scan_positions_nonneg _ _ _ _ _
                (scan_total_nonneg utr strictTCs _) Hacc) as [Hconv Hcov].
    apply Hreads in Hsome.
    assert (TCounter.readCount
              (TCounter.counted_row utr (TCounter.compute_Tcontent referenceFile utr)
                 readNumber
                 (TCounter.scan_reads utr strictTCs
                    (TCounter.reads
                       (TCounter.readInRegion testFile (TCounter.chromosome utr)
                          (TCounter.start utr) (TCounter.stop utr)
                          (TCounter.strand utr) maxReadLength))) acc) <> 0) as Hrc.
    { unfold TCounter.counted_row; simpl. rewrite H1.
      destruct (filter (on_strand utr) _); [contradiction|simpl; lia]. }
    split; [|split].
    + split; [|intros H; contradiction]. unfold TCounter.counted_row; simpl. lia.
    + intros H. contradiction.
    + intros _. unfold TCounter.counted_row; simpl. lia.
Qed.

Lemma row_without_reads_is_marked_witness :
  let rs := [Samples.read TCounter.Reverse 0 10 [Samples.conversion_at 3]] in
  match TCounter.process_utr Samples.fasta (Samples.bam rs) 1000000 100 false ∅
          Samples.utr_plus with
  | Ok (row, bg') =>
      TCounter.readCount row = 0 /\ TCounter.coverageOnTs row = -1
      /\ TCounter.Tcontent row = 0 /\ bg' = ∅
  | Raise _ => False
  end.
Proof.
  intros rs.
  assert (match TCounter.process_utr Samples.fasta (Samples.bam rs) 1000000 100 false ∅
                  Samples.utr_plus with
          | Ok (row, _) => TCounter.readCount row = 0
          | Raise _ => False
          end) as Hzero by (vm_compute; reflexivity).
  revert Hzero.
  destruct (TCounter.process_utr Samples.fasta (Samples.bam rs) 1000000 100 false ∅
              Samples.utr_plus) as [[row bg']|e] eqn:Hrun; [|tauto].
  intros Hzero.
  destruct (row_without_reads_is_marked _ _ _ _ _ _ _ _ _ Hrun) as (Hiff & Hdef & _).
  destruct (Hdef Hzero) as [-> ->].
  split; [exact Hzero|]. split; [reflexivity|]. split; reflexivity.
Defined.

(** ** What the arrays count *)

Section ArrayContents.
Import TCounter.
Variables (utr : BedEntry).

Lemma filter_at_most_one {X : Type} (P : X -> Prop) `{forall x, Decision (P x)}
    (l : list X) :
  NoDup l -> (forall x y, P x -> P y -> x = y) -> (length (filter P l) <= 1)%nat.
Proof.
  intros Hnd Huniq. induction Hnd as [|x l Hx Hnd IH]; [simpl; lia|].
  rewrite filter_cons. destruct (decide (P x)) as [Hp|Hp]; [|lia].
  simpl. destruct (filter P l) as [|y ys] eqn:Hf; [simpl; lia|].
  exfalso. assert (y ∈ filter P l) as Hy by (rewrite Hf; left).
  apply list_elem_of_filter in Hy as [Hpy Hin].
  rewrite (Huniq x y Hp Hpy) in Hx. contradiction.
Qed.

(** One read adds one to the coverage of the offsets of its span. *)
Lemma cover_span (read : Read) (i : nat) :
  (i < Z.to_nat (getLength utr))%nat ->
  aimed (cover_target utr) i
        (seqZ (startRefPos read) (endRefPos read - startRefPos read))
  = if decide (spans i read) then 1 else 0.
Proof.
  intros Hi.
  assert (forall a, cover_target utr a = Some i <-> a = Z.of_nat i) as Htarget.
  { intros a. unfold cover_target.
    destruct (bool_decide (0 <= a) && bool_decide (a < getLength utr)) eqn:Hb.
    - apply andb_true_iff in Hb as [H1 H2].
      apply bool_decide_eq_true in H1, H2. split; [intros [= <-]; lia|].
      intros ->. f_equal. lia.
    - split; [discriminate|]. intros ->.
      apply andb_false_iff in Hb as [Hb|Hb]; apply bool_decide_eq_false in Hb; lia. }
  destruct (decide (spans i read)) as [Hsp|Hsp].
  - assert (0 < aimed (cover_target utr) i
                  (seqZ (startRefPos read) (endRefPos read - startRefPos read))) as Hpos.
    { apply aimed_pos. exists (Z.of_nat i). split; [|apply Htarget; reflexivity].
      apply elem_of_seqZ. unfold spans in Hsp. lia. }
    assert (aimed (cover_target utr) i
                  (seqZ (startRefPos read) (endRefPos read - startRefPos read)) <= 1).
    { unfold aimed.
      pose proof (filter_at_most_one (fun a => cover_target utr a = Some i)
                    (seqZ (startRefPos read) (endRefPos read - startRefPos read))
                    (NoDup_seqZ _ _)) as Hle.
      assert (forall x y, cover_target utr x = Some i -> cover_target utr y = Some i ->
                          x = y) as Huniq.
      { intros x y Hx Hy. apply Htarget in Hx, Hy. congruence. }
      specialize (Hle Huniq). lia. }
    lia.
  - pose proof (aimed_nonneg (cover_target utr) i
                  (seqZ (startRefPos read) (endRefPos read - startRefPos read))) as Hge.
    destruct (decide (0 < aimed (cover_target utr) i
                (seqZ (startRefPos read) (endRefPos read - startRefPos read))))
      as [Hpos|Hnp]; [|lia].
    exfalso. apply aimed_pos in Hpos as (a & Hin & Ha).
    apply Htarget in Ha. subst a. apply elem_of_seqZ in Hin.
    apply Hsp. unfold spans. lia.
Qed.

(** One read adds its conversions to their offsets. *)
Lemma conversions_at (rev : bool) (read : Read) (ms : list Mismatch) (i : nat) :
  (i < Z.to_nat (getLength utr))%nat ->
  is_reverse read = rev ->
  aimed (mismatch_target utr rev) i ms
  = Z.of_nat (length (filter (converts_at i) ((fun m => (read, m)) <$> ms))).
Proof.
  intros Hi Hrev. unfold aimed. f_equal.
  induction ms as [|m ms IH]; [reflexivity|].
  rewrite fmap_cons, !filter_cons.
  assert (mismatch_target utr rev m = Some i <-> converts_at i (read, m)) as Hiff.
  { unfold converts_at, mismatch_target. simpl. rewrite Hrev.
    destruct (isTCMismatch m rev); simpl; [|split; [discriminate|intros [H _]; discriminate]].
    destruct (bool_decide (0 <= referencePosition m)
              && bool_decide (referencePosition m < getLength utr)) eqn:Hb.
    - apply andb_true_iff in Hb as [H1 H2].
      apply bool_decide_eq_true in H1, H2. split.
      + intros [= <-]. split; [reflexivity|lia].
      + intros [_ ->]. f_equal. lia.
    - split; [discriminate|]. intros [_ Hp].
      apply andb_false_iff in Hb as [Hb|Hb]; apply bool_decide_eq_false in Hb; lia. }
  destruct (decide (mismatch_target utr rev m = Some i)) as [Hm|Hm];
    destruct (decide (converts_at i (read, m))) as [Hc|Hc]; simpl;
    try (rewrite IH; reflexivity); tauto.
Qed.

End ArrayContents.

(** X12: after the scan of an interval, [coverageUtr[i]] is the number of
    reads of the region whose reference span holds offset [i], and
    [tcCountUtr[i]] the number of mismatches at offset [i] that are
    conversions for the direction of their read, over the reads the
    strict filter leaves their mismatches. *)
Theorem arrays_count_reads_and_conversions
    (utr : TCounter.BedEntry) (strictTCs : bool) (rs : list TCounter.Read) (i : nat) :
  (i < Z.to_nat (TCounter.getLength utr))%nat ->
  let s := TCounter.scan_reads utr strictTCs rs in
  TCounter.coverageUtr s !! i = Some (Z.of_nat (length (filter (spans i) rs)))
  /\ TCounter.tcCountUtr s !! i
     = Some (Z.of_nat (length (filter (converts_at i)
                                      (scanned_mismatches strictTCs rs)))).
Proof.
  intros Hi s. subst s. induction rs as [|read rs [IHc IHt]] using rev_ind.
  - simpl. unfold TCounter.zeros. rewrite lookup_replicate_2 by exact Hi.
    split; reflexivity.
  - rewrite scan_reads_snoc. split.
    + rewrite count_read_cov, IHc. simpl. rewrite (cover_span utr read i Hi).
      rewrite length_filter_snoc. reflexivity.
    + rewrite count_read_tc, IHt. simpl.
      rewrite (conversions_at utr (TCounter.is_reverse read) read _ i Hi eq_refl).
      unfold scanned_mismatches. rewrite bind_app, filter_app, length_app. simpl.
      rewrite app_nil_r. f_equal. lia.
Qed.

Lemma arrays_count_reads_and_conversions_witness :
  let rs := [Samples.read TCounter.Forward 0 10 [Samples.conversion_at 3];
             Samples.read TCounter.Reverse 2 6
               [Samples.conversion_at 3; Samples.conversion_at 4];
             Samples.read TCounter.Forward 5 9 []] in
  let s := TCounter.scan_reads Samples.utr_plus false rs in
  TCounter.coverageUtr s !! 5%nat = Some 3
  /\ TCounter.tcCountUtr s !! 3%nat = Some 2.
Proof.
  intros rs s. subst s. split.
  - destruct (arrays_count_reads_and_conversions Samples.utr_plus false rs 5%nat
                ltac:(vm_compute; lia)) as [-> _].
    vm_compute. reflexivity.
  - destruct (arrays_count_reads_and_conversions Samples.utr_plus false rs 3%nat
                ltac:(vm_compute; lia)) as [_ ->].
    vm_compute. reflexivity.
Defined.

(** X13: the strict filter only takes conversions away.  Scanning the
    reads of an interval with [strictTCs] set gives the same coverage
    array, the same read counts and the same multimapper counts as without
    it; every entry of the conversion array and both counts of conversion
    reads are at most what they are without it; and when every read is a
    conversion read ([isTcRead]) the two scans are the same. *)
Theorem strict_filter_only_removes_conversions
    (utr : TCounter.BedEntry) (rs : list TCounter.Read) :
  let loose := TCounter.scan_reads utr false rs in
  let strict := TCounter.scan_reads utr true rs in
  TCounter.coverageUtr strict = TCounter.coverageUtr loose
  /\ TCounter.countFwd strict = TCounter.countFwd loose
  /\ TCounter.countRev strict = TCounter.countRev loose
  /\ TCounter.multiMapFwd strict = TCounter.multiMapFwd loose
  /\ TCounter.multiMapRev strict = TCounter.multiMapRev loose
  /\ TCounter.tcCountFwd strict <= TCounter.tcCountFwd loose
  /\ TCounter.tCountRev strict <= TCounter.tCountRev loose
  /\ (forall (i : nat) (c : Z),
        TCounter.tcCountUtr strict !! i = Some c ->
        exists c', TCounter.tcCountUtr loose !! i = Some c' /\ c <= c')
  /\ (Forall (fun r => TCounter.isTcRead r = true) rs -> strict = loose).
Proof.
  intros loose strict. subst loose strict.
  destruct (scan_counters utr false rs) as (L1 & L2 & L3 & L4 & L5 & L6).
  destruct (scan_counters utr true rs) as (S1 & S2 & S3 & S4 & S5 & S6).
  assert (forall r, counts_as_tc true r -> counts_as_tc false r) as Htc.
  { intros r. unfold counts_as_tc, TCounter.strict_filter. simpl.
    rewrite andb_false_r. destruct (negb (TCounter.isTcRead r) && true); simpl; lia. }
  split; [|split; [|split; [|split; [|split; [|split; [|split; [|split]]]]]]].
  - clear. induction rs as [|read rs IH] using rev_ind; [reflexivity|].
    rewrite !scan_reads_snoc. unfold TCounter.count_read; simpl.
    destruct (strict_filter_span true read) as [-> ->].
    destruct (strict_filter_span false read) as [-> ->].
    rewrite IH. reflexivity.
  - rewrite S1, L1. reflexivity.
  - rewrite S2, L2. reflexivity.
  - rewrite S5, L5. reflexivity.
  - rewrite S6, L6. reflexivity.
  - rewrite S3, L3. apply inj_le, filter_length_mono. intros r [H1 H2]. auto.
  - rewrite S4, L4. apply inj_le, filter_length_mono. intros r [H1 H2]. auto.
  - clear. induction rs as [|read rs IH] using rev_ind; intros i c.
    + simpl. eauto with lia.
    + rewrite !scan_reads_snoc, !count_read_tc.
      destruct (TCounter.tcCountUtr (TCounter.scan_reads utr true rs) !! i) as [x|]
        eqn:Hx; simpl; [|discriminate].
      destruct (IH i x Hx) as (y & -> & Hxy). simpl.
      intros [= <-]. eexists. split; [reflexivity|].
      assert (aimed (mismatch_target utr (TCounter.is_reverse read)) i
                    (TCounter.mismatches (TCounter.strict_filter true read))
              <= aimed (mismatch_target utr (TCounter.is_reverse read)) i
                       (TCounter.mismatches (TCounter.strict_filter false read))); [|lia].
      unfold TCounter.strict_filter. rewrite andb_false_r.
      destruct (negb (TCounter.isTcRead read) && true); simpl; [|lia].
      apply aimed_nonneg.
  - clear. intros Hall. induction rs as [|read rs IH] using rev_ind; [reflexivity|].
    apply Forall_app in Hall as [Hrs Hread]. rewrite Forall_singleton in Hread.
    rewrite !scan_reads_snoc. rewrite IH by exact Hrs.
    unfold TCounter.count_read, TCounter.strict_filter. rewrite Hread. reflexivity.
Qed.

Lemma strict_filter_only_removes_conversions_witness :
  let single :=
    {| TCounter.direction := TCounter.Forward; TCounter.startRefPos := 0;
       TCounter.endRefPos := 10; TCounter.mismatches := [Samples.conversion_at 3];
       TCounter.isMultimapper := false; TCounter.tcCount := 1;
       TCounter.isTcRead := false |} in
  let loose := TCounter.scan_reads Samples.utr_plus false [single] in
  let strict := TCounter.scan_reads Samples.utr_plus true [single] in
  TCounter.tcCountUtr loose !! 3%nat = Some 1
  /\ TCounter.tcCountUtr strict !! 3%nat = Some 0
  /\ TCounter.coverageUtr strict = TCounter.coverageUtr loose.
Proof.
  intros single loose strict. split; [reflexivity|]. split; [reflexivity|].
  apply (strict_filter_only_removes_conversions Samples.utr_plus [single]).
Defined.

(** ** The rates of the bedgraph dictionary *)

Section BedgraphRates.
Import TCounter.

Lemma rate_value (c n : Z) :
  0 < n -> rate c n = (inject_Z c * 100 / inject_Z n)%Q.
Proof. intros Hn. unfold rate. rewrite decide_True by exact Hn. reflexivity. Qed.

Lemma percentage (c n : Z) :
  0 <= c <= n -> 0 < n -> (0 <= inject_Z c * 100 / inject_Z n <= 100)%Q.
Proof.
  intros [Hc Hcn] Hn.
  assert (0 < inject_Z n)%Q as Hn' by (unfold Qlt; simpl; lia).
  split.
  - apply Qle_shift_div_l; [exact Hn'|]. unfold Qle; simpl; lia.
  - apply Qle_shift_div_r; [exact Hn'|]. unfold Qle; simpl; lia.
Qed.

Lemma on_convertible_covered (utr : BedEntry) (refSeq : string) (cov : Z) (p : nat) :
  on_convertible utr refSeq cov p = Ok true -> 0 < cov.
Proof.
  unfold on_convertible. destruct (decide (0 < cov)); [auto|discriminate].
Qed.

(** What the loop over the positions enters in the dictionary. *)
Lemma positions_values (utr : BedEntry) (refSeq : string) (s : Scan) (ps : list nat) :
  forall acc acc',
  for_each (position_body utr refSeq s) ps acc = Ok acc' ->
  forall k v, conversionBedGraph acc' !! k = Some v ->
    conversionBedGraph acc !! k = Some v
    \/ exists p, p ∈ ps /\ k = position_key utr p /\ v = tcRates s !!! p
                 /\ 0 < coverageUtr s !!! p.
Proof.
  induction ps as [|p ps IH]; intros acc acc' Hrun k v Hk; simpl in Hrun.
  - injection Hrun as <-. auto.
  - destruct (position_body utr refSeq s acc p) as [acc1|e] eqn:Hb; simpl in Hrun;
      [|discriminate].
    destruct (IH acc1 acc' Hrun k v Hk) as [Hk1|(q & Hq & H)].
    2:{ right. exists q. split; [right; exact Hq|exact H]. }
    destruct (position_body_bedgraph utr refSeq s acc acc1 p Hb) as (hit & Hhit & Hbg).
    rewrite Hbg in Hk1. destruct hit; [|auto].
    destruct (decide (position_key utr p = k)) as [<-|Hne].
    + rewrite lookup_insert_eq in Hk1. injection Hk1 as <-.
      right. exists p. split; [left|]. split; [reflexivity|]. split; [reflexivity|].
      exact (on_convertible_covered _ _ _ _ Hhit).
    + rewrite lookup_insert_ne in Hk1 by exact Hne. auto.
Qed.
End BedgraphRates.

(** X14: every rate an interval enters in the bedgraph dictionary is, for
    a covered offset [p] of the interval, [tcCountUtr[p] * 100 /
    coverageUtr[p]], entered under the key of that offset; when the
    conversion mismatches of every read sit at pairwise distinct positions
    of its reference span, the rate lies between 0 and 100. *)
Theorem bedgraph_rates_are_percentages
    (referenceFile : TCounter.FastaFile) (testFile : TCounter.SlamSeqBamFile)
    (readNumber maxReadLength : Z) (strictTCs : bool) (bg bg' : gmap string Q)
    (utr : TCounter.BedEntry) (row : TCounter.SlamSeqInterval) :
  TCounter.process_utr referenceFile testFile readNumber maxReadLength strictTCs
                       bg utr = Ok (row, bg') ->
  let rs :=
    TCounter.reads
      (TCounter.readInRegion testFile (TCounter.chromosome utr) (TCounter.start utr)
         (TCounter.stop utr) (TCounter.strand utr) maxReadLength) in
  let s := TCounter.scan_reads utr strictTCs rs in
  forall k v, bg' !! k = Some v ->
    bg !! k = Some v
    \/ exists (p : nat) (c n : Z),
         k = position_key utr p
         /\ TCounter.tcCountUtr s !! p = Some c
         /\ TCounter.coverageUtr s !! p = Some n
         /\ 0 < n
         /\ v = (inject_Z c * 100 / inject_Z n)%Q
         /\ (Forall well_formed rs -> (0 <= v <= 100)%Q).
Proof.
  intros Hrun rs s k v Hk.
  destruct (process_utr_Ok_checks _ _ _ _ _ _ _ _ _ Hrun) as [Hs Hstart].
  rewrite process_utr_checked in Hrun by assumption.
  apply summarise_Ok in Hrun as [(_ & _ & ->)|(_ & acc & Hacc & _ & ->)];
    [left; exact Hk|].
  fold rs in Hacc. fold s in Hacc. unfold TCounter.scan_positions in Hacc.
  destruct (positions_values _ _ _ _ _ _ Hacc k v Hk) as [H|(p & Hp & -> & -> & Hcov)];
    [left; exact H|].
  right. apply elem_of_seq in Hp as [_ Hp]. simpl in Hp.
  destruct (scan_lengths utr strictTCs rs) as [Hlt Hlc]. fold s in Hlt, Hlc.
  destruct (lookup_lt_is_Some_2 (TCounter.coverageUtr s) p Hp) as [n Hn].
  destruct (lookup_lt_is_Some_2 (TCounter.tcCountUtr s) p ltac:(lia)) as [c Hc].
  rewrite (list_lookup_total_correct _ _ _ Hn) in Hcov.
  assert (TCounter.tcRates s !!! p = (inject_Z c * 100 / inject_Z n)%Q) as Hrate.
  { apply list_lookup_total_correct. unfold TCounter.tcRates.
    rewrite lookup_zip_with, Hc, Hn. simpl. rewrite (rate_value c n Hcov). reflexivity. }
  exists p, c, n. split; [reflexivity|]. split; [exact Hc|]. split; [exact Hn|].
  split; [exact Hcov|]. split; [exact Hrate|].
  intros Hwf. rewrite Hrate. apply percentage; [|exact Hcov]. split.
  - eapply scan_nonneg. left. exact Hc.
  - eapply scan_conversions_le_coverage; eauto.
Qed.

Lemma bedgraph_rates_are_percentages_witness :
  let rs := [Samples.read TCounter.Forward 0 10 [Samples.conversion_at 3];
             Samples.read TCounter.Forward 2 6 []] in
  Forall well_formed rs
  /\ match TCounter.process_utr Samples.fasta (Samples.bam rs) 1000000 100 false ∅
             Samples.utr_plus with
     | Ok (_, bg') =>
         bg' !! position_key Samples.utr_plus 3 = Some (inject_Z 1 * 100 / inject_Z 2)%Q
         /\ forall k v, bg' !! k = Some v -> (0 <= v <= 100)%Q
     | Raise _ => False
     end.
Proof.
  intros rs.
  assert (Forall well_formed rs) as Hwf.
  { repeat constructor; vm_compute; try congruence. intros H; inversion H. }
  split; [exact Hwf|].
  assert (match TCounter.process_utr Samples.fasta (Samples.bam rs) 1000000 100 false ∅
                  Samples.utr_plus with
          | Ok (_, bg') =>
              bg' !! position_key Samples.utr_plus 3
              = Some (inject_Z 1 * 100 / inject_Z 2)%Q
          | Raise _ => False
          end) as Hat by (vm_compute; reflexivity).
  revert Hat.
  destruct (TCounter.process_utr Samples.fasta (Samples.bam rs) 1000000 100 false ∅
              Samples.utr_plus) as [[row bg']|e] eqn:Hrun; [|tauto].
  intros Hat. split; [exact Hat|]. intros k v Hk.
  destruct (bedgraph_rates_are_percentages _ _ _ _ _ _ _ _ _ Hrun k v Hk)
    as [H|(p & c & n & _ & _ & _ & _ & _ & Hb)].
  - rewrite lookup_empty in H. discriminate.
  - apply Hb, Hwf.
Defined.

(** ** The mean *)

Section MeanFacts.

Lemma mean_loop (skipZeros : bool) (values : list Q) :
  forall count totalSum : Q,
  let st := foldl (Mean.step skipZeros) (count, totalSum) values in
  (st.1 == count + inject_Z (Z.of_nat (length (counted_values skipZeros values))))%Q
  /\ (st.2 == totalSum + Qsum (counted_values skipZeros values))%Q.
Proof.
  induction values as [|v values IH]; intros count totalSum.
  - unfold counted_values. destruct skipZeros; simpl; split; ring.
  - cbn [foldl].
    change (Mean.step skipZeros (count, totalSum) v)
      with (if negb skipZeros || bool_decide (0 < v)%Q
            then ((count + 1)%Q, (totalSum + v)%Q) else (count, totalSum)).
    unfold counted_values in *. destruct skipZeros; cbn [negb orb].
    + rewrite filter_cons. case_bool_decide as Hv.
      * rewrite decide_True by exact Hv.
        destruct (IH (count + 1)%Q (totalSum + v)%Q) as [H1 H2].
        cbn zeta in H1, H2. rewrite H1, H2.
        cbn [length Qsum foldr]. rewrite Nat2Z.inj_succ, <- Z.add_1_r, inject_Z_plus.
        fold (Qsum (filter (fun v0 : Q => (0 < v0)%Q) values)).
        split; ring.
      * rewrite decide_False by exact Hv. apply IH.
    + destruct (IH (count + 1)%Q (totalSum + v)%Q) as [H1 H2].
      cbn zeta in H1, H2. rewrite H1, H2.
      cbn [length Qsum foldr]. rewrite Nat2Z.inj_succ, <- Z.add_1_r, inject_Z_plus.
      fold (Qsum values).
      split; ring.
Qed.
End MeanFacts.

Section MeanBounds.

Lemma length_pos {X : Type} (l : list X) :
  l <> [] -> (0 < inject_Z (Z.of_nat (length l)))%Q.
Proof.
  intros Hne. destruct l; [contradiction|]. unfold Qlt. simpl. lia.
Qed.

Lemma getMean_value (values : list Q) (skipZeros : bool) :
  let counted := counted_values skipZeros values in
  (counted = [] -> Mean.getMean values skipZeros = 0%Q)
  /\ (counted <> [] ->
      (Mean.getMean values skipZeros
       == Qsum counted / inject_Z (Z.of_nat (length counted)))%Q).
Proof.
  intros counted. subst counted. unfold Mean.getMean.
  destruct (mean_loop skipZeros values 0%Q 0%Q) as [Hc Hs]. cbn zeta in Hc, Hs.
  destruct (foldl (Mean.step skipZeros) (0%Q, 0%Q) values) as [count totalSum].
  simpl in Hc, Hs. rewrite Qplus_0_l in Hc, Hs. split.
  - intros He. rewrite He in Hc. simpl in Hc.
    rewrite decide_False; [reflexivity|]. rewrite Hc. apply Qlt_irrefl.
  - intros Hne. rewrite decide_True by (rewrite Hc; apply length_pos, Hne).
    rewrite Hc, Hs. reflexivity.
Qed.

End MeanBounds.

(** X15: [getMean] is the sum of the values it counts over their number,
    and 0 when it counts none; with [skipZeros] it counts the strictly
    positive values only, so negative values are left out as well as
    zeros. *)
Theorem getMean_of_counted_values (values : list Q) (skipZeros : bool) :
  let counted :=
    if skipZeros then filter (fun v => (0 < v)%Q) values else values in
  counted = counted_values skipZeros values
  /\ (counted = [] -> Mean.getMean values skipZeros = 0%Q)
  /\ (counted <> [] ->
      (Mean.getMean values skipZeros
       == Qsum counted / inject_Z (Z.of_nat (length counted)))%Q).
Proof.
  intros counted. split; [reflexivity|]. apply getMean_value.
Qed.

Lemma getMean_of_counted_values_witness :
  (Mean.getMean [4; 0; -2; 2]%Q true == 3)%Q
  /\ (Mean.getMean [4; 0; -2; 2]%Q false == 1)%Q
  /\ Mean.getMean [0; -2]%Q true = 0%Q.
Proof.
  destruct (getMean_of_counted_values [4; 0; -2; 2]%Q true) as (_ & _ & H1).
  destruct (getMean_of_counted_values [4; 0; -2; 2]%Q false) as (_ & _ & H2).
  destruct (getMean_of_counted_values [0; -2]%Q true) as (_ & H3 & _).
  split; [|split].
  - rewrite H1 by (vm_compute; discriminate). vm_compute. reflexivity.
  - rewrite H2 by (vm_compute; discriminate). vm_compute. reflexivity.
  - apply H3. vm_compute. reflexivity.
Defined.

(** ** The sample sheet *)

Section SampleSheet.
Import Slamdunk.

Lemma sample_line_trivial (fileName : string) (st : list string * list string)
    (line : string) :
  ~ (1 < String.length (Py.strip line))%nat ->
  sample_line fileName st line = Ok st.
Proof.
  intros H. unfold sample_line. destruct st as [samples infos].
  rewrite decide_False by exact H. reflexivity.
Qed.

Lemma sample_line_row (fileName : string) (sep : ascii)
    (samples infos : list string) (line : string) :
  sheet_separator fileName = Some sep ->
  (1 < String.length (Py.strip line))%nat ->
  sample_line fileName (samples, infos) line
  = let cols := Py.split sep (Py.strip line) in
    if decide (length cols < 4)%nat
    then Raise (RuntimeError ("Invalid sample file found: " +:+ fileName))
    else Ok ((samples ++ [cols !!! 0%nat])%list, (infos ++ [sheet_info cols])%list).
Proof.
  intros Hsep H. unfold sample_line, sheet_separator in *.
  rewrite decide_True by exact H.
  destruct (PySeq.endswith fileName ".tsv").
  - injection Hsep as <-. reflexivity.
  - destruct (PySeq.endswith fileName ".csv"); [|discriminate].
    injection Hsep as <-. reflexivity.
Qed.

Lemma sample_line_unknown (fileName : string) (st : list string * list string)
    (line : string) :
  sheet_separator fileName = None ->
  (1 < String.length (Py.strip line))%nat ->
  sample_line fileName st line
  = Raise (RuntimeError ("Unknown file extension found: " +:+ fileName)).
Proof.
  intros Hsep H. unfold sample_line, sheet_separator in *. destruct st as [samples infos].
  rewrite decide_True by exact H.
  destruct (PySeq.endswith fileName ".tsv"); [discriminate|].
  destruct (PySeq.endswith fileName ".csv"); [discriminate|]. reflexivity.
Qed.

Lemma sheet_lines_cons (line : string) (ins : list string) :
  sheet_lines (line :: ins)
  = if decide (1 < String.length (Py.strip line))%nat
    then Py.strip line :: sheet_lines ins else sheet_lines ins.
Proof. unfold sheet_lines. rewrite fmap_cons, filter_cons. reflexivity. Qed.

Lemma read_sheet (fileName : string) (sep : ascii) (ins : list string) :
  sheet_separator fileName = Some sep ->
  forall samples infos : list string,
  for_each (sample_line fileName) ins (samples, infos)
  = if decide (Forall (fun cols => (4 <= length cols)%nat) (sheet_rows sep ins))
    then Ok ((samples ++ ((fun cols => cols !!! 0%nat) <$> sheet_rows sep ins))%list,
             (infos ++ (sheet_info <$> sheet_rows sep ins))%list)
    else Raise (RuntimeError ("Invalid sample file found: " +:+ fileName)).
Proof.
  intros Hsep. unfold sheet_rows.
  induction ins as [|line ins IH]; intros samples infos.
  - cbn [for_each]. change (sheet_lines []) with (@nil string). rewrite fmap_nil.
    destruct (decide (Forall (fun cols : list string => (4 <= length cols)%nat) []))
      as [_|H]; [|exfalso; apply H; constructor].
    rewrite !fmap_nil, !app_nil_r. reflexivity.
  - cbn [for_each]. rewrite sheet_lines_cons.
    destruct (decide (1 < String.length (Py.strip line))%nat) as [Hlong|Hshort].
    + rewrite (sample_line_row fileName sep samples infos line Hsep Hlong).
      cbn zeta. rewrite fmap_cons.
      destruct (decide (length (Py.split sep (Py.strip line)) < 4)%nat) as [Hbad|Hok].
      * rewrite decide_False; [reflexivity|].
        intros Hall. apply Forall_cons in Hall as [H _]. lia.
      * cbn [mbind result_bind]. rewrite IH.
        destruct (decide (Forall (fun cols => (4 <= length cols)%nat)
                            (Py.split sep <$> sheet_lines ins))) as [Hall|Hnot].
        -- rewrite decide_True by (constructor; [lia|exact Hall]).
           rewrite !fmap_cons, <- !app_assoc. reflexivity.
        -- rewrite decide_False; [reflexivity|].
           intros H. apply Forall_cons in H as [_ H]. contradiction.
    + rewrite (sample_line_trivial fileName (samples, infos) line Hshort).
      cbn [mbind result_bind]. apply IH.
Qed.

Lemma read_unknown (fileName : string) (ins : list string) :
  sheet_separator fileName = None ->
  forall st : list string * list string,
  for_each (sample_line fileName) ins st
  = if decide (sheet_lines ins = [])
    then Ok st
    else Raise (RuntimeError ("Unknown file extension found: " +:+ fileName)).
Proof.
  intros Hsep. induction ins as [|line ins IH]; intros st; [reflexivity|].
  cbn [for_each]. rewrite sheet_lines_cons.
  destruct (decide (1 < String.length (Py.strip line))%nat) as [Hlong|Hshort].
  - rewrite (sample_line_unknown fileName st line Hsep Hlong).
    rewrite decide_False by discriminate. reflexivity.
  - rewrite (sample_line_trivial fileName st line Hshort).
    cbn [mbind result_bind]. apply IH.
Qed.

Lemma readSampleFile_lengths (fileName : string) (ins samples infos : list string) :
  readSampleFile fileName ins = Ok (samples, infos) -> length samples = length infos.
Proof.
  unfold readSampleFile. destruct (sheet_separator fileName) as [sep|] eqn:Hsep.
  - rewrite (read_sheet fileName sep ins Hsep). case_decide; [|discriminate].
    intros [= <- <-]. simpl. rewrite !length_fmap. reflexivity.
  - rewrite (read_unknown fileName ins Hsep). case_decide; [|discriminate].
    intros [= <- <-]. reflexivity.
Qed.
End SampleSheet.

(** X17: [readSampleFile] reads the lines of the sheet that are longer
    than one character once stripped, split at tabs for a [.tsv] name and
    at commas for a [.csv] name.  When each such line has at least four
    columns it returns, line by line, the first column as the sample and
    the second to fourth columns, joined by colons, as its description
    (further columns are ignored); otherwise it raises the
    invalid-sample-file error.  For any other file name it raises the
    unknown-extension error, except on a sheet without such a line, for
    which it returns two empty lists. *)
Theorem readSampleFile_reads_the_sheet (fileName : string) (ins : list string) :
  match sheet_separator fileName with
  | Some sep =>
      let rows := sheet_rows sep ins in
      (Forall (fun cols => (4 <= length cols)%nat) rows ->
       Slamdunk.readSampleFile fileName ins
       = Ok ((fun cols => cols !!! 0%nat) <$> rows, sheet_info <$> rows))
      /\ (~ Forall (fun cols => (4 <= length cols)%nat) rows ->
          Slamdunk.readSampleFile fileName ins
          = Raise (RuntimeError ("Invalid sample file found: " +:+ fileName)))
  | None =>
      (sheet_lines ins = [] -> Slamdunk.readSampleFile fileName ins = Ok ([], []))
      /\ (sheet_lines ins <> [] ->
          Slamdunk.readSampleFile fileName ins
          = Raise (RuntimeError ("Unknown file extension found: " +:+ fileName)))
  end.
Proof.
  unfold Slamdunk.readSampleFile.
  destruct (sheet_separator fileName) as [sep|] eqn:Hsep.
  - cbn zeta. rewrite (read_sheet fileName sep ins Hsep). split; intros H.
    + rewrite decide_True by exact H. reflexivity.
    + rewrite decide_False by exact H. reflexivity.
  - rewrite (read_unknown fileName ins Hsep). split; intros H.
    + rewrite decide_True by exact H. reflexivity.
    + rewrite decide_False by exact H. reflexivity.
Qed.

Lemma readSampleFile_reads_the_sheet_witness :
  let nl := String "010"%char EmptyString in
  let sheet := ["s1.bam,sample1,p,0,extra" +:+ nl; nl; "x" +:+ nl;
                " s2.bam,sample2,c,3 " +:+ nl] in
  Slamdunk.readSampleFile "samples.csv" sheet
  = Ok (["s1.bam"; "s2.bam"], ["sample1:p:0"; "sample2:c:3"])
  /\ Slamdunk.readSampleFile "samples.txt" [nl; "x" +:+ nl] = Ok ([], [])
  /\ Slamdunk.readSampleFile "samples.txt" sheet
     = Raise (RuntimeError "Unknown file extension found: samples.txt")
  /\ Slamdunk.readSampleFile "samples.tsv" sheet
     = Raise (RuntimeError "Invalid sample file found: samples.tsv").
Proof.
  intros nl sheet.
  pose proof (readSampleFile_reads_the_sheet "samples.csv" sheet) as Hcsv.
  pose proof (readSampleFile_reads_the_sheet "samples.txt" [nl; "x" +:+ nl]) as Hnone.
  pose proof (readSampleFile_reads_the_sheet "samples.txt" sheet) as Htxt.
  pose proof (readSampleFile_reads_the_sheet "samples.tsv" sheet) as Htsv.
  change (sheet_separator "samples.csv") with (Some Slamdunk.comma) in Hcsv.
  change (sheet_separator "samples.txt") with (@None ascii) in Hnone, Htxt.
  change (sheet_separator "samples.tsv") with (Some tab) in Htsv.
  cbn zeta in Hcsv, Htsv.
  split; [|split; [|split]].
  - rewrite (proj1 Hcsv); [vm_compute; reflexivity|].
    apply (bool_decide_unpack _). vm_compute. exact I.
  - apply (proj1 Hnone). reflexivity.
  - apply (proj2 Htxt). discriminate.
  - apply (proj2 Htsv). intros H. apply Forall_cons in H as [H _].
    vm_compute in H. lia.
Defined.

Section SampleIndex.
Import Slamdunk.

Lemma getitem_lookup {A : Type} (l : list A) (i : nat) (x : A) :
  l !! i = Some x -> PySeq.getitem l (Z.of_nat i) = Ok x.
Proof.
  intros Hx. pose proof (lookup_lt_Some _ _ _ Hx) as Hlt.
  unfold PySeq.getitem, PySeq.position. cbv zeta.
  rewrite (decide_False (P := Z.of_nat i < 0)) by lia.
  rewrite decide_True by lia.
  unfold Py.index. rewrite Nat2Z.id, Hx. reflexivity.
Qed.

(** The samples before the selection by index. *)
Lemma all_samples_lengths (open_ : string -> list string) (bams ss ii : list string) :
  match bams with
  | [b] =>
      if PySeq.endswith b ".tsv" || PySeq.endswith b ".csv"
      then readSampleFile b (open_ b)
      else Ok (bams, replicate (length bams) EmptyString)
  | _ => Ok (bams, replicate (length bams) EmptyString)
  end = Ok (ss, ii) ->
  length ss = length ii.
Proof.
  destruct bams as [|b [|b' bams]].
  - intros [= <- <-]. reflexivity.
  - destruct (PySeq.endswith b ".tsv" || PySeq.endswith b ".csv").
    + apply readSampleFile_lengths.
    + intros [= <- <-]. reflexivity.
  - intros [= <- <-]. simpl. rewrite length_replicate. reflexivity.
Qed.
End SampleIndex.

(** X18: the sample index of [getSamples] is 1-based.  When the call
    without an index (any negative [runOnly], the default being -1)
    returns the samples and their descriptions, the two lists have the
    same length; index [i+1] selects the sample and the description at
    position [i] and prints one message; index 0 and an index past the
    last sample raise [RuntimeError]. *)
Theorem getSamples_sample_index (open_ : string -> list string) (bams : list string)
    (all infos : list string) :
  Slamdunk.getSamples open_ bams (-1)
  = Ok {| Slamdunk.messages := []; Slamdunk.samples := all;
          Slamdunk.samplesInfos := infos |} ->
  length all = length infos
  /\ (forall n, n < 0 ->
        Slamdunk.getSamples open_ bams n = Slamdunk.getSamples open_ bams (-1))
  /\ (exists msg, Slamdunk.getSamples open_ bams 0 = Raise (RuntimeError msg))
  /\ (forall n, Z.of_nat (length all) < n ->
        exists msg, Slamdunk.getSamples open_ bams n = Raise (RuntimeError msg))
  /\ (forall (i : nat) (sample info : string),
        all !! i = Some sample -> infos !! i = Some info ->
        Slamdunk.getSamples open_ bams (Z.of_nat i + 1)
        = Ok {| Slamdunk.messages := ["Running only job " +:+ Py.str (Z.of_nat i + 1)];
                Slamdunk.samples := [sample]; Slamdunk.samplesInfos := [info] |}).
Proof.
  unfold Slamdunk.getSamples.
  match goal with
  | |- context [mbind _ ?m] => destruct m as [[ss ii]|e] eqn:Hstage
  end; cbn [mbind result_bind]; [|discriminate].
  rewrite decide_False by lia. rewrite decide_False by lia.
  intros [= <- <-]. pose proof (all_samples_lengths _ _ _ _ Hstage) as Hlen.
  split; [exact Hlen|]. split; [|split; [|split]].
  - intros n Hn. rewrite decide_False by lia. rewrite decide_False by lia. reflexivity.
  - rewrite decide_False by lia. rewrite decide_True by reflexivity. eauto.
  - intros n Hn. rewrite decide_True by lia. rewrite decide_True by exact Hn. eauto.
  - intros i sample info Hs Hi. pose proof (lookup_lt_Some _ _ _ Hs) as Hlt.
    rewrite decide_True by lia. rewrite decide_False by lia.
    replace (Z.of_nat i + 1 - 1) with (Z.of_nat i) by lia.
    rewrite (getitem_lookup _ _ _ Hs), (getitem_lookup _ _ _ Hi). reflexivity.
Qed.

Lemma getSamples_sample_index_witness :
  let bams := ["a.bam"; "b.bam"; "c.bam"] in
  let open_ := fun _ : string => @nil string in
  Slamdunk.getSamples open_ bams 2
  = Ok {| Slamdunk.messages := ["Running only job 2"];
          Slamdunk.samples := ["b.bam"]; Slamdunk.samplesInfos := [EmptyString] |}
  /\ exists msg, Slamdunk.getSamples open_ bams 4 = Raise (RuntimeError msg).
Proof.
  intros bams open_.
  destruct (getSamples_sample_index open_ bams bams
              [EmptyString; EmptyString; EmptyString] eq_refl)
    as (_ & _ & _ & Hpast & Hat).
  split.
  - apply (Hat 1%nat "b.bam" EmptyString); reflexivity.
  - apply Hpast. simpl. lia.
Defined.

(** ** From the sample sheet to the mapper *)

Section SampleDescription.
Import Slamdunk.

Lemma split_description (a b c : string) :
  colon_free a -> colon_free b -> colon_free c ->
  Py.split colon (a +:+ ":" +:+ b +:+ ":" +:+ c) = [a; b; c].
Proof.
  intros Ha Hb Hc.
  change (a +:+ ":" +:+ b +:+ ":" +:+ c)
    with (a +:+ String colon (b +:+ String colon c)).
  rewrite (split_colon_app a _ Ha), (split_colon_app b _ Hb), (split_colon_free c Hc).
  reflexivity.
Qed.

Lemma description_not_empty (a rest : string) : a +:+ ":" +:+ rest <> EmptyString.
Proof. destruct a; discriminate. Qed.
End SampleDescription.

(** X19: what [readSampleFile] writes, [runMap] reads back.  For a row of
    a sample sheet whose second to fourth columns hold no colon, the
    description built from the row gives [runMap] the second column as
    sample name, the fourth as sample time, and as sample type the third
    column with [p] and [c] spelled out as [pulse] and [chase] and the
    empty string as [NA]; an empty description, the one of a plain list of
    BAM files, gives [sample_<index>], [NA] and [-1]. *)
Theorem sample_description_round_trip (tid : Z) :
  (forall (fileName : string) (ins samples infos : list string) (sep : ascii)
          (i : nat) (cols : list string),
     sheet_separator fileName = Some sep ->
     Slamdunk.readSampleFile fileName ins = Ok (samples, infos) ->
     sheet_rows sep ins !! i = Some cols ->
     colon_free (cols !!! 1%nat) -> colon_free (cols !!! 2%nat) ->
     colon_free (cols !!! 3%nat) ->
     exists info,
       samples !! i = Some (cols !!! 0%nat)
       /\ infos !! i = Some info
       /\ Slamdunk.runMap_sample tid info
          = (cols !!! 1%nat, sample_type (cols !!! 2%nat), cols !!! 3%nat))
  /\ Slamdunk.runMap_sample tid EmptyString = ("sample_" +:+ Py.str tid, "NA", "-1")
  /\ sample_type "p" = "pulse" /\ sample_type "c" = "chase"
  /\ sample_type EmptyString = "NA".
Proof.
  split; [|repeat split].
  intros fileName ins samples infos sep i cols Hsep Hread Hrow H1 H2 H3.
  unfold Slamdunk.readSampleFile in Hread.
  rewrite (read_sheet fileName sep ins Hsep) in Hread.
  case_decide; [|discriminate]. injection Hread as <- <-.
  exists (sheet_info cols). simpl.
  rewrite !list_lookup_fmap, Hrow. simpl. split; [reflexivity|]. split; [reflexivity|].
  unfold Slamdunk.runMap_sample, sheet_info.
  rewrite decide_True by apply description_not_empty.
  rewrite (split_description _ _ _ H1 H2 H3). simpl.
  unfold sample_type. destruct (Slamdunk.typeDict !! (cols !!! 2%nat)); reflexivity.
Qed.

Lemma sample_description_round_trip_witness :
  let nl := String "010"%char EmptyString in
  let sheet := ["s1.bam,sample1,p,0,extra" +:+ nl; nl;
                " s2.bam,sample2,4sU,3 " +:+ nl] in
  exists samples infos,
    Slamdunk.readSampleFile "samples.csv" sheet = Ok (samples, infos)
    /\ (Slamdunk.runMap_sample 0 <$> infos)
       = [("sample1", "pulse", "0"); ("sample2", "4sU", "3")].
Proof.
  intros nl sheet.
  assert (match Slamdunk.readSampleFile "samples.csv" sheet with
          | Ok (_, infos) => length infos = 2%nat
          | Raise _ => False
          end) as Hlen by (vm_compute; reflexivity).
  revert Hlen.
  destruct (Slamdunk.readSampleFile "samples.csv" sheet) as [[samples infos]|e]
    eqn:Hread; [|tauto].
  intros Hlen. exists samples, infos. split; [reflexivity|].
  destruct (sample_description_round_trip 0) as [Hrt _].
  destruct (Hrt "samples.csv" sheet samples infos Slamdunk.comma 0%nat
              ["s1.bam"; "sample1"; "p"; "0"; "extra"] eq_refl Hread eq_refl
              eq_refl eq_refl eq_refl) as (i0 & _ & Hi0 & Hm0).
  destruct (Hrt "samples.csv" sheet samples infos Slamdunk.comma 1%nat
              ["s2.bam"; "sample2"; "4sU"; "3"] eq_refl Hread eq_refl
              eq_refl eq_refl eq_refl) as (i1 & _ & Hi1 & Hm1).
  destruct infos as [|x [|y [|z infos]]]; try discriminate.
  simpl in Hi0, Hi1. injection Hi0 as ->. injection Hi1 as ->.
  simpl. rewrite Hm0, Hm1. reflexivity.
Defined.

(** ** The older count table *)

Section CountTally.
Import TCounter Count.
Variables (tcRate : Read -> Q) (maxReadLength : Z).

Lemma position_Some {A : Type} (l : list A) (i : Z) :
  let n := Z.of_nat (length l) in
  (- n <= i < n ->
   PySeq.position l i = Some (Z.to_nat (if decide (i < 0) then i + n else i)))
  /\ (~ (- n <= i < n) -> PySeq.position l i = None).
Proof.
  intros n. unfold PySeq.position. fold n. split; intros H.
  - destruct (decide (i < 0)); rewrite decide_True by lia; reflexivity.
  - destruct (decide (i < 0)); rewrite decide_False by lia; reflexivity.
Qed.

Lemma tally_length (t : Tally) :
  length (tcCount t) = Z.to_nat maxReadLength ->
  forall i, - Z.of_nat (length (tcCount t)) <= i < Z.of_nat (length (tcCount t))
            <-> - maxReadLength <= i < maxReadLength.
Proof. intros Hlen i. rewrite Hlen. lia. Qed.

(** What one read does to the tally. *)
Lemma tally_read_outcome (t : Tally) (read : Read) :
  length (tcCount t) = Z.to_nat maxReadLength ->
  (tc_in_range maxReadLength read ->
   exists t',
     tally_read tcRate t read = Ok t'
     /\ length (tcCount t') = Z.to_nat maxReadLength
     /\ readCount t' = readCount t + 1
     /\ countFwd t' = countFwd t + (if is_reverse read then 0 else 1)
     /\ countRev t' = countRev t + (if is_reverse read then 1 else 0)
     /\ tcCount t' !! 0%nat
        = (fun x => x + if decide (counted_without_tc maxReadLength read) then 1 else 0)
          <$> tcCount t !! 0%nat)
  /\ (~ tc_in_range maxReadLength read -> tally_read tcRate t read = Raise IndexError).
Proof.
  intros Hlen. pose proof (tally_length t Hlen (TCounter.tcCount read)) as Hrange.
  destruct (position_Some (tcCount t) (TCounter.tcCount read)) as [Hin Hout].
  cbn zeta in Hin, Hout. unfold tally_read, PySeq.increment, tc_in_range. split.
  - intros H. rewrite Hin by (apply Hrange; exact H). cbn [mbind result_bind].
    eexists. split; [reflexivity|]. simpl.
    split; [rewrite length_alter; exact Hlen|]. split; [reflexivity|].
    split; [destruct (is_reverse read); lia|].
    split; [destruct (is_reverse read); lia|].
    rewrite Hlen. unfold counted_without_tc.
    destruct (decide (TCounter.tcCount read < 0)) as [Hneg|Hpos].
    + destruct (decide (TCounter.tcCount read = 0 \/
                        TCounter.tcCount read = - maxReadLength)) as [Hz|Hnz].
      * replace (Z.to_nat (TCounter.tcCount read + Z.of_nat (Z.to_nat maxReadLength)))
          with 0%nat by lia.
        rewrite list_lookup_alter_eq. reflexivity.
      * rewrite list_lookup_alter_ne by lia.
        destruct (tcCount t !! 0%nat); simpl; [f_equal; lia|reflexivity].
    + destruct (decide (TCounter.tcCount read = 0 \/
                        TCounter.tcCount read = - maxReadLength)) as [Hz|Hnz].
      * replace (Z.to_nat (TCounter.tcCount read)) with 0%nat by lia.
        rewrite list_lookup_alter_eq. reflexivity.
      * rewrite list_lookup_alter_ne by lia.
        destruct (tcCount t !! 0%nat); simpl; [f_equal; lia|reflexivity].
  - intros H. rewrite Hout by (rewrite Hrange; exact H). reflexivity.
Qed.

(** What the reads of a region do to it. *)
Lemma tally_run (rs : list Read) :
  forall t : Tally,
  length (tcCount t) = Z.to_nat maxReadLength ->
  (Forall (tc_in_range maxReadLength) rs ->
   exists t',
     for_each (tally_read tcRate) rs t = Ok t'
     /\ length (tcCount t') = Z.to_nat maxReadLength
     /\ readCount t' = readCount t + Z.of_nat (length rs)
     /\ countFwd t' + countRev t' = countFwd t + countRev t + Z.of_nat (length rs)
     /\ countFwd t <= countFwd t' /\ countRev t <= countRev t'
     /\ tcCount t' !! 0%nat
        = (fun x => x + Z.of_nat (length (filter (counted_without_tc maxReadLength) rs)))
          <$> tcCount t !! 0%nat)
  /\ (~ Forall (tc_in_range maxReadLength) rs ->
      for_each (tally_read tcRate) rs t = Raise IndexError).
Proof.
  induction rs as [|read rs IH]; intros t Hlen.
  - split; [|intros H; exfalso; apply H; constructor].
    intros _. exists t. simpl. split; [reflexivity|]. split; [exact Hlen|].
    split; [lia|]. split; [lia|]. split; [lia|]. split; [lia|].
    destruct (tcCount t !! 0%nat); simpl; [f_equal; lia|reflexivity].
  - destruct (tally_read_outcome t read Hlen) as [Hin Hout]. cbn [for_each].
    destruct (decide (tc_in_range maxReadLength read)) as [Hr|Hr].
    + destruct (Hin Hr) as (t1 & -> & Hlen1 & Hrc & Hf & Hv & Hz).
      cbn [mbind result_bind]. destruct (IH t1 Hlen1) as [IHin IHout]. split.
      * intros Hall. apply Forall_cons in Hall as [_ Hall].
        destruct (IHin Hall) as (t' & -> & Hl & H1 & H2 & H3 & H4 & H5).
        exists t'. split; [reflexivity|]. split; [exact Hl|].
        rewrite filter_cons. cbn [length].
        split; [lia|]. split; [destruct (is_reverse read); lia|].
        split; [destruct (is_reverse read); lia|].
        split; [destruct (is_reverse read); lia|].
        rewrite H5, Hz. destruct (tcCount t !! 0%nat); simpl; [|reflexivity].
        f_equal. destruct (decide (counted_without_tc maxReadLength read));
          cbn [length]; lia.
      * intros Hall. apply IHout. intros H. apply Hall. constructor; assumption.
    + rewrite (Hout Hr). split; [|reflexivity].
      intros Hall. apply Forall_cons in Hall as [H _]. contradiction.
Qed.
End CountTally.

Section CountInterval.
Import TCounter Count.
Variables (snps : SNPDictionary) (testFile : SlamSeqBamFile) (tcRate : Read -> Q).
Variables (readNumber maxReadLength : Z).

Lemma getitem_first (l : list Z) (x : Z) :
  l !! 0%nat = Some x -> PySeq.getitem l 0 = Ok x.
Proof.
  intros Hx. pose proof (lookup_lt_Some _ _ _ Hx) as Hlt.
  unfold PySeq.getitem, PySeq.position. cbv zeta.
  rewrite (decide_False (P := 0 < 0)) by lia. rewrite decide_True by lia.
  unfold Py.index. change (Z.to_nat 0) with 0%nat. rewrite Hx. reflexivity.
Qed.

Lemma getitem_empty (l : list Z) (i : Z) : l = [] -> PySeq.getitem l i = Raise IndexError.
Proof.
  intros ->. unfold PySeq.getitem, PySeq.position. cbv zeta. simpl.
  destruct (decide (i < 0)); rewrite decide_False by lia; reflexivity.
Qed.

(** The line of an interval, or the exception. *)
Lemma count_utr_cases (utr : BedEntry) :
  let rs := reads_of testFile maxReadLength utr in
  let outcome := count_utr snps testFile tcRate readNumber maxReadLength utr in
  let k := Z.of_nat (length (filter (counted_without_tc maxReadLength) rs)) in
  let n := Z.of_nat (length rs) in
  (~ Forall (tc_in_range maxReadLength) rs -> outcome = Raise IndexError)
  /\ (Forall (tc_in_range maxReadLength) rs ->
      (maxReadLength <= 0 -> outcome = Raise IndexError)
      /\ (0 < maxReadLength -> readNumber = 0 -> outcome = Raise ZeroDivisionError)
      /\ (0 < maxReadLength -> readNumber <> 0 ->
          exists row,
            outcome = Ok row
            /\ non_tc_read_count row = k
            /\ tc_read_count row = n - k
            /\ fwd_reads row + rev_reads row = n
            /\ 0 <= fwd_reads row /\ 0 <= rev_reads row
            /\ tc_read_perc row
               = (if decide (0 < n)%Z then inject_Z (n - k) * 1 / inject_Z n else 0)%Q
            /\ non_tc_norm_read_count row
               = (inject_Z k * 1000000 / inject_Z readNumber)%Q
            /\ tc_norm_read_count row
               = (inject_Z (n - k) * 1000000 / inject_Z readNumber)%Q
            /\ chr row = chromosome utr /\ start_ row = start utr
            /\ end_ row = stop utr /\ gene_name row = name utr)).
Proof.
  intros rs outcome k n. subst outcome. unfold count_utr. fold (reads_of testFile maxReadLength utr).
  fold rs.
  assert (length (tcCount (tally_init maxReadLength)) = Z.to_nat maxReadLength) as Hlen0.
  { simpl. unfold zeros. apply length_replicate. }
  destruct (tally_run tcRate maxReadLength rs (tally_init maxReadLength) Hlen0)
    as [Hin Hout].
  split.
  - intros Hbad. rewrite (Hout Hbad). reflexivity.
  - intros Hall. destruct (Hin Hall) as (t & -> & Hlen & Hrc & Hdir & Hf & Hv & Hz).
    cbn [mbind result_bind]. simpl in Hrc, Hdir, Hf, Hv, Hz.
    fold k in Hz. rewrite Z.add_0_l in Hrc. fold n in Hrc.
    split; [|split].
    + intros Hm.
      assert (tcCount t = []) as Hnil.
      { destruct (tcCount t); [reflexivity|]. simpl in Hlen. lia. }
      assert (n = 0) as Hn.
      { destruct rs as [|r rs']; [reflexivity|].
        apply Forall_cons in Hall as [Hr _]. unfold tc_in_range in Hr. lia. }
      rewrite (getitem_empty _ _ Hnil).
      destruct (decide (0 < readCount t)); reflexivity.
    + intros Hm Hzero.
      assert (tcCount t !! 0%nat = Some k) as Hk.
      { rewrite Hz. unfold zeros. rewrite lookup_replicate_2 by lia. simpl.
        f_equal. }
      rewrite (getitem_first _ _ Hk).
      destruct (decide (0 < readCount t)); cbn [mbind result_bind];
        rewrite decide_True by exact Hzero; reflexivity.
    + intros Hm Hnz.
      assert (tcCount t !! 0%nat = Some k) as Hk.
      { rewrite Hz. unfold zeros. rewrite lookup_replicate_2 by lia. simpl.
        f_equal. }
      rewrite (getitem_first _ _ Hk). rewrite Hrc.
      destruct (decide (0 < n)) as [Hn|Hn]; cbn [mbind result_bind];
        rewrite decide_False by exact Hnz;
        (eexists; split; [reflexivity|]); simpl;
        repeat split; try reflexivity; try lia.
Qed.
End CountInterval.



Section CountTable.
Import TCounter Count.
Variables (snps : SNPDictionary) (testFile : SlamSeqBamFile) (tcRate : Read -> Q).
Variables (readNumber maxReadLength : Z).

Lemma count_utr_outcome (utr : BedEntry) :
  let outcome := count_utr snps testFile tcRate readNumber maxReadLength utr in
  let in_range := Forall (tc_in_range maxReadLength) (reads_of testFile maxReadLength utr) in
  (is_Ok outcome <-> 0 < maxReadLength /\ readNumber <> 0 /\ in_range)
  /\ (forall e, outcome = Raise e -> e = IndexError \/ e = ZeroDivisionError)
  /\ (outcome = Raise ZeroDivisionError
      <-> 0 < maxReadLength /\ readNumber = 0 /\ in_range).
Proof.
  intros outcome in_range. subst outcome in_range.
  destruct (count_utr_cases snps testFile tcRate readNumber maxReadLength utr)
    as [Hbad Hgood]. cbn zeta in Hbad, Hgood.
  destruct (decide (Forall (tc_in_range maxReadLength)
                      (reads_of testFile maxReadLength utr))) as [Hall|Hnot].
  2:{ rewrite (Hbad Hnot). split; [|split].
      - split; [intros [x Hx]; discriminate|tauto].
      - intros e [= <-]. left. reflexivity.
      - split; [discriminate|tauto]. }
  destruct (Hgood Hall) as (Hneg & Hzero & Hok).
  destruct (decide (0 < maxReadLength)) as [Hm|Hm].
  2:{ rewrite Hneg by lia. split; [|split].
      - split; [intros [x Hx]; discriminate|intros [H _]; lia].
      - intros e [= <-]. left. reflexivity.
      - split; [discriminate|intros [H _]; lia]. }
  destruct (decide (readNumber = 0)) as [Hz|Hnz].
  - rewrite (Hzero Hm Hz). split; [|split].
    + split; [intros [x Hx]; discriminate|tauto].
    + intros e [= <-]. right. reflexivity.
    + tauto.
  - destruct (Hok Hm Hnz) as (row & -> & _). split; [|split].
    + split; [tauto|]. intros _. eexists; reflexivity.
    + discriminate.
    + split; [discriminate|tauto].
Qed.

Lemma count_loop (bed : list BedEntry) :
  forall rows : list Row,
  let table := utr_loop snps testFile tcRate readNumber maxReadLength bed rows in
  (raised table = None
   <-> Forall (fun utr => is_Ok (count_utr snps testFile tcRate readNumber
                                   maxReadLength utr)) bed)
  /\ (raised table = None -> length (fileCSV table) = (length rows + length bed)%nat)
  /\ (forall utr bed', bed = utr :: bed' ->
        ~ is_Ok (count_utr snps testFile tcRate readNumber maxReadLength utr) ->
        fileCSV table = rows
        /\ exists e, raised table = Some e
                     /\ count_utr snps testFile tcRate readNumber maxReadLength utr
                        = Raise e).
Proof.
  induction bed as [|utr bed IH]; intros rows table; subst table; simpl.
  - split; [split; [constructor|reflexivity]|]. split; [lia|discriminate].
  - destruct (count_utr snps testFile tcRate readNumber maxReadLength utr)
      as [row|e] eqn:Hrun.
    + destruct (IH (rows ++ [row])%list) as (Hiff & Hlen & _). split; [|split].
      * rewrite Hiff, Forall_cons. rewrite Hrun.
        split; [intros H; split; [eexists; reflexivity|exact H]|tauto].
      * intros H. rewrite (Hlen H), length_app. simpl. lia.
      * intros u b [= <- <-] Hbad. exfalso. apply Hbad. rewrite Hrun.
        eexists; reflexivity.
    + simpl. split; [|split].
      * split; [discriminate|]. intros H. apply Forall_cons in H as [[x Hx] _].
        rewrite Hrun in Hx. discriminate.
      * discriminate.
      * intros u b [= <- <-] _. split; [reflexivity|]. exists e.
        split; [reflexivity|exact Hrun].
Qed.
End CountTable.

(** X21: [count] writes its table to the end exactly when the BED file is
    empty or the maximum read length is positive, the number of mapped
    reads is not zero and the [tcCount] of every read of every interval is
    an index of a list of that length; it then writes one line per
    interval.  With no mapped read, or with a maximum read length of 0 or
    less, a call on a BED file with an interval writes no line at all,
    whether or not a read is in the region: it ends in
    [ZeroDivisionError] or [IndexError]. *)
Theorem count_completes
    (snps : Count.SNPDictionary) (testFile : TCounter.SlamSeqBamFile)
    (tcRate : TCounter.Read -> Q) (readNumber maxReadLength : Z)
    (bed : list TCounter.BedEntry) :
  let table := Count.count snps testFile tcRate readNumber maxReadLength bed in
  (Count.raised table = None
   <-> bed = []
       \/ (0 < maxReadLength /\ readNumber <> 0
           /\ Forall (fun utr => Forall (tc_in_range maxReadLength)
                                        (reads_of testFile maxReadLength utr)) bed))
  /\ (Count.raised table = None -> length (Count.fileCSV table) = length bed)
  /\ (bed <> [] -> readNumber = 0 \/ maxReadLength <= 0 ->
      Count.fileCSV table = []
      /\ (Count.raised table = Some ZeroDivisionError
          \/ Count.raised table = Some IndexError)).
Proof.
  intros table. subst table. unfold Count.count.
  destruct (count_loop snps testFile tcRate readNumber maxReadLength bed [])
    as (Hiff & Hlen & Hfirst). cbn zeta in Hiff, Hlen, Hfirst.
  split; [|split].
  - rewrite Hiff. split.
    + intros Hall. destruct bed as [|utr bed]; [left; reflexivity|]. right.
      pose proof Hall as Hall'. apply Forall_cons in Hall' as [Hu _].
      apply (count_utr_outcome snps testFile tcRate readNumber maxReadLength utr)
        in Hu as (Hm & Hrn & _).
      split; [exact Hm|]. split; [exact Hrn|].
      eapply Forall_impl; [exact Hall|]. intros u Hu. cbn beta in Hu.
      apply (count_utr_outcome snps testFile tcRate readNumber maxReadLength u) in Hu.
      tauto.
    + intros [->|(Hm & Hrn & Hall)]; [constructor|].
      eapply Forall_impl; [exact Hall|]. intros u Hu. cbn beta in Hu.
      apply (count_utr_outcome snps testFile tcRate readNumber maxReadLength u).
      tauto.
  - intros H. rewrite (Hlen H). reflexivity.
  - intros Hne Hbad. destruct bed as [|utr bed]; [contradiction|].
    destruct (Hfirst utr bed eq_refl) as (Hrows & e & He & Hrun).
    { intros Hok.
      apply (count_utr_outcome snps testFile tcRate readNumber maxReadLength utr)
        in Hok. lia. }
    split; [exact Hrows|]. rewrite He.
    destruct (count_utr_outcome snps testFile tcRate readNumber maxReadLength utr)
      as (_ & Hexn & _).
    destruct (Hexn e Hrun) as [->| ->]; auto.
Qed.

Lemma count_completes_witness :
  let snps := {| Count.getAGSNPsInUTR := fun _ _ _ _ => 0;
                 Count.getTCSNPsInUTR := fun _ _ _ _ => 0 |} in
  let table := Count.count snps (Samples.bam []) (fun _ => 0%Q) 0 100
                 [Samples.utr_plus] in
  Count.fileCSV table = [] /\ Count.raised table = Some ZeroDivisionError.
Proof.
  intros snps table.
  destruct (count_completes snps (Samples.bam []) (fun _ => 0%Q) 0 100
              [Samples.utr_plus]) as (_ & _ & Hnone).
  destruct Hnone as [Hrows _]; [discriminate|left; reflexivity|].
  split; [exact Hrows|]. vm_compute. reflexivity.
Defined.

(** ** The table over the samples *)

Section SummaryRows.
Import Summary.
Variable colNumber : Z.

Lemma getitem_outcome (row : list string) :
  (has_column colNumber row -> PySeq.getitem row colNumber = Ok (cell colNumber row))
  /\ (~ has_column colNumber row -> PySeq.getitem row colNumber = Raise IndexError).
Proof.
  unfold has_column, cell, PySeq.getitem.
  destruct (position_Some row colNumber) as [Hin Hout]. cbn zeta in Hin, Hout. split.
  - intros H. rewrite (Hin H). unfold Py.index.
    destruct (row !! _) eqn:Hl; [reflexivity|].
    apply lookup_ge_None in Hl. destruct (decide (colNumber < 0)); lia.
  - intros H. rewrite (Hout H). reflexivity.
Qed.

(** The row of one tuple. *)
Lemma combine_rest (rows : list (list string)) :
  forall combined_row : list string,
  (Forall (has_column colNumber) rows ->
   for_each (combine colNumber) rows (combined_row, false)
   = Ok ((combined_row ++ (cell colNumber <$> rows))%list, false))
  /\ (~ Forall (has_column colNumber) rows ->
      for_each (combine colNumber) rows (combined_row, false) = Raise IndexError).
Proof.
  induction rows as [|row rows IH]; intros combined_row.
  - split; [|intros H; exfalso; apply H; constructor].
    intros _. simpl. rewrite app_nil_r. reflexivity.
  - destruct (getitem_outcome row) as [Hin Hout]. cbn [for_each combine].
    destruct (decide (has_column colNumber row)) as [Hr|Hr].
    + rewrite (Hin Hr). cbn [mbind result_bind].
      destruct (IH (combined_row ++ [cell colNumber row])%list) as [IHin IHout]. split.
      * intros Hall. apply Forall_cons in Hall as [_ Hall]. rewrite (IHin Hall).
        rewrite fmap_cons, <- app_assoc. reflexivity.
      * intros Hall. apply IHout. intros H. apply Hall. constructor; assumption.
    + rewrite (Hout Hr). split; [|reflexivity].
      intros Hall. apply Forall_cons in Hall as [H _]. contradiction.
Qed.

Lemma combine_tuple (tuple : list (list string)) :
  (Forall (has_column colNumber) tuple ->
   for_each (combine colNumber) tuple ([], true)
   = Ok (summary_row colNumber tuple, match tuple with [] => true | _ => false end))
  /\ (~ Forall (has_column colNumber) tuple ->
      for_each (combine colNumber) tuple ([], true) = Raise IndexError).
Proof.
  destruct tuple as [|row rows].
  - split; [reflexivity|]. intros H. exfalso. apply H. constructor.
  - destruct (getitem_outcome row) as [Hin Hout]. cbn [for_each combine].
    destruct (decide (has_column colNumber row)) as [Hr|Hr].
    + rewrite (Hin Hr). cbn [mbind result_bind].
      destruct (combine_rest rows ([] ++ take 4 row ++ [cell colNumber row])%list)
        as [IHin IHout]. split.
      * intros Hall. apply Forall_cons in Hall as [_ Hall]. rewrite (IHin Hall).
        unfold summary_row. rewrite fmap_cons. simpl. rewrite <- app_assoc.
        reflexivity.
      * intros Hall. apply IHout. intros H. apply Hall. constructor; assumption.
    + rewrite (Hout Hr). split; [|reflexivity].
      intros Hall. apply Forall_cons in Hall as [H _]. contradiction.
Qed.

(** The rows written for the tuples after the header. *)
Lemma write_data_rows (tuples : list (list (list string))) :
  forall out : list (list string),
  let w := write_rows colNumber tuples out false in
  (Forall (Forall (has_column colNumber)) tuples ->
   w = {| rows := (out ++ (summary_row colNumber <$> tuples))%list; raised := None |})
  /\ (~ Forall (Forall (has_column colNumber)) tuples ->
      raised w = Some IndexError
      /\ forall j tuple, tuples !! j = Some tuple ->
           ~ Forall (has_column colNumber) tuple ->
           (length (rows w) <= length out + j)%nat).
Proof.
  induction tuples as [|tuple tuples IH]; intros out w; subst w.
  - split; [|intros H; exfalso; apply H; constructor].
    intros _. simpl. rewrite app_nil_r. reflexivity.
  - cbn [write_rows negb]. destruct (combine_tuple tuple) as [Hin Hout].
    destruct (decide (Forall (has_column colNumber) tuple)) as [Ht|Ht].
    + rewrite (Hin Ht).
      destruct (IH (out ++ [summary_row colNumber tuple])%list) as [IHin IHout].
      cbn zeta in IHin, IHout. split.
      * intros Hall. apply Forall_cons in Hall as [_ Hall]. rewrite (IHin Hall).
        rewrite fmap_cons, <- app_assoc. reflexivity.
      * intros Hall.
        destruct IHout as [Hraised Hlen].
        { intros H. apply Hall. constructor; assumption. }
        split; [exact Hraised|]. intros j tu Hj Hbad.
        destruct j as [|j]; simpl in Hj; [injection Hj as <-; contradiction|].
        specialize (Hlen j tu Hj Hbad). rewrite length_app in Hlen. simpl in Hlen. lia.
    + rewrite (Hout Ht). simpl. split.
      * intros Hall. apply Forall_cons in Hall as [H _]. contradiction.
      * intros _. split; [reflexivity|]. intros j tu _ _. lia.
Qed.

Lemma write_rows_header (tuples : list (list (list string))) (out : list (list string)) :
  write_rows colNumber tuples out true = write_rows colNumber (drop 1 tuples) out false.
Proof. destruct tuples; reflexivity. Qed.
End SummaryRows.



Section SummaryPadding.
Import Summary.

Lemma izip_longest_lookup {A : Type} (fill : A) (iterables : list (list A)) (j : nat) :
  (j < foldr Nat.max 0%nat (length <$> iterables))%nat ->
  izip_longest fill iterables !! j
  = Some ((fun it => default fill (it !! j)) <$> iterables).
Proof.
  intros Hj. unfold izip_longest. rewrite list_lookup_fmap.
  rewrite lookup_seq_lt by exact Hj. reflexivity.
Qed.
End SummaryPadding.

(** X23: [summary] pads the tables that are shorter than the longest one
    with rows of two empty cells.  So when a table has fewer rows than
    another one, the longest having at least two, and [colNumber] is 2 or
    more (or below -2), the call ends in [IndexError], having written the
    names and at most the rows that the shorter table has a data row
    for. *)
Theorem summary_pads_short_tables
    (reader : string -> list (list string)) (sampleName : string -> string)
    (bams : list string) (colNumber : Z) (b : string) :
  b ∈ bams ->
  (length (reader b) < longest (reader <$> bams))%nat ->
  (2 <= longest (reader <$> bams))%nat ->
  2 <= colNumber \/ colNumber < -2 ->
  let out := Summary.summary reader sampleName bams colNumber in
  Summary.raised out = Some IndexError
  /\ (length (Summary.rows out) <= Nat.max 1 (length (reader b)))%nat.
Proof.
  intros Hb Hshort Hlong Hcol out. subst out. unfold Summary.summary.
  rewrite write_rows_header.
  set (names := (["chr"; "start"; "end"; "gene"] ++ (sampleName <$> bams))%list).
  set (tuples := drop 1 (Summary.izip_longest [EmptyString; EmptyString]
                           (reader <$> bams))).
  set (j := (Nat.max 1 (length (reader b)) - 1)%nat).
  assert (exists tuple, tuples !! j = Some tuple
                        /\ ~ Forall (has_column colNumber) tuple) as (tuple & Hj & Hbad).
  { eexists. split.
    - subst tuples. rewrite lookup_drop. apply izip_longest_lookup.
      unfold longest in *. lia.
    - intros Hall. rewrite Forall_forall in Hall.
      assert (has_column colNumber [EmptyString; EmptyString]) as Hfill.
      { apply Hall. apply list_elem_of_fmap.
        exists (reader b). split; [|apply list_elem_of_fmap; eauto].
        rewrite lookup_ge_None_2; [reflexivity|]. lia. }
      unfold has_column in Hfill. simpl in Hfill. lia. }
  destruct (write_data_rows colNumber tuples [names]) as [_ Hfail].
  cbn zeta in Hfail. destruct Hfail as [Hraised Hlen].
  { intros Hall. rewrite Forall_forall in Hall. apply Hbad, Hall.
    eapply list_elem_of_lookup_2, Hj. }
  split; [exact Hraised|]. specialize (Hlen j tuple Hj Hbad). simpl in Hlen. lia.
Qed.

Lemma summary_pads_short_tables_witness :
  let reader := fun f : string =>
    if String.eqb f "a.tsv"
    then [["chr"; "start"; "end"; "gene"; "n"];
          ["chr1"; "100"; "110"; "utr1"; "7"];
          ["chr1"; "200"; "204"; "utr2"; "3"]]
    else [["chr"; "start"; "end"; "gene"; "n"];
          ["chr1"; "100"; "110"; "utr1"; "5"]] in
  let out := Summary.summary reader (fun f => f) ["a.tsv"; "b.tsv"] 4 in
  Summary.raised out = Some IndexError
  /\ Summary.rows out
     = [["chr"; "start"; "end"; "gene"; "a.tsv"; "b.tsv"];
        ["chr1"; "100"; "110"; "utr1"; "7"; "5"]].
Proof.
  intros reader out. split; [|vm_compute; reflexivity].
  apply (summary_pads_short_tables reader (fun f => f) ["a.tsv"; "b.tsv"] 4 "b.tsv").
  - right. left.
  - vm_compute. lia.
  - vm_compute. lia.
  - left. lia.
Defined.

(** ** The two sums of a row *)

Section RowSums.
Import TCounter.

Lemma on_convertible_counted (utr : BedEntry) (refSeq : string) (s : Scan) (p : nat)
    (hit : bool) :
  hasStrand utr = true ->
  on_convertible utr refSeq (coverageUtr s !!! p) p = Ok hit ->
  hit = counted_offset utr refSeq s p.
Proof.
  intros Hs. apply hasStrand_cases in Hs.
  unfold on_convertible, counted_offset, convertible, Py.get_char.
  destruct (decide (0 < coverageUtr s !!! p)) as [Hcov|Hcov].
  2:{ rewrite bool_decide_eq_false_2 by exact Hcov. intros [= <-]. reflexivity. }
  rewrite bool_decide_eq_true_2 by exact Hcov. simpl.
  destruct Hs as [Hs|Hs]; rewrite Hs; simpl;
    destruct (String.get p refSeq); simpl; congruence.
Qed.

Lemma positions_sums (utr : BedEntry) (refSeq : string) (s : Scan) (ps : list nat) :
  hasStrand utr = true ->
  forall acc acc',
  for_each (position_body utr refSeq s) ps acc = Ok acc' ->
  accCoverageOnTs acc'
  = accCoverageOnTs acc
    + Zsum ((fun p => if counted_offset utr refSeq s p then coverageUtr s !!! p else 0)
              <$> ps)
  /\ accConversionsOnTs acc'
     = accConversionsOnTs acc
       + Zsum ((fun p => if counted_offset utr refSeq s p then tcCountUtr s !!! p else 0)
                 <$> ps).
Proof.
  intros Hs. induction ps as [|p ps IH]; intros acc acc' Hrun; simpl in Hrun.
  - injection Hrun as <-. simpl. lia.
  - destruct (position_body utr refSeq s acc p) as [acc1|e] eqn:Hb; simpl in Hrun;
      [|discriminate].
    destruct (IH acc1 acc' Hrun) as [-> ->]. rewrite !fmap_cons. cbn [Zsum foldr].
    fold (Zsum ((fun p => if counted_offset utr refSeq s p
                          then coverageUtr s !!! p else 0) <$> ps)).
    fold (Zsum ((fun p => if counted_offset utr refSeq s p
                          then tcCountUtr s !!! p else 0) <$> ps)).
    unfold position_body in Hb.
    destruct (on_convertible utr refSeq (coverageUtr s !!! p) p) as [hit|e] eqn:Hhit;
      simpl in Hb; [|discriminate].
    rewrite <- (on_convertible_counted utr refSeq s p hit Hs Hhit).
    injection Hb as <-.
    destruct hit; destruct (decide (0 < coverageUtr s !!! p)); simpl; lia.
Qed.
End RowSums.

(** X24: in the row of an interval whose strand has reads,
    [coverageOnTs] is the sum of [coverageUtr] and [conversionsOnTs] the
    sum of [tcCountUtr] over the offsets of the interval that are covered
    and hold the convertible base of the strand ([T], or [A] for the minus
    strand) in the reference sequence of the read iterator; conversions
    counted at an offset that no read covers are not in the row. *)
Theorem row_sums_over_convertible_offsets
    (referenceFile : TCounter.FastaFile) (testFile : TCounter.SlamSeqBamFile)
    (readNumber maxReadLength : Z) (strictTCs : bool) (bg bg' : gmap string Q)
    (utr : TCounter.BedEntry) (row : TCounter.SlamSeqInterval) :
  TCounter.process_utr referenceFile testFile readNumber maxReadLength strictTCs
                       bg utr = Ok (row, bg') ->
  TCounter.readCount row <> 0 ->
  let s := scan_of testFile maxReadLength strictTCs utr in
  let refSeq := refSeq_of testFile maxReadLength utr in
  TCounter.coverageOnTs row = sum_over_counted utr refSeq s (TCounter.coverageUtr s)
  /\ TCounter.conversionsOnTs row
     = sum_over_counted utr refSeq s (TCounter.tcCountUtr s).
Proof.
  intros Hrun Hrc s refSeq.
  destruct (process_utr_Ok_checks _ _ _ _ _ _ _ _ _ Hrun) as [Hs Hstart].
  rewrite process_utr_checked in Hrun by assumption.
  fold (scan_of testFile maxReadLength strictTCs utr) in Hrun.
  fold (refSeq_of testFile maxReadLength utr) in Hrun. fold s refSeq in Hrun.
  apply summarise_Ok in Hrun as [(_ & -> & _)|(_ & acc & Hacc & -> & _)].
  { simpl in Hrc. contradiction. }
  unfold TCounter.scan_positions in Hacc.
  destruct (positions_sums utr refSeq s _ Hs _ _ Hacc) as [Hcov Hconv].
  unfold TCounter.counted_row, sum_over_counted; simpl.
  rewrite Hcov, Hconv. simpl. split; lia.
Qed.

Lemma row_sums_over_convertible_offsets_witness :
  let rs := [Samples.read TCounter.Forward 0 2 [Samples.conversion_at 1;
                                               Samples.conversion_at 7];
             Samples.read TCounter.Forward 1 4 []] in
  match TCounter.process_utr Samples.fasta (Samples.bam rs) 1000000 100 false ∅
          Samples.utr_plus with
  | Ok (row, _) => TCounter.coverageOnTs row = 5 /\ TCounter.conversionsOnTs row = 1
  | Raise _ => False
  end.
Proof.
  intros rs.
  assert (match TCounter.process_utr Samples.fasta (Samples.bam rs) 1000000 100 false ∅
                  Samples.utr_plus with
          | Ok (row, _) => TCounter.readCount row <> 0
          | Raise _ => False
          end) as Hok by (vm_compute; discriminate).
  revert Hok.
  destruct (TCounter.process_utr Samples.fasta (Samples.bam rs) 1000000 100 false ∅
              Samples.utr_plus) as [[row bg']|e] eqn:Hrun; [|tauto].
  intros Hrc.
  destruct (row_sums_over_convertible_offsets _ _ _ _ _ _ _ _ _ Hrun Hrc) as [-> ->].
  split; vm_compute; reflexivity.
Defined.

(** ** The conditions of a row, on the reads of the region *)

Section RowConditions.
Import TCounter.
Variables (utr : BedEntry) (strictTCs : bool).

(** The coverage of an offset is the number of reads that span it. *)
Lemma coverage_counts_spans (rs : list Read) (i : nat) :
  (i < Z.to_nat (getLength utr))%nat ->
  coverageUtr (scan_reads utr strictTCs rs) !! i
  = Some (Z.of_nat (length (filter (spans i) rs))).
Proof.
  intros Hi. induction rs as [|read rs IH] using rev_ind.
  - simpl. unfold zeros. rewrite lookup_replicate_2 by exact Hi. reflexivity.
  - rewrite scan_reads_snoc, count_read_cov, IH. simpl.
    rewrite (cover_span utr read i Hi), length_filter_snoc. reflexivity.
Qed.

Lemma filter_nonempty {X : Type} (P : X -> Prop) `{forall x, Decision (P x)}
    (l : list X) :
  (0 < length (filter P l))%nat <-> Exists P l.
Proof.
  rewrite Exists_exists. split.
  - intros Hlen. destruct (filter P l) as [|x xs] eqn:Hf; [simpl in Hlen; lia|].
    exists x. assert (x ∈ filter P l) as Hx by (rewrite Hf; left).
    apply list_elem_of_filter in Hx as [Hp Hin]. split; assumption.
  - intros (x & Hin & Hp).
    assert (x ∈ filter P l) as Hx by (apply list_elem_of_filter; split; assumption).
    destruct (filter P l); [inversion Hx|simpl; lia].
Qed.

Lemma reference_covers_spans (refSeq : string) (rs : list Read) :
  reference_covers refSeq (scan_reads utr strictTCs rs)
  <-> covered_within refSeq utr rs.
Proof.
  unfold reference_covers, covered_within. rewrite Forall_forall. split.
  - intros H p Hp Hex. apply elem_of_seq in Hp as [_ Hp]. simpl in Hp.
    apply (H p _ (coverage_counts_spans rs p Hp)).
    apply (filter_nonempty (spans p) rs) in Hex. lia.
  - intros H p v Hv Hpos.
    assert (p < Z.to_nat (getLength utr))%nat as Hp.
    { apply lookup_lt_Some in Hv.
      destruct (scan_lengths utr strictTCs rs) as [_ Hlen]. rewrite Hlen in Hv.
      exact Hv. }
    rewrite (coverage_counts_spans rs p Hp) in Hv. injection Hv as <-.
    apply H; [apply elem_of_seq; simpl; lia|].
    apply (filter_nonempty (spans p) rs). lia.
Qed.

Lemma dominates_outnumbered (rs : list Read) :
  hasStrand utr = true ->
  opposite_strand_dominates utr (scan_reads utr strictTCs rs) = true
  <-> outnumbered utr rs.
Proof.
  intros Hs.
  destruct (scan_counters utr strictTCs rs) as (H1 & H2 & _).
  unfold opposite_strand_dominates, outnumbered. rewrite H1, H2.
  apply hasStrand_cases in Hs as [Hs|Hs]; rewrite Hs; simpl.
  - rewrite bool_decide_eq_true.
    rewrite (list_filter_iff (on_strand utr) (fun r => is_reverse r = false)).
    2:{ intros r. unfold on_strand. rewrite Hs. reflexivity. }
    rewrite (list_filter_iff (fun r => ~ on_strand utr r)
                             (fun r => is_reverse r = true)).
    2:{ intros r. unfold on_strand. rewrite Hs. simpl.
        destruct (is_reverse r); split; congruence. }
    lia.
  - rewrite ?orb_false_r, bool_decide_eq_true.
    rewrite (list_filter_iff (on_strand utr) (fun r => is_reverse r = true)).
    2:{ intros r. unfold on_strand. rewrite Hs. reflexivity. }
    rewrite (list_filter_iff (fun r => ~ on_strand utr r)
                             (fun r => is_reverse r = false)).
    2:{ intros r. unfold on_strand. rewrite Hs. simpl.
        destruct (is_reverse r); split; congruence. }
    lia.
Qed.

Lemma strand_reads_exist (rs : list Read) :
  hasStrand utr = true ->
  strand_has_reads utr (scan_reads utr strictTCs rs) = true
  <-> Exists (on_strand utr) rs.
Proof.
  intros Hs. destruct (strand_counters utr strictTCs rs Hs) as (_ & _ & _ & Hiff).
  cbn zeta in Hiff. rewrite Hiff, <- (filter_nonempty (on_strand utr) rs).
  destruct (filter (on_strand utr) rs); simpl; split; intros H;
    first [lia|discriminate|contradiction].
Qed.
End RowConditions.

Section RowConditionsOfARun.
Import TCounter.
Variables (referenceFile : FastaFile) (testFile : SlamSeqBamFile).
Variables (readNumber maxReadLength : Z) (strictTCs : bool).

(** The conditions on the counters of the scan are those on the reads. *)
Lemma interval_passes_conditions (utr : BedEntry) :
  interval_passes testFile maxReadLength strictTCs utr
  <-> row_conditions testFile maxReadLength utr.
Proof.
  unfold interval_passes, row_conditions, scan_of, refSeq_of.
  fold (reads_of testFile maxReadLength utr).
  fold (refSeq_of testFile maxReadLength utr).
  split; intros (Hs & Hstart & H); (split; [exact Hs|]); (split; [exact Hstart|]).
  - intros Hex. apply (strand_reads_exist utr strictTCs _ Hs) in Hex.
    destruct (H Hex) as [Hdom Hcov]. split.
    + intros Hout. apply (dominates_outnumbered utr strictTCs _ Hs) in Hout. congruence.
    + apply (reference_covers_spans utr strictTCs), Hcov.
  - intros Hreads. apply (strand_reads_exist utr strictTCs _ Hs) in Hreads.
    destruct (H Hreads) as [Hout Hcov]. split.
    + destruct (opposite_strand_dominates utr _) eqn:Hdom; [|reflexivity].
      exfalso. apply Hout. apply (dominates_outnumbered utr strictTCs _ Hs), Hdom.
    + apply (reference_covers_spans utr strictTCs), Hcov.
Qed.

Lemma process_utr_overruns (bg : gmap string Q) (utr : BedEntry) :
  process_utr referenceFile testFile readNumber maxReadLength strictTCs bg utr
  = Raise IndexError
  <-> overruns_reference testFile maxReadLength utr.
Proof.
  unfold overruns_reference. split.
  - intros Hrun.
    destruct (process_utr_raises _ _ _ _ _ _ _ _ Hrun)
      as [(_ & He)|[(_ & _ & He)|(Hs & Hstart & Hreads & [(_ & He)|(Hdom & Hcov & _)])]];
      try discriminate.
    unfold scan_of in Hreads, Hdom, Hcov.
    fold (reads_of testFile maxReadLength utr) in Hreads, Hdom, Hcov.
    split; [exact Hs|]. split; [exact Hstart|]. split; [|split].
    + apply (strand_reads_exist utr strictTCs _ Hs), Hreads.
    + intros Hout. apply (dominates_outnumbered utr strictTCs _ Hs) in Hout. congruence.
    + intros H. apply Hcov. apply (reference_covers_spans utr strictTCs), H.
  - intros (Hs & Hstart & Hex & Hout & Hcov).
    destruct (process_utr referenceFile testFile readNumber maxReadLength
                strictTCs bg utr) as [[row bg']|e] eqn:Hrun.
    + exfalso. apply Hcov.
      assert (row_conditions testFile maxReadLength utr) as (_ & _ & H).
      { apply interval_passes_conditions.
        apply (process_utr_passes referenceFile testFile readNumber maxReadLength
                 strictTCs bg utr).
        rewrite Hrun. eexists; reflexivity. }
      apply (H Hex).
    + destruct (process_utr_raises _ _ _ _ _ _ _ _ Hrun)
        as [(Hs' & _)|[(_ & Hneg & _)|(_ & _ & _ & [(Hdom & _)|(_ & _ & ->)])]];
        try reflexivity; try congruence; try lia.
      exfalso. apply Hout.
      unfold scan_of in Hdom. fold (reads_of testFile maxReadLength utr) in Hdom.
      apply (dominates_outnumbered utr strictTCs _ Hs), Hdom.
Qed.
End RowConditionsOfARun.

(** X7: the count table follows the BED file.  Its rows name, in order,
    the first intervals of the file (chromosome, start, stop, strand and
    name are those of the interval), and the table stops before the first
    interval that fails a condition of a row: a strand, a start that is not
    negative and, when some read of the region has the direction of the
    strand, not more reads of the other direction and no spanned offset
    past the reference sequence of the read iterator.  A run that reaches
    its end has the expected BAM version and a row for every interval, each
    of which meets the conditions.  With the expected BAM version, the
    first [n] intervals get their rows when they meet the conditions and
    their chromosomes are not in the reference file, so that no sequence is
    fetched for them. *)
Theorem count_table_follows_intervals
    (bam_version : string) (referenceFile : TCounter.FastaFile)
    (bed : list TCounter.BedEntry) (testFile : TCounter.SlamSeqBamFile)
    (readNumber maxReadLength : Z) (strictTCs : bool) :
  let run := TCounter.computeTconversions bam_version referenceFile bed testFile
               readNumber maxReadLength strictTCs in
  (forall (i : nat) (row : TCounter.SlamSeqInterval),
     TCounter.fileCSV run !! i = Some row ->
     exists utr,
       bed !! i = Some utr
       /\ TCounter.iv_chromosome row = TCounter.chromosome utr
       /\ TCounter.iv_start row = TCounter.start utr
       /\ TCounter.iv_stop row = TCounter.stop utr
       /\ TCounter.iv_strand row = TCounter.strand utr
       /\ TCounter.iv_name row = TCounter.name utr)
  /\ (forall i utr,
        bed !! i = Some utr ->
        ~ row_conditions testFile maxReadLength utr ->
        (length (TCounter.fileCSV run) <= i)%nat)
  /\ (is_Ok (TCounter.ending run) ->
      TCounter.bamVersion testFile = bam_version
      /\ length (TCounter.fileCSV run) = length bed
      /\ Forall (row_conditions testFile maxReadLength) bed)
  /\ (TCounter.bamVersion testFile = bam_version ->
      forall n, (n <= length bed)%nat ->
        Forall (fun utr =>
                  row_conditions testFile maxReadLength utr
                  /\ TCounter.chromosome utr ∉ TCounter.references referenceFile)
               (take n bed) ->
        (n <= length (TCounter.fileCSV run))%nat).
Proof.
  intros run. subst run. unfold TCounter.computeTconversions.
  destruct (decide (TCounter.bamVersion testFile = bam_version)) as [Hv|Hv]; simpl.
  2:{ split; [intros i row H; rewrite lookup_nil in H; discriminate|].
      split; [intros; lia|]. split; [intros [x Hx]; discriminate|contradiction]. }
  destruct (utr_loop_follows referenceFile testFile readNumber maxReadLength strictTCs
              bed [] [] ∅ ltac:(constructor))
    as (done' & rest & Heq & Hall & Hok & _).
  simpl in Heq. split; [|split; [|split]].
  - intros i row Hi.
    destruct (Forall2_lookup_r _ _ _ _ _ Hall Hi) as (utr & Hu & H).
    exists utr. split; [|exact H]. rewrite Heq. apply lookup_app_l_Some, Hu.
  - intros i utr Hi Hbad.
    apply (utr_loop_stops referenceFile testFile readNumber maxReadLength strictTCs
             bed [] ∅ i utr Hi).
    intros Hpass. apply Hbad.
    apply (interval_passes_conditions testFile maxReadLength strictTCs), Hpass.
  - intros Hend. split; [exact Hv|]. split.
    + rewrite (Hok Hend), app_nil_r in Heq. subst done'.
      symmetry. exact (Forall2_length _ _ _ Hall).
    + pose proof (utr_loop_ending referenceFile testFile readNumber maxReadLength
                    strictTCs bed [] ∅) as Hloop.
      pose proof (final_bedgraph_passes referenceFile testFile readNumber maxReadLength
                    strictTCs bed ∅) as Hpass.
      destruct (final_bedgraph referenceFile testFile readNumber maxReadLength
                  strictTCs bed ∅) as [bgf|].
      * eapply Forall_impl; [apply Hpass; eauto|].
        intros utr. apply interval_passes_conditions.
      * destruct Hloop as [e He]. rewrite He in Hend. destruct Hend as [x Hx].
        discriminate.
  - intros _ n Hn Hpass.
    apply (utr_loop_goes_on referenceFile testFile readNumber maxReadLength strictTCs
             bed [] ∅ n Hn).
    eapply Forall_impl; [exact Hpass|]. intros utr [H _].
    apply (interval_passes_conditions testFile maxReadLength strictTCs), H.
Qed.

Lemma count_table_follows_intervals_witness :
  let unstranded :=
    {| TCounter.chromosome := "chr1"; TCounter.start := 300; TCounter.stop := 310;
       TCounter.strand := "."; TCounter.name := "utr5" |} in
  let elsewhere :=
    {| TCounter.chromosome := "chrUn"; TCounter.start := 100; TCounter.stop := 110;
       TCounter.strand := "+"; TCounter.name := "utr3" |} in
  let bed := [elsewhere; unstranded; Samples.utr_second] in
  let file := Samples.bam [Samples.read TCounter.Forward 0 10 []] in
  let run := TCounter.computeTconversions "3" Samples.fasta bed file 1000000 100 false in
  ~ row_conditions file 100 unstranded
  /\ row_conditions file 100 elsewhere
  /\ TCounter.iv_name <$> TCounter.fileCSV run = ["utr3"]
  /\ (1 <= length (TCounter.fileCSV run) <= 1)%nat.
Proof.
  intros unstranded elsewhere bed file run.
  assert (~ row_conditions file 100 unstranded) as Hbad.
  { intros (Hs & _). vm_compute in Hs. discriminate. }
  assert (row_conditions file 100 elsewhere) as Hgood.
  { apply (bool_decide_unpack _). vm_compute. exact I. }
  split; [exact Hbad|]. split; [exact Hgood|]. split; [vm_compute; reflexivity|].
  destruct (count_table_follows_intervals "3" Samples.fasta bed file
              1000000 100 false) as (_ & Hstop & _ & Hgo).
  split.
  - apply (Hgo eq_refl 1%nat); [simpl; lia|].
    apply Forall_singleton. split; [exact Hgood|].
    intros Hin. apply list_elem_of_singleton in Hin. discriminate.
  - apply (Hstop 1%nat unstranded eq_refl Hbad).
Defined.

(** X8: an interval that gets its row has a strand, a start that is not
    negative and, when some read of its region has the direction of its
    strand, not more reads of the other direction and no spanned offset
    past the end of the reference sequence the read iterator hands out;
    what the bedgraph dictionary holds plays no part.  An interval that
    ends the run in [IndexError] meets all of these but the last: a read
    spans one of its offsets past that sequence.  For an interval whose
    chromosome is not in the reference file, for which no sequence is
    fetched, both hold the other way round as well.  A reference sequence
    as long as the interval has every spanned offset within it. *)
Theorem interval_row_or_exception
    (referenceFile : TCounter.FastaFile) (testFile : TCounter.SlamSeqBamFile)
    (readNumber maxReadLength : Z) (strictTCs : bool) (bg : gmap string Q)
    (utr : TCounter.BedEntry) :
  let outcome :=
    TCounter.process_utr referenceFile testFile readNumber maxReadLength strictTCs
                         bg utr in
  (is_Ok outcome -> row_conditions testFile maxReadLength utr)
  /\ (outcome = Raise IndexError -> overruns_reference testFile maxReadLength utr)
  /\ (TCounter.chromosome utr ∉ TCounter.references referenceFile ->
      (row_conditions testFile maxReadLength utr -> is_Ok outcome)
      /\ (overruns_reference testFile maxReadLength utr -> outcome = Raise IndexError))
  /\ (TCounter.getLength utr
      <= Z.of_nat (String.length (refSeq_of testFile maxReadLength utr)) ->
      covered_within (refSeq_of testFile maxReadLength utr) utr
        (reads_of testFile maxReadLength utr)).
Proof.
  intros outcome. subst outcome.
  pose proof (process_utr_passes referenceFile testFile readNumber maxReadLength
                strictTCs bg utr) as Hpass.
  pose proof (interval_passes_conditions testFile maxReadLength strictTCs utr) as Hcond.
  pose proof (process_utr_overruns referenceFile testFile readNumber maxReadLength
                strictTCs bg utr) as Hover.
  split; [tauto|]. split; [tauto|]. split; [tauto|].
  intros Hlen. unfold covered_within. apply Forall_forall.
  intros p Hp _. apply elem_of_seq in Hp. lia.
Qed.

Lemma interval_row_or_exception_witness :
  let short :=
    {| TCounter.bamVersion := "3";
       TCounter.readInRegion := fun _ _ _ _ _ =>
         {| TCounter.reads := [Samples.read TCounter.Forward 0 10 []];
            TCounter.getRefSeq := "TTT" |} |} in
  let elsewhere :=
    {| TCounter.chromosome := "chrUn"; TCounter.start := 100; TCounter.stop := 110;
       TCounter.strand := "+"; TCounter.name := "utr3" |} in
  overruns_reference short 100 elsewhere
  /\ TCounter.process_utr Samples.fasta short 1000000 100 false ∅ elsewhere
     = Raise IndexError
  /\ row_conditions (Samples.bam [Samples.read TCounter.Forward 0 10 []]) 100
       Samples.utr_plus
  /\ covered_within "TTTTTTTTTT" Samples.utr_plus [Samples.read TCounter.Forward 0 10 []].
Proof.
  intros short elsewhere.
  assert (overruns_reference short 100 elsewhere) as Hover.
  { apply (bool_decide_unpack _). vm_compute. exact I. }
  assert (TCounter.chromosome elsewhere ∉ TCounter.references Samples.fasta) as Hout.
  { intros Hin. apply list_elem_of_singleton in Hin. discriminate. }
  split; [exact Hover|]. split; [|split].
  - apply (interval_row_or_exception Samples.fasta short 1000000 100 false ∅
             elsewhere); assumption.
  - apply (interval_row_or_exception Samples.fasta
             (Samples.bam [Samples.read TCounter.Forward 0 10 []]) 1000000 100 false ∅
             Samples.utr_plus).
    assert (match TCounter.process_utr Samples.fasta
                    (Samples.bam [Samples.read TCounter.Forward 0 10 []])
                    1000000 100 false ∅ Samples.utr_plus with
            | Ok _ => True
            | Raise _ => False
            end) as Hok by (vm_compute; exact I).
    revert Hok.
    destruct (TCounter.process_utr Samples.fasta
                (Samples.bam [Samples.read TCounter.Forward 0 10 []])
                1000000 100 false ∅ Samples.utr_plus) as [x|e];
      [intros _; eexists; reflexivity|tauto].
  - apply (interval_row_or_exception Samples.fasta
             (Samples.bam [Samples.read TCounter.Forward 0 10 []]) 1000000 100 false ∅
             Samples.utr_plus).
    vm_compute. discriminate.
Defined.
